(** * Multi-tenant project/task backend: shallow embedding and properties

    The development follows the Python sources of the backend:

    - [tenants/models.py], [tenants/serializers.py], [tenants/views.py]:
      the public registry (Company, Domain) and company registration;
    - [core/models.py], [core/serializers.py], [core/signals.py],
      [core/views.py]: users, profiles, projects, tasks and the endpoints;
    - [core/tasks.py]: the background jobs.

    The persistent store is a record of tables; every PostgreSQL schema
    (the public one and one per tenant) owns its own tenant tables, and the
    connection carries the name of the active schema, as django-tenants'
    [connection.schema_name] does.  Code that raises is modelled in a small
    state-and-exception monad over the store, the connection, the log and the
    sent mail. *)

From Stdlib Require Import ZArith Ascii String List Bool Lia.
From stdpp Require Import base decidable option list gmap strings.

Local Open Scope string_scope.
Local Open Scope Z_scope.

(** ** Text

    Request text is a sequence of code points below 256 (Stdlib [string]);
    on those, [isalnum], [lower] and [replace] are Python's [str] methods. *)

Module Text.

Definition in_range (lo hi n : N) : bool := ((lo <=? n) && (n <=? hi))%N.

(** [str.isalnum] of a single character: decimal digits and letters of
    ASCII, and the letters and numeric characters of Latin-1. *)
Definition isalnum_char (c : ascii) : bool :=
  let n := N_of_ascii c in
  in_range 48 57 n || in_range 65 90 n || in_range 97 122 n
  || (n =? 170)%N || in_range 178 179 n || (n =? 181)%N
  || in_range 185 186 n || in_range 188 190 n
  || in_range 192 214 n || in_range 216 246 n || in_range 248 255 n.

Definition lower_char (c : ascii) : ascii :=
  let n := N_of_ascii c in
  if in_range 65 90 n || in_range 192 214 n || in_range 216 222 n
  then ascii_of_N (n + 32) else c.

Definition underscore : ascii := "_"%char.
Definition hyphen : ascii := "-"%char.

Fixpoint all_chars (p : ascii -> bool) (s : string) : bool :=
  match s with
  | EmptyString => true
  | String c s' => p c && all_chars p s'
  end.

(** [s.isalnum()]: at least one character, and all of them alphanumeric. *)
Definition isalnum (s : string) : bool :=
  match s with
  | EmptyString => false
  | _ => all_chars isalnum_char s
  end.

(** [s.replace('_', '')] *)
Fixpoint remove_underscores (s : string) : string :=
  match s with
  | EmptyString => EmptyString
  | String c s' =>
      if Ascii.eqb c underscore then remove_underscores s'
      else String c (remove_underscores s')
  end.

(** [s.lower()] *)
Fixpoint lower (s : string) : string :=
  match s with
  | EmptyString => EmptyString
  | String c s' => String (lower_char c) (lower s')
  end.

Fixpoint contains_char (c : ascii) (s : string) : bool :=
  match s with
  | EmptyString => false
  | String d s' => Ascii.eqb d c || contains_char c s'
  end.

(** What the specification calls "composed only of alphanumeric or
    underscore characters". *)
Definition alnum_or_underscore (c : ascii) : bool :=
  isalnum_char c || Ascii.eqb c underscore.

(** [str.isspace] of a single character: the white space of ASCII with its
    four separators, and the two of Latin-1. *)
Definition isspace_char (c : ascii) : bool :=
  let n := N_of_ascii c in
  in_range 9 13 n || in_range 28 32 n || (n =? 133)%N || (n =? 160)%N.

Fixpoint lstrip (s : string) : string :=
  match s with
  | EmptyString => EmptyString
  | String c s' => if isspace_char c then lstrip s' else s
  end.

Fixpoint rstrip (s : string) : string :=
  match s with
  | EmptyString => EmptyString
  | String c s' =>
      match rstrip s' with
      | EmptyString => if isspace_char c then EmptyString else String c EmptyString
      | r => String c r
      end
  end.

(** [s.strip()] *)
Definition strip (s : string) : string := rstrip (lstrip s).

(** [s.rsplit(sep, 1)] for a separator of one character: the text before
    and after its last occurrence, if it occurs. *)
Fixpoint rsplit1 (sep : ascii) (s : string) : option (string * string) :=
  match s with
  | EmptyString => None
  | String c s' =>
      match rsplit1 sep s' with
      | Some (before, after) => Some (String c before, after)
      | None => if Ascii.eqb c sep then Some (EmptyString, s') else None
      end
  end.

(** The double quotation mark, as a text. *)
Definition double_quote : string := String (ascii_of_N 34) EmptyString.

Definition null_char : ascii := ascii_of_N 0.

End Text.

(** ** Data model ([tenants/models.py], [core/models.py]) *)

(** Timestamps are microseconds since the epoch (the resolution of
    [datetime]); [timedelta(days=d)] is [d] days of them. *)
Definition timestamp := Z.
Definition timedelta_days (d : Z) : Z := d * 86400000000.

(** The range of [datetime]: from 0001-01-01T00:00:00 to
    9999-12-31T23:59:59.999999; a [timedelta] holds at most 999999999 days
    in either direction.  Outside of them the constructor and the
    subtraction raise [OverflowError]. *)
Definition datetime_min : timestamp := -62135596800000000.
Definition datetime_max : timestamp := 253402300799999999.
Definition timedelta_max_days : Z := 999999999.

(** [timedelta(days=d)] *)
Definition timedelta (d : Z) : option Z :=
  if Z.abs d <=? timedelta_max_days then Some (timedelta_days d) else None.

(** [t - delta] for a [datetime] and a [timedelta] *)
Definition datetime_sub (t : timestamp) (delta : Z) : option timestamp :=
  if (datetime_min <=? t - delta) && (t - delta <=? datetime_max)
  then Some (t - delta) else None.

Record Company := {
  company_id : nat;
  company_name : string;
  schema_name : string;
  subscription_plan : string;
  company_is_active : bool
}.

Record Domain := {
  domain_id : nat;
  domain : string;
  tenant : nat;
  is_primary : bool
}.

Record User := {
  user_id : nat;
  username : string;
  email : string;
  password : string;
  first_name : string;
  last_name : string;
  is_staff : bool;
  is_superuser : bool
}.

Record UserProfile := {
  profile_id : nat;
  profile_user : nat;
  role : string;
  phone : option string;
  department : option string;
  profile_is_active : bool
}.

Record Project := {
  project_id : nat;
  project_name : string;
  project_status : string;
  owner : nat;
  members : gset nat;
  project_created_at : timestamp
}.

Record Task := {
  task_id : nat;
  project : nat;
  title : string;
  priority : string;
  status : string;
  assigned_to : option nat;
  created_by : nat;
  due_date : option timestamp;
  completed_at : option timestamp;
  created_at : timestamp
}.

(** The tenant tables of one PostgreSQL schema. *)
Record Schema := {
  users : list User;
  profiles : list UserProfile;
  projects : list Project;
  tasks : list Task
}.

Definition empty_schema : Schema :=
  {| users := []; profiles := []; projects := []; tasks := [] |}.

(** The store: the shared tables of the registry and the schemas by name. *)
Record DB := {
  companies : list Company;
  domains : list Domain;
  schemas : gmap string Schema
}.

Definition public : string := "public".


(** ** The effect monad

    A computation reads and writes the world (store, active schema of the
    connection, log, sent mail) and either returns or raises a Python exception. *)

Inductive Exception :=
| IntegrityError (constraint : string)
| DoesNotExist
| ProgrammingError
| TenantCreationError
| OverflowError
| SMTPException.

Inductive LogRecord :=
| log_info (message : string) (subject : string) (count : nat)
| log_error (message : string) (subject : string) (e : Exception).

(** A message handed to [send_mail] (the text of the body is left out). *)
Record Mail := {
  mail_subject : string;
  mail_to : list string
}.

(** The e-mail backend of the settings: whether it delivers a message.  A
    refusal (the server is unreachable, or turns the message down) is an
    exception of [smtplib] or of the socket, [SMTPException] here. *)
Definition Backend := Mail -> bool.

Record World := {
  db : DB;
  connection_schema_name : string;
  log : list LogRecord;
  outbox : list Mail
}.

Inductive Result (A : Type) :=
| Return (a : A)
| Raise (e : Exception).
Arguments Return {A} a.
Arguments Raise {A} e.

Definition M (A : Type) : Type := World -> Result A * World.

#[global] Instance M_ret : MRet M := fun A a w => (Return a, w).
#[global] Instance M_bind : MBind M := fun A B k m w =>
  match m w with
  | (Return a, w') => k a w'
  | (Raise e, w') => (Raise e, w')
  end.

Definition raise {A} (e : Exception) : M A := fun w => (Raise e, w).

Definition get_db : M DB := fun w => (Return (db w), w).

Definition put_db (d : DB) : M unit := fun w =>
  (Return tt, {| db := d; connection_schema_name := connection_schema_name w;
                 log := log w; outbox := outbox w |}).

Definition get_schema_name : M string := fun w =>
  (Return (connection_schema_name w), w).

(** [connection.set_schema(name)] / [connection.set_tenant(company)] *)
Definition set_schema (name : string) : M unit := fun w =>
  (Return tt, {| db := db w; connection_schema_name := name; log := log w;
                 outbox := outbox w |}).

Definition set_tenant (c : Company) : M unit := set_schema (schema_name c).

Definition logger (r : LogRecord) : M unit := fun w =>
  (Return tt, {| db := db w; connection_schema_name := connection_schema_name w;
                 log := log w ++ [r]; outbox := outbox w |}).

(** [with transaction.atomic(): body]: when the body raises, the store goes
    back to what it was on entry and the exception propagates; the
    connection object and the log are Python state and are not undone. *)
Definition transaction_atomic {A} (body : M A) : M A := fun w =>
  match body w with
  | (Return a, w') => (Return a, w')
  | (Raise e, w') =>
      (Raise e, {| db := db w;
                   connection_schema_name := connection_schema_name w';
                   log := log w'; outbox := outbox w' |})
  end.

(** [with schema_context(name): body] (django_tenants.utils): activates the
    schema, runs the body, and in a [finally] puts the previous schema back. *)
Definition schema_context {A} (name : string) (body : M A) : M A := fun w =>
  let previous := connection_schema_name w in
  match body {| db := db w; connection_schema_name := name; log := log w;
                outbox := outbox w |} with
  | (r, w') =>
      (r, {| db := db w'; connection_schema_name := previous; log := log w';
             outbox := outbox w' |})
  end.

(** [try: body except Exception as e: handler(e)] *)
Definition try_except {A} (body : M A) (handler : Exception -> M A) : M A := fun w =>
  match body w with
  | (Return a, w') => (Return a, w')
  | (Raise e, w') => handler e w'
  end.

(** [send_mail(subject, message, from_email, recipients,
    fail_silently=False)]: the failure of the backend is raised. *)
Definition send_mail (backend : Backend) (subject : string)
    (recipients : list string) : M unit :=
  fun w =>
  let m := {| mail_subject := subject; mail_to := recipients |} in
  if backend m
  then (Return tt,
        {| db := db w; connection_schema_name := connection_schema_name w;
           log := log w; outbox := outbox w ++ [m] |})
  else (Raise SMTPException, w).

(** Tables of the active schema.  A query against a schema that does not
    exist fails in the database. *)
Definition active_schema : M Schema := fun w =>
  match schemas (db w) !! connection_schema_name w with
  | Some s => (Return s, w)
  | None => (Raise ProgrammingError, w)
  end.

Definition put_active_schema (s : Schema) : M unit := fun w =>
  (Return tt,
   {| db := {| companies := companies (db w); domains := domains (db w);
               schemas := <[connection_schema_name w := s]> (schemas (db w)) |};
      connection_schema_name := connection_schema_name w; log := log w;
      outbox := outbox w |}).

(** Primary keys: the next value after the largest one in the table.  It
    is a key that no row of the table has, which is all that the properties
    below use of it; the sequence of the database moreover never hands out
    again the key of a deleted row, which this value does when the row
    deleted was the one with the largest key. *)
Definition next_id (ids : list nat) : nat := S (foldr Nat.max 0%nat ids).

(** ** Managers of the ORM, by their effect on the tables *)

(** [Company.objects.create(...)] (TenantMixin): a tenant can only be created
    from the public schema, [schema_name] is unique, and with
    [auto_create_schema] the schema is created unless it already exists.
    The model keeps these three rules of the library and leaves its check of
    the syntax of the name out. *)
Definition Company_objects_create (name schema plan : string) : M Company :=
  current ← get_schema_name;
  if negb (String.eqb current public) then raise TenantCreationError else
  d ← get_db;
  if existsb (fun c => String.eqb (schema_name c) schema) (companies d)
  then raise (IntegrityError "schema_name") else
  let c := {| company_id := next_id (map company_id (companies d));
              company_name := name; schema_name := schema;
              subscription_plan := plan; company_is_active := true |} in
  put_db {| companies := companies d ++ [c]; domains := domains d;
            schemas := match schemas d !! schema with
                       | Some _ => schemas d
                       | None => <[schema := empty_schema]> (schemas d)
                       end |};;
  mret c.

(** [Domain.objects.create(...)] (DomainMixin): [domain] is unique. *)
Definition Domain_objects_create (name : string) (owner_company : Company)
    (primary : bool) : M Domain :=
  d ← get_db;
  if existsb (fun x => String.eqb (domain x) name) (domains d)
  then raise (IntegrityError "domain") else
  let x := {| domain_id := next_id (map domain_id (domains d)); domain := name;
              tenant := company_id owner_company; is_primary := primary |} in
  put_db {| companies := companies d; domains := domains d ++ [x];
            schemas := schemas d |};;
  mret x.

Definition profile_of (s : Schema) (uid : nat) : option UserProfile :=
  find (fun p => Nat.eqb (profile_user p) uid) (profiles s).

(** [UserProfile.objects.create(user=..., role=..., ...)]: the one-to-one
    field makes [user] unique in the table. *)
Definition UserProfile_objects_create (u : User) (r : string)
    (ph dept : option string) : M UserProfile :=
  s ← active_schema;
  match profile_of s (user_id u) with
  | Some _ => raise (IntegrityError "user_id")
  | None =>
      let p := {| profile_id := next_id (map profile_id (profiles s));
                  profile_user := user_id u; role := r; phone := ph;
                  department := dept; profile_is_active := true |} in
      put_active_schema {| users := users s; profiles := profiles s ++ [p];
                           projects := projects s; tasks := tasks s |};;
      mret p
  end.

(** [UserProfile.objects.get_or_create(user=...)]: the fields take their
    model defaults ([role] is ["member"]). *)
Definition UserProfile_objects_get_or_create (u : User) : M UserProfile :=
  s ← active_schema;
  match profile_of s (user_id u) with
  | Some p => mret p
  | None => UserProfile_objects_create u "member" None None
  end.

(** [profile.save()] of a stored row *)
Definition UserProfile_save (p : UserProfile) : M unit :=
  s ← active_schema;
  put_active_schema
    {| users := users s;
       profiles := map (fun q => if Nat.eqb (profile_id q) (profile_id p)
                                 then p else q) (profiles s);
       projects := projects s; tasks := tasks s |}.

(** ** Signals ([core/signals.py])

    Both receivers are connected to [post_save] of [User]. *)

Definition create_user_profile (instance : User) (created : bool) : M unit :=
  if created then
    current ← get_schema_name;
    if negb (String.eqb current public)
    then UserProfile_objects_get_or_create instance;; mret tt
    else mret tt
  else mret tt.

Definition save_user_profile (instance : User) : M unit :=
  current ← get_schema_name;
  if negb (String.eqb current public) then
    s ← active_schema;
    match profile_of s (user_id instance) with
    | Some p => UserProfile_save p
    | None => mret tt
    end
  else mret tt.

Definition post_save_User (instance : User) (created : bool) : M unit :=
  create_user_profile instance created;;
  save_user_profile instance.

(** [BaseUserManager.normalize_email]: the part after the last [@] is put
    in lower case; an address without [@] is kept as it is. *)
Definition normalize_email (email : string) : string :=
  match Text.rsplit1 "@" (Text.strip email) with
  | Some (email_name, domain_part) => email_name ++ "@" ++ Text.lower domain_part
  | None => email
  end.

(** [User.objects.create_user(...)]: the address is normalised, [username]
    is unique ([email] is not); the row is inserted into the active schema
    and [post_save] is sent. *)
Definition User_objects_create_user (uname mail pw fn ln : string)
    (staff super : bool) : M User :=
  s ← active_schema;
  if existsb (fun u => String.eqb (username u) uname) (users s)
  then raise (IntegrityError "username") else
  let u := {| user_id := next_id (map user_id (users s)); username := uname;
              email := normalize_email mail; password := pw;
              first_name := fn; last_name := ln;
              is_staff := staff; is_superuser := super |} in
  put_active_schema {| users := users s ++ [u]; profiles := profiles s;
                       projects := projects s; tasks := tasks s |};;
  post_save_User u true;;
  mret u.

(** ** Serializers and responses *)

(** Outcome of a [validate_<field>] hook. *)
Inductive Validated (A : Type) :=
| Valid (a : A)
| ValidationError (message : string).
Arguments Valid {A} a.
Arguments ValidationError {A} message.

Definition field_errors {A} (field : string) (v : Validated A)
    : list (string * string) :=
  match v with
  | Valid _ => []
  | ValidationError m => [(field, m)]
  end.

Inductive Response (A : Type) :=
| HTTP_200_OK (body : A)
| HTTP_201_CREATED (body : A)
| HTTP_400_BAD_REQUEST (errors : list (string * string))
| HTTP_403_FORBIDDEN (error : string)
| HTTP_404_NOT_FOUND (error : string).
Arguments HTTP_200_OK {A} body.
Arguments HTTP_201_CREATED {A} body.
Arguments HTTP_400_BAD_REQUEST {A} errors.
Arguments HTTP_403_FORBIDDEN {A} error.
Arguments HTTP_404_NOT_FOUND {A} error.

(** ** Company registration ([tenants/serializers.py], [tenants/views.py])

    The record holds the request fields as the declared serializer fields
    deliver them to the hooks (text, with [subscription_plan] defaulted). *)

Record CompanyRegistration := {
  reg_company_name : string;
  reg_schema_name : string;
  domain_url : string;
  admin_username : string;
  admin_email : string;
  admin_password : string;
  reg_subscription_plan : string
}.

Definition validate_schema_name (value : string) : M (Validated string) :=
  d ← get_db;
  if existsb (fun c => String.eqb (schema_name c) value) (companies d)
  then mret (ValidationError "This schema name is already taken.")
  else if negb (Text.isalnum (Text.remove_underscores value))
  then mret (ValidationError
          "Schema name must contain only alphanumeric characters and underscores.")
  else mret (Valid (Text.lower value)).

Definition validate_domain_url (value : string) : M (Validated string) :=
  d ← get_db;
  if existsb (fun x => String.eqb (domain x) value) (domains d)
  then mret (ValidationError "This domain is already registered.")
  else mret (Valid (Text.lower value)).

(** [serializer.is_valid()]: every hook runs; the errors are collected by
    field, and without errors the validated data carries the hooks' values. *)
Definition CompanyRegistrationSerializer_is_valid (data : CompanyRegistration)
    : M (list (string * string) + CompanyRegistration) :=
  vs ← validate_schema_name (reg_schema_name data);
  vd ← validate_domain_url (domain_url data);
  match vs, vd with
  | Valid s, Valid d =>
      mret (inr {| reg_company_name := reg_company_name data;
                   reg_schema_name := s; domain_url := d;
                   admin_username := admin_username data;
                   admin_email := admin_email data;
                   admin_password := admin_password data;
                   reg_subscription_plan := reg_subscription_plan data |})
  | _, _ => mret (inl (field_errors "schema_name" vs ++ field_errors "domain_url" vd)%list)
  end.

Record RegistrationResult := {
  company : Company;
  result_domain : Domain;
  admin_user : User
}.

Definition CompanyRegistrationSerializer_create (validated_data : CompanyRegistration)
    : M RegistrationResult :=
  transaction_atomic (
    c ← Company_objects_create (reg_company_name validated_data)
          (reg_schema_name validated_data) (reg_subscription_plan validated_data);
    dm ← Domain_objects_create (domain_url validated_data) c true;
    set_tenant c;;
    u ← User_objects_create_user (admin_username validated_data)
          (admin_email validated_data) (admin_password validated_data) "" ""
          true true;
    mret {| company := c; result_domain := dm; admin_user := u |}).

(** The view.  An exception that leaves [create] is not handled here: the
    computation raises (the framework answers with a server error). *)
Definition register_company (data : CompanyRegistration)
    : M (Response RegistrationResult) :=
  v ← CompanyRegistrationSerializer_is_valid data;
  match v with
  | inr validated_data =>
      result ← CompanyRegistrationSerializer_create validated_data;
      mret (HTTP_201_CREATED result)
  | inl errors => mret (HTTP_400_BAD_REQUEST errors)
  end.

(** ** Tenant user registration ([core/serializers.py], [core/views.py]) *)

Record UserRegistration := {
  reg_username : string;
  reg_email : string;
  reg_password : string;
  reg_first_name : option string;
  reg_last_name : option string;
  reg_role : string;
  reg_phone : option string;
  reg_department : option string
}.

Definition validate_username (value : string) : M (Validated string) :=
  s ← active_schema;
  if existsb (fun u => String.eqb (username u) value) (users s)
  then mret (ValidationError "Username already exists in this organization.")
  else mret (Valid value).

Definition validate_email (value : string) : M (Validated string) :=
  s ← active_schema;
  if existsb (fun u => String.eqb (email u) value) (users s)
  then mret (ValidationError "Email already exists in this organization.")
  else mret (Valid value).

Definition UserRegistrationSerializer_is_valid (data : UserRegistration)
    : M (list (string * string) + UserRegistration) :=
  vu ← validate_username (reg_username data);
  ve ← validate_email (reg_email data);
  match vu, ve with
  | Valid _, Valid _ => mret (inr data)
  | _, _ => mret (inl (field_errors "username" vu ++ field_errors "email" ve)%list)
  end.

Definition UserRegistrationSerializer_create (validated_data : UserRegistration)
    : M User :=
  let r := reg_role validated_data in
  let ph := reg_phone validated_data in
  let dept := reg_department validated_data in
  u ← User_objects_create_user (reg_username validated_data)
        (reg_email validated_data) (reg_password validated_data)
        (default "" (reg_first_name validated_data))
        (default "" (reg_last_name validated_data)) false false;
  UserProfile_objects_create u r ph dept;;
  mret u.

(** [UserViewSet.register] *)
Definition UserViewSet_register (data : UserRegistration)
    : M (Response UserProfile) :=
  v ← UserRegistrationSerializer_is_valid data;
  match v with
  | inr validated_data =>
      u ← UserRegistrationSerializer_create validated_data;
      s ← active_schema;
      match profile_of s (user_id u) with
      | Some p => mret (HTTP_201_CREATED p)
      | None => raise DoesNotExist
      end
  | inl errors => mret (HTTP_400_BAD_REQUEST errors)
  end.

(** ** Query sets *)

(** Insertion of [x] into a list ordered newest-first by [key]. *)
Fixpoint insert_desc {A} (key : A -> Z) (x : A) (l : list A) : list A :=
  match l with
  | [] => [x]
  | y :: l' => if key y <? key x then x :: y :: l' else y :: insert_desc key x l'
  end.

(** [order_by('-key')] *)
Definition order_by_desc {A} (key : A -> Z) (l : list A) : list A :=
  foldr (insert_desc key) [] l.

Definition is_member (u : User) (p : Project) : bool :=
  bool_decide (user_id u ∈ members p).

Definition is_owner (u : User) (p : Project) : bool :=
  Nat.eqb (owner p) (user_id u).

(** [Project.objects.filter(Q(owner=user) | Q(members=user)).distinct()],
    in the model's default ordering [-created_at]. *)
Definition accessible_projects (s : Schema) (user : User) : list Project :=
  order_by_desc project_created_at
    (List.filter (fun p => is_owner user p || is_member user p) (projects s)).

(** [Task.objects.filter(project__in=projects)], default ordering
    [-created_at]. *)
Definition tasks_in (s : Schema) (ps : list Project) : list Task :=
  order_by_desc created_at
    (List.filter (fun t => existsb (fun p => Nat.eqb (project_id p) (project t)) ps)
       (tasks s)).

Definition assigned_to_user (user : User) (t : Task) : bool :=
  match assigned_to t with
  | Some uid => Nat.eqb uid (user_id user)
  | None => false
  end.

Definition has_status (st : string) (t : Task) : bool := String.eqb (status t) st.
Definition has_priority (pr : string) (t : Task) : bool := String.eqb (priority t) pr.

(** [queryset.filter(...).count()] *)
Definition count {A} (p : A -> bool) (l : list A) : nat := length (List.filter p l).

(** [User.objects.get(id=...)]; [None] stands for [User.DoesNotExist]. *)
Definition User_objects_get (s : Schema) (id : option nat) : option User :=
  match id with
  | Some i => find (fun u => Nat.eqb (user_id u) i) (users s)
  | None => None
  end.

Definition replace_project (p : Project) (s : Schema) : Schema :=
  {| users := users s; profiles := profiles s;
     projects := map (fun q => if Nat.eqb (project_id q) (project_id p)
                               then p else q) (projects s);
     tasks := tasks s |}.

Definition with_members (p : Project) (ms : gset nat) : Project :=
  {| project_id := project_id p; project_name := project_name p;
     project_status := project_status p; owner := owner p; members := ms;
     project_created_at := project_created_at p |}.

(** ** Project endpoints ([core/views.py], [ProjectViewSet]) *)

(** The detail of the 404 that the framework answers when [get_object]
    finds nothing. *)
Definition not_found_detail : string := "Not found.".

(** [self.get_object()]: the project with this key among those of
    [get_queryset]; [None] stands for the 404 the framework answers. *)
Definition ProjectViewSet_get_object (s : Schema) (user : User) (pk : nat)
    : option Project :=
  find (fun p => Nat.eqb (project_id p) pk) (accessible_projects s user).

Definition ProjectViewSet_add_member (user : User) (pk : nat)
    (target : option nat) : M (Response Project) :=
  s ← active_schema;
  match ProjectViewSet_get_object s user pk with
  | None => mret (HTTP_404_NOT_FOUND not_found_detail)
  | Some p =>
      if negb (is_owner user p)
      then mret (HTTP_403_FORBIDDEN "Only project owner can add members")
      else
        match User_objects_get s target with
        | Some u =>
            let p' := with_members p ({[ user_id u ]} ∪ members p) in
            put_active_schema (replace_project p' s);;
            mret (HTTP_200_OK p')
        | None => mret (HTTP_404_NOT_FOUND "User not found")
        end
  end.

Definition ProjectViewSet_remove_member (user : User) (pk : nat)
    (target : option nat) : M (Response Project) :=
  s ← active_schema;
  match ProjectViewSet_get_object s user pk with
  | None => mret (HTTP_404_NOT_FOUND not_found_detail)
  | Some p =>
      if negb (is_owner user p)
      then mret (HTTP_403_FORBIDDEN "Only project owner can remove members")
      else
        match User_objects_get s target with
        | Some u =>
            let p' := with_members p (members p ∖ {[ user_id u ]}) in
            put_active_schema (replace_project p' s);;
            mret (HTTP_200_OK p')
        | None => mret (HTTP_404_NOT_FOUND "User not found")
        end
  end.

Record PriorityCounts := {
  low : nat;
  medium : nat;
  high : nat;
  urgent : nat
}.

Record ProjectStatistics := {
  stats_total_tasks : nat;
  todo : nat;
  in_progress : nat;
  review : nat;
  done : nat;
  by_priority : PriorityCounts
}.

Definition project_tasks (s : Schema) (p : Project) : list Task :=
  order_by_desc created_at
    (List.filter (fun t => Nat.eqb (project t) (project_id p)) (tasks s)).

(** The dictionary that [statistics] builds from the project's tasks. *)
Definition statistics_of (ts : list Task) : ProjectStatistics :=
  {| stats_total_tasks := length ts;
     todo := count (has_status "todo") ts;
     in_progress := count (has_status "in_progress") ts;
     review := count (has_status "review") ts;
     done := count (has_status "done") ts;
     by_priority :=
       {| low := count (has_priority "low") ts;
          medium := count (has_priority "medium") ts;
          high := count (has_priority "high") ts;
          urgent := count (has_priority "urgent") ts |} |}.

Definition ProjectViewSet_statistics (user : User) (pk : nat)
    : M (Response ProjectStatistics) :=
  s ← active_schema;
  match ProjectViewSet_get_object s user pk with
  | None => mret (HTTP_404_NOT_FOUND not_found_detail)
  | Some p => mret (HTTP_200_OK (statistics_of (project_tasks s p)))
  end.

(** ** Dashboard ([core/views.py], [dashboard_stats]) *)

Record DashboardStats := {
  total_projects : nat;
  total_tasks : nat;
  my_tasks : list (string * nat);
  dashboard_projects : list Project;
  recent_tasks : list Task
}.

Definition dashboard_stats (user : User) : M (Response DashboardStats) :=
  s ← active_schema;
  let ps := accessible_projects s user in
  let all_tasks := tasks_in s ps in
  let mine := List.filter (assigned_to_user user) all_tasks in
  mret (HTTP_200_OK
    {| total_projects := length ps;
       total_tasks := length all_tasks;
       my_tasks := [("total", length mine);
                    ("todo", count (has_status "todo") mine);
                    ("in_progress", count (has_status "in_progress") mine);
                    ("done", count (has_status "done") mine)];
       dashboard_projects := take 5 ps;
       recent_tasks := take 5 (order_by_desc created_at mine) |}).

(** Lookup in a Python dictionary given by its items. *)
Fixpoint dict_get (key : string) (d : list (string * nat)) : option nat :=
  match d with
  | [] => None
  | (k, v) :: d' => if String.eqb k key then Some v else dict_get key d'
  end.

(** ** Task creation ([core/serializers.py], [TaskSerializer])

    The payload holds the writable fields that the model keeps, as text
    where the field is text and as primary keys where it is a relation. *)

(** The serializer field of a [models.CharField(max_length=255)]: a text
    that is empty once stripped is refused as blank; otherwise the stripped
    text goes through the validators of the field, which all run. *)
Definition char_field (value : string) : list string + string :=
  let v := Text.strip value in
  if String.eqb v "" then inl ["This field may not be blank."] else
  let messages :=
    ((if (255 <? String.length v)%nat
      then ["Ensure this field has no more than 255 characters."] else [])
     ++ (if Text.contains_char Text.null_char v
         then ["Null characters are not allowed."] else []))%list in
  match messages with
  | [] => inr v
  | _ => inl messages
  end.

Definition char_errors (field : string) (v : list string + string)
    : list (string * string) :=
  match v with
  | inl messages => map (pair field) messages
  | inr _ => []
  end.

(** The serializer field of a model field with [choices]. *)
Definition choice_field (choices : list string) (value : string) : Validated string :=
  if existsb (String.eqb value) choices then Valid value
  else ValidationError
         (Text.double_quote ++ value ++ Text.double_quote ++ " is not a valid choice.").

Definition PRIORITY_CHOICES : list string := ["low"; "medium"; "high"; "urgent"].
Definition STATUS_CHOICES : list string := ["todo"; "in_progress"; "review"; "done"].

Record TaskPayload := {
  payload_project : nat;
  payload_title : string;
  payload_priority : string;
  payload_status : string;
  payload_assigned_to_id : option nat;
  payload_due_date : option timestamp;
  payload_completed_at : option timestamp
}.

Definition validate_project (user : User) (value : Project) : Validated Project :=
  if negb (is_owner user value) && negb (is_member user value)
  then ValidationError "You don't have permission to create tasks in this project."
  else Valid value.

(** The [project] field: the primary key is resolved in
    [Project.objects.all()], then the hook runs on the instance. *)
Definition project_field (s : Schema) (user : User) (pk : nat) : Validated Project :=
  match find (fun p => Nat.eqb (project_id p) pk) (projects s) with
  | None => ValidationError "Invalid pk - object does not exist."
  | Some p => validate_project user p
  end.

(** The [assigned_to_id] field: null, or a key resolved in
    [User.objects.all()]. *)
Definition assigned_to_field (s : Schema) (id : option nat) : Validated (option nat) :=
  match id with
  | None => Valid None
  | Some i =>
      match User_objects_get s (Some i) with
      | Some u => Valid (Some (user_id u))
      | None => ValidationError "Invalid pk - object does not exist."
      end
  end.

(** [serializer.is_valid()]: every field is checked, in the order of
    [Meta.fields], and the errors are collected by field; without errors
    the validated data carries the project, the stripped title and the
    assignee. *)
Definition TaskSerializer_is_valid (s : Schema) (user : User) (data : TaskPayload)
    : list (string * string) + (Project * string * option nat) :=
  match project_field s user (payload_project data),
        char_field (payload_title data),
        choice_field PRIORITY_CHOICES (payload_priority data),
        choice_field STATUS_CHOICES (payload_status data),
        assigned_to_field s (payload_assigned_to_id data) with
  | Valid p, inr ttl, Valid _, Valid _, Valid a => inr (p, ttl, a)
  | vp, vt, vy, vs, va =>
      inl (field_errors "project" vp ++ char_errors "title" vt
           ++ field_errors "priority" vy ++ field_errors "status" vs
           ++ field_errors "assigned_to_id" va)%list
  end.

(** [TaskViewSet.create]: validation, then [Task.objects.create] with
    [created_by] the caller and [created_at] the current time. *)
Definition TaskViewSet_create (now : timestamp) (user : User) (data : TaskPayload)
    : M (Response Task) :=
  s ← active_schema;
  match TaskSerializer_is_valid s user data with
  | inl errors => mret (HTTP_400_BAD_REQUEST errors)
  | inr (p, ttl, a) =>
      let t := {| task_id := next_id (map task_id (tasks s));
                  project := project_id p; title := ttl;
                  priority := payload_priority data;
                  status := payload_status data; assigned_to := a;
                  created_by := user_id user;
                  due_date := payload_due_date data;
                  completed_at := payload_completed_at data;
                  created_at := now |} in
      put_active_schema {| users := users s; profiles := profiles s;
                           projects := projects s; tasks := tasks s ++ [t] |};;
      mret (HTTP_201_CREATED t)
  end.

(** ** Background jobs ([core/tasks.py]) *)

Definition Task_objects_get (s : Schema) (id : nat) : option Task :=
  find (fun t => Nat.eqb (task_id t) id) (tasks s).

(** [send_task_reminder_email(task_id, tenant_schema)]; the result is the
    recipient named in the returned message, if a message was sent. *)
Definition send_task_reminder_email (backend : Backend) (id : nat)
    (tenant_schema : string) : M (option string) :=
  try_except
    (schema_context tenant_schema (
       s ← active_schema;
       match Task_objects_get s id with
       | None => raise DoesNotExist
       | Some t =>
           match User_objects_get s (assigned_to t) with
           | Some u =>
               if negb (String.eqb (email u) "") then
                 send_mail backend ("Task Reminder: " ++ title t) [email u];;
                 logger (log_info "Reminder email sent for task" tenant_schema id);;
                 mret (Some (email u))
               else mret None
           | None => mret None
           end
       end))
    (fun e =>
       logger (log_error "Error sending reminder for task" tenant_schema e);;
       raise e).

(** The rows that [filter(status='done', completed_at__lt=cutoff)] selects:
    a comparison with a null [completed_at] selects nothing. *)
Definition old_done (cutoff_date : timestamp) (t : Task) : bool :=
  has_status "done" t &&
  match completed_at t with
  | Some c => c <? cutoff_date
  | None => false
  end.

(** One turn of the loop of [cleanup_old_data], inside [schema_context]. *)
Definition cleanup_tenant (cutoff_date : timestamp) (tenant_schema : string)
    (total_deleted : nat) : M nat :=
  s ← active_schema;
  let deleted_count := length (List.filter (old_done cutoff_date) (tasks s)) in
  put_active_schema
    {| users := users s; profiles := profiles s; projects := projects s;
       tasks := List.filter (fun t => negb (old_done cutoff_date t)) (tasks s) |};;
  (if (0 <? deleted_count)%nat
   then logger (log_info "Deleted old tasks from tenant" tenant_schema deleted_count)
   else mret tt);;
  mret (total_deleted + deleted_count)%nat.

Fixpoint cleanup_loop (cutoff_date : timestamp) (tenants : list Company)
    (total_deleted : nat) : M nat :=
  match tenants with
  | [] => mret total_deleted
  | t :: rest =>
      total ← try_except
        (schema_context (schema_name t)
           (cleanup_tenant cutoff_date (schema_name t) total_deleted))
        (fun e =>
           logger (log_error "Error cleaning up data for tenant" (schema_name t) e);;
           mret total_deleted);
      cleanup_loop cutoff_date rest total
  end.

(** [timezone.now() - timedelta(days=days)], if both exist. *)
Definition cutoff_of (now : timestamp) (days : Z) : option timestamp :=
  match timedelta days with
  | Some delta => datetime_sub now delta
  | None => None
  end.

(** [cleanup_old_data(days)], run at time [now]; the result is the number
    reported in the returned message.  The cut-off date is computed before
    the loop and outside of its [try]. *)
Definition cleanup_old_data (now : timestamp) (days : Z) : M nat :=
  match cutoff_of now days with
  | None => raise OverflowError
  | Some cutoff_date =>
      d ← get_db;
      cleanup_loop cutoff_date (List.filter company_is_active (companies d)) 0%nat
  end.

(** * The rest of the endpoints and jobs *)

(** ** Permissions ([core/permissions.py]) *)

Definition SAFE_METHODS : list string := ["GET"; "HEAD"; "OPTIONS"].

Definition is_safe_method (method : string) : bool :=
  existsb (String.eqb method) SAFE_METHODS.

(** [IsProjectOwnerOrMember.has_object_permission] *)
Definition IsProjectOwnerOrMember (method : string) (user : User) (obj : Project)
    : bool :=
  if is_safe_method method
  then is_owner user obj || is_member user obj
  else is_owner user obj.

(** [IsTaskProjectMember.has_object_permission]; [obj.project] follows the
    foreign key, and [None] stands for a project that is not there. *)
Definition IsTaskProjectMember (s : Schema) (user : User) (obj : Task)
    : option bool :=
  match find (fun p => Nat.eqb (project_id p) (project obj)) (projects s) with
  | Some p => Some (is_owner user p || is_member user p)
  | None => None
  end.

Inductive Permission :=
| perm_IsTenantUser
| perm_IsProjectOwnerOrMember
| perm_IsTaskProjectMember.

(** [get_permissions] of the two view sets, after [IsAuthenticated]. *)
Definition ProjectViewSet_get_permissions (action : string) : Permission :=
  if existsb (String.eqb action) ["update"; "partial_update"; "destroy"]
  then perm_IsProjectOwnerOrMember else perm_IsTenantUser.

Definition TaskViewSet_get_permissions (action : string) : Permission :=
  if existsb (String.eqb action) ["update"; "partial_update"; "destroy"]
  then perm_IsTaskProjectMember else perm_IsTenantUser.

(** ** Creating and deleting projects ([ProjectSerializer], [ProjectViewSet]) *)

(** The writable fields of a project that the model keeps; [member_ids]
    arrives as a list of primary keys. *)
Record ProjectPayload := {
  payload_name : string;
  payload_project_status : string;
  payload_member_ids : list nat
}.

(** The [member_ids] field: every key is resolved in [User.objects.all()]. *)
Definition member_ids_field (s : Schema) (ids : list nat) : Validated (gset nat) :=
  if forallb (fun i => bool_decide (is_Some (User_objects_get s (Some i)))) ids
  then Valid (list_to_set ids)
  else ValidationError "Invalid pk - object does not exist.".

Definition PROJECT_STATUS_CHOICES : list string :=
  ["planning"; "active"; "on_hold"; "completed"; "cancelled"].

Definition ProjectSerializer_is_valid (s : Schema) (data : ProjectPayload)
    : list (string * string) + (string * gset nat) :=
  match char_field (payload_name data),
        choice_field PROJECT_STATUS_CHOICES (payload_project_status data),
        member_ids_field s (payload_member_ids data) with
  | inr name, Valid _, Valid ms => inr (name, ms)
  | vn, vs, vm =>
      inl (char_errors "name" vn ++ field_errors "status" vs
           ++ field_errors "member_ids" vm)%list
  end.

(** [ProjectViewSet.create]: the serializer puts the caller in [owner]. *)
Definition ProjectViewSet_create (now : timestamp) (user : User)
    (data : ProjectPayload) : M (Response Project) :=
  s ← active_schema;
  match ProjectSerializer_is_valid s data with
  | inl errors => mret (HTTP_400_BAD_REQUEST errors)
  | inr (name, ms) =>
      let p := {| project_id := next_id (map project_id (projects s));
                  project_name := name;
                  project_status := payload_project_status data;
                  owner := user_id user; members := ms;
                  project_created_at := now |} in
      put_active_schema {| users := users s; profiles := profiles s;
                           projects := projects s ++ [p]; tasks := tasks s |};;
      mret (HTTP_201_CREATED p)
  end.

(** [project.delete()]: the tasks of the project go with it
    ([on_delete=CASCADE]). *)
Definition delete_project (p : Project) (s : Schema) : Schema :=
  {| users := users s; profiles := profiles s;
     projects := List.filter
                   (fun q => negb (Nat.eqb (project_id q) (project_id p)))
                   (projects s);
     tasks := List.filter
                (fun t => negb (Nat.eqb (project t) (project_id p))) (tasks s) |}.

Inductive DestroyResponse :=
| HTTP_204_NO_CONTENT
| destroy_403_FORBIDDEN
| destroy_404_NOT_FOUND.

(** [ProjectViewSet.destroy]: [get_object] in the caller's query set, the
    object permission of the action, then the deletion. *)
Definition ProjectViewSet_destroy (user : User) (pk : nat) : M DestroyResponse :=
  s ← active_schema;
  match ProjectViewSet_get_object s user pk with
  | None => mret destroy_404_NOT_FOUND
  | Some p =>
      match ProjectViewSet_get_permissions "destroy" with
      | perm_IsProjectOwnerOrMember =>
          if IsProjectOwnerOrMember "DELETE" user p
          then put_active_schema (delete_project p s);; mret HTTP_204_NO_CONTENT
          else mret destroy_403_FORBIDDEN
      | _ => put_active_schema (delete_project p s);; mret HTTP_204_NO_CONTENT
      end
  end.

(** ** Task endpoints ([TaskViewSet]) *)

Inductive Assignee :=
| assignee_me
| assignee_id (id : nat).

(** The query parameters of the task list.  [None] is a parameter that is
    absent or empty; [project] and a numeric [assigned_to] are keys. *)
Record TaskQuery := {
  query_project : option nat;
  query_status : option string;
  query_assigned_to : option Assignee
}.

Definition no_query : TaskQuery :=
  {| query_project := None; query_status := None; query_assigned_to := None |}.

Definition TaskViewSet_get_queryset (s : Schema) (user : User) (q : TaskQuery)
    : list Task :=
  let queryset := tasks_in s (accessible_projects s user) in
  let queryset :=
    match query_project q with
    | Some id => List.filter (fun t => Nat.eqb (project t) id) queryset
    | None => queryset
    end in
  let queryset :=
    match query_status q with
    | Some st =>
        if String.eqb st "" then queryset
        else List.filter (has_status st) queryset
    | None => queryset
    end in
  match query_assigned_to q with
  | Some assignee_me => List.filter (assigned_to_user user) queryset
  | Some (assignee_id i) =>
      List.filter (fun t => bool_decide (assigned_to t = Some i)) queryset
  | None => queryset
  end.

Definition TaskViewSet_get_object (s : Schema) (user : User) (q : TaskQuery)
    (pk : nat) : option Task :=
  find (fun t => Nat.eqb (task_id t) pk) (TaskViewSet_get_queryset s user q).

(** [TaskViewSet.my_tasks] *)
Definition TaskViewSet_my_tasks (user : User) (q : TaskQuery)
    : M (Response (list Task)) :=
  s ← active_schema;
  mret (HTTP_200_OK
          (List.filter (assigned_to_user user) (TaskViewSet_get_queryset s user q))).

(** [task.save()] of a stored row *)
Definition replace_task (t : Task) (s : Schema) : Schema :=
  {| users := users s; profiles := profiles s; projects := projects s;
     tasks := map (fun x => if Nat.eqb (task_id x) (task_id t) then t else x)
                (tasks s) |}.

Definition completed (t : Task) (now : timestamp) : Task :=
  {| task_id := task_id t; project := project t; title := title t;
     priority := priority t; status := "done"; assigned_to := assigned_to t;
     created_by := created_by t; due_date := due_date t;
     completed_at := Some now; created_at := created_at t |}.

(** [TaskViewSet.mark_complete] at time [now] *)
Definition TaskViewSet_mark_complete (now : timestamp) (user : User)
    (q : TaskQuery) (pk : nat) : M (Response Task) :=
  s ← active_schema;
  match TaskViewSet_get_object s user q pk with
  | None => mret (HTTP_404_NOT_FOUND not_found_detail)
  | Some t =>
      put_active_schema (replace_task (completed t now) s);;
      mret (HTTP_200_OK (completed t now))
  end.

Definition delete_task (t : Task) (s : Schema) : Schema :=
  {| users := users s; profiles := profiles s; projects := projects s;
     tasks := List.filter (fun x => negb (Nat.eqb (task_id x) (task_id t)))
                (tasks s) |}.

(** [TaskViewSet.destroy] *)
Definition TaskViewSet_destroy (user : User) (q : TaskQuery) (pk : nat)
    : M DestroyResponse :=
  s ← active_schema;
  match TaskViewSet_get_object s user q pk with
  | None => mret destroy_404_NOT_FOUND
  | Some t =>
      match TaskViewSet_get_permissions "destroy" with
      | perm_IsTaskProjectMember =>
          match IsTaskProjectMember s user t with
          | Some true => put_active_schema (delete_task t s);; mret HTTP_204_NO_CONTENT
          | Some false => mret destroy_403_FORBIDDEN
          | None => raise DoesNotExist
          end
      | _ => put_active_schema (delete_task t s);; mret HTTP_204_NO_CONTENT
      end
  end.

(** ** The caller's profile ([UserViewSet.me]) *)

Definition UserViewSet_me (user : User) : M (Response UserProfile) :=
  p ← UserProfile_objects_get_or_create user;
  mret (HTTP_200_OK p).

(** ** The other background jobs ([core/tasks.py]) *)

(** The rows of [filter(due_date__lt=now, status__in=[...])]. *)
Definition overdue (now : timestamp) (t : Task) : bool :=
  match due_date t with
  | Some d => d <? now
  | None => false
  end
  && existsb (fun st => has_status st t) ["todo"; "in_progress"; "review"].

(** A reminder handed to the queue by [send_task_reminder_email.delay]. *)
Definition ReminderJob : Type := nat * string.

(** The inner loop of [check_overdue_tasks] over the overdue tasks of one
    namespace: the running total and the jobs handed to the queue. *)
Fixpoint overdue_loop (tenant_schema : string) (ts : list Task)
    (acc : nat * list ReminderJob) : nat * list ReminderJob :=
  match ts with
  | [] => acc
  | t :: rest =>
      let total_overdue := S acc.1 in
      overdue_loop tenant_schema rest
        (total_overdue,
         match assigned_to t with
         | Some _ => (acc.2 ++ [(task_id t, tenant_schema)])%list
         | None => acc.2
         end)
  end.

Definition overdue_tenant (now : timestamp) (tenant_schema : string)
    (acc : nat * list ReminderJob) : M (nat * list ReminderJob) :=
  s ← active_schema;
  let overdue_tasks :=
    order_by_desc created_at (List.filter (overdue now) (tasks s)) in
  let acc' := overdue_loop tenant_schema overdue_tasks acc in
  logger (log_info "Found overdue tasks in tenant" tenant_schema
            (length overdue_tasks));;
  mret acc'.

Fixpoint overdue_tenants (now : timestamp) (tenants : list Company)
    (acc : nat * list ReminderJob) : M (nat * list ReminderJob) :=
  match tenants with
  | [] => mret acc
  | t :: rest =>
      acc' ← try_except
        (schema_context (schema_name t) (overdue_tenant now (schema_name t) acc))
        (fun e =>
           logger (log_error "Error checking overdue tasks for tenant"
                     (schema_name t) e);;
           mret acc);
      overdue_tenants now rest acc'
  end.

(** [check_overdue_tasks()], run at time [now]: the number reported in the
    returned message and the reminder jobs handed to the queue, in order. *)
Definition check_overdue_tasks (now : timestamp) : M (nat * list ReminderJob) :=
  d ← get_db;
  overdue_tenants now (List.filter company_is_active (companies d)) (0%nat, []).

Record ProjectReport := {
  report_project_name : string;
  report_owner : string;
  total_members : nat;
  report_total_tasks : nat;
  completed_tasks : nat;
  pending_tasks : nat;
  overdue_tasks : nat;
  tasks_by_priority : PriorityCounts;
  generated_at : timestamp
}.

Definition is_pending (t : Task) : bool :=
  existsb (fun st => has_status st t) ["todo"; "in_progress"].

Definition is_overdue_pending (now : timestamp) (t : Task) : bool :=
  match due_date t with
  | Some d => d <? now
  | None => false
  end && is_pending t.

(** [generate_project_report(project_id, tenant_schema)]; the clock is read
    at [now] for the overdue count and at [stamp] for [generated_at] (the
    pause of the job in between changes nothing in the world). *)
Definition generate_project_report (now stamp : timestamp) (id : nat)
    (tenant_schema : string) : M ProjectReport :=
  try_except
    (schema_context tenant_schema (
       s ← active_schema;
       match find (fun p => Nat.eqb (project_id p) id) (projects s) with
       | None => raise DoesNotExist
       | Some p =>
           match User_objects_get s (Some (owner p)) with
           | None => raise DoesNotExist
           | Some o =>
               let ts := project_tasks s p in
               let report :=
                 {| report_project_name := project_name p;
                    report_owner := username o;
                    total_members := size (members p);
                    report_total_tasks := length ts;
                    completed_tasks := count (has_status "done") ts;
                    pending_tasks := count is_pending ts;
                    overdue_tasks := count (is_overdue_pending now) ts;
                    tasks_by_priority :=
                      {| low := count (has_priority "low") ts;
                         medium := count (has_priority "medium") ts;
                         high := count (has_priority "high") ts;
                         urgent := count (has_priority "urgent") ts |};
                    generated_at := stamp |} in
               logger (log_info "Generated report for project" tenant_schema id);;
               mret report
           end
       end))
    (fun e =>
       logger (log_error "Error generating report for project" tenant_schema e);;
       raise e).

(** The table [auth_user] as the connection sees it.  The search path
    holds the active schema and then [public], and [django.contrib.auth] is
    installed in both: when the active schema does not exist the name
    resolves to the table of [public]. *)
Definition auth_user : M (list User) := fun w =>
  match schemas (db w) !! connection_schema_name w with
  | Some s => (Return (users s), w)
  | None =>
      match schemas (db w) !! public with
      | Some s => (Return (users s), w)
      | None => (Raise ProgrammingError, w)
      end
  end.

(** [send_welcome_email(user_id, tenant_schema)]; the result is the
    recipient named in the returned message, if a message was sent. *)
Definition send_welcome_email (backend : Backend) (id : nat)
    (tenant_schema : string) : M (option string) :=
  try_except
    (schema_context tenant_schema (
       table ← auth_user;
       match find (fun u => Nat.eqb (user_id u) id) table with
       | None => raise DoesNotExist
       | Some u =>
           if negb (String.eqb (email u) "") then
             send_mail backend "Welcome to Our SaaS Platform!" [email u];;
             logger (log_info "Welcome email sent to user" tenant_schema id);;
             mret (Some (email u))
           else mret None
       end))
    (fun e =>
       logger (log_error "Error sending welcome email to user" tenant_schema e);;
       raise e).

(** * Vocabulary of the properties *)

(** What a registration that answers 201 has done. *)
Record registered (data : CompanyRegistration) (w : World)
    (r : RegistrationResult) (w' : World) : Prop := {
  registered_public : connection_schema_name w = public;
  registered_company :
    company r =
      {| company_id := next_id (map company_id (companies (db w)));
         company_name := reg_company_name data;
         schema_name := Text.lower (reg_schema_name data);
         subscription_plan := reg_subscription_plan data;
         company_is_active := true |};
  registered_domain :
    result_domain r =
      {| domain_id := next_id (map domain_id (domains (db w)));
         domain := Text.lower (domain_url data);
         tenant := company_id (company r);
         is_primary := true |};
  registered_admin :
    username (admin_user r) = admin_username data
    /\ email (admin_user r) = normalize_email (admin_email data)
    /\ is_staff (admin_user r) = true /\ is_superuser (admin_user r) = true;
  registered_companies : companies (db w') = (companies (db w) ++ [company r])%list;
  registered_domains : domains (db w') = (domains (db w) ++ [result_domain r])%list;
  registered_users :
    exists s, schemas (db w') !! schema_name (company r) = Some s
      /\ users s =
         (users (default empty_schema (schemas (db w) !! schema_name (company r)))
          ++ [admin_user r])%list;
  registered_connection : connection_schema_name w' = schema_name (company r);
  registered_fresh_schema :
    existsb (fun c => String.eqb (schema_name c) (Text.lower (reg_schema_name data)))
      (companies (db w)) = false;
  registered_fresh_domain :
    existsb (fun x => String.eqb (domain x) (Text.lower (domain_url data)))
      (domains (db w)) = false
}.


Definition schema_or_domain_taken (data : CompanyRegistration) (d : DB) : Prop :=
  (exists c, c ∈ companies d
             /\ schema_name c = Text.lower (reg_schema_name data))
  \/ (exists x, x ∈ domains d /\ domain x = Text.lower (domain_url data)).

Definition identities (s : Schema) : list (nat * string) :=
  map (fun u => (user_id u, username u)) (users s).

Definition roles (s : Schema) : list (nat * string) :=
  map (fun p => (profile_user p, role p)) (profiles s).

Definition permission_message : string :=
  "You don't have permission to create tasks in this project.".

Definition valid_status (t : Task) : Prop :=
  status t ∈ ["todo"; "in_progress"; "review"; "done"].

Definition valid_priority (t : Task) : Prop :=
  priority t ∈ ["low"; "medium"; "high"; "urgent"].

Definition status_sum (st : ProjectStatistics) : nat :=
  (todo st + in_progress st + review st + done st)%nat.

Definition priority_sum (st : ProjectStatistics) : nat :=
  (low (by_priority st) + medium (by_priority st) + high (by_priority st)
   + urgent (by_priority st))%nat.

(** A namespace after the deletion. *)
Definition clean_schema (cutoff_date : timestamp) (s : Schema) : Schema :=
  {| users := users s; profiles := profiles s; projects := projects s;
     tasks := List.filter (fun t => negb (old_done cutoff_date t)) (tasks s) |}.

Definition cleanup_error (name : string) : LogRecord :=
  log_error "Error cleaning up data for tenant" name ProgrammingError.

(** The frame of the job: what it leaves alone. *)
Record cleanup_frame (w w' : World) : Prop := {
  frame_companies : companies (db w') = companies (db w);
  frame_domains : domains (db w') = domains (db w);
  frame_connection : connection_schema_name w' = connection_schema_name w;
  frame_outbox : outbox w' = outbox w;
  frame_log : forall r, r ∈ log w -> r ∈ log w'
}.

(** The rows the specification names: done, and completed before the cutoff. *)
Definition expired (cutoff_date : timestamp) (t : Task) : Prop :=
  status t = "done" /\ exists c, completed_at t = Some c /\ c < cutoff_date.

(** A namespace is active when an active company of the registry names it. *)
Definition active_namespace (d : DB) (name : string) : Prop :=
  exists c, c ∈ companies d /\ company_is_active c = true /\ schema_name c = name.

(** The cut-off date of a clean-up exists: [days] fits a [timedelta], and
    [now] minus that many days is a [datetime]. *)
Definition valid_cutoff (now : timestamp) (days : Z) : Prop :=
  Z.abs days <= timedelta_max_days
  /\ datetime_min <= now - timedelta_days days <= datetime_max.

(** The messages of the two mail jobs. *)
Definition reminder_mail (t : Task) (recipient : string) : Mail :=
  {| mail_subject := "Task Reminder: " ++ title t; mail_to := [recipient] |}.

Definition welcome_mail (recipient : string) : Mail :=
  {| mail_subject := "Welcome to Our SaaS Platform!"; mail_to := [recipient] |}.

(** The user table that a query finds when the connection is on the
    namespace [name]. *)
Definition users_seen_from (d : DB) (name : string) (table : list User) : Prop :=
  (exists s, schemas d !! name = Some s /\ table = users s)
  \/ (schemas d !! name = None
      /\ exists s, schemas d !! public = Some s /\ table = users s).

(** * Scenarios *)

(** A store with only the public schema, and a connection on it. *)
Definition fresh_world : World :=
  {| db := {| companies := []; domains := [];
              schemas := {[ public := empty_schema ]} |};
     connection_schema_name := public; log := []; outbox := [] |}.

Definition acme_request : CompanyRegistration :=
  {| reg_company_name := "Acme"; reg_schema_name := "acme";
     domain_url := "acme.example.com"; admin_username := "admin";
     admin_email := "admin@acme.example.com"; admin_password := "SecurePass123!";
     reg_subscription_plan := "free" |}.

(** A request that arrives on the domain of a schema: the middleware has put
    the connection on that schema. *)
Definition on_schema (name : string) (w : World) : World :=
  {| db := db w; connection_schema_name := name; log := log w;
     outbox := outbox w |}.

Definition on_public (w : World) : World := on_schema public w.

Definition acme_world : World := (register_company acme_request fresh_world).2.

Definition hyphen_request : CompanyRegistration :=
  {| reg_company_name := "Acme Inc"; reg_schema_name := "acme-inc";
     domain_url := "inc.example.com"; admin_username := "admin";
     admin_email := "admin@inc.example.com"; admin_password := "SecurePass123!";
     reg_subscription_plan := "free" |}.

(** A second registration of the schema of Acme, written in upper case. *)
Definition acme_again : CompanyRegistration :=
  {| reg_company_name := "Acme Two"; reg_schema_name := "ACME";
     domain_url := "two.example.com"; admin_username := "admin2";
     admin_email := "admin@two.example.com"; admin_password := "SecurePass123!";
     reg_subscription_plan := "basic" |}.

(** A registration under a new schema, with the domain of Acme written in
    upper case. *)
Definition beta_request : CompanyRegistration :=
  {| reg_company_name := "Beta"; reg_schema_name := "beta";
     domain_url := "ACME.example.com"; admin_username := "root";
     admin_email := "root@beta.example.com"; admin_password := "SecurePass123!";
     reg_subscription_plan := "free" |}.

Definition bob_request : UserRegistration :=
  {| reg_username := "bob"; reg_email := "bob@acme.example.com";
     reg_password := "SecurePass123!"; reg_first_name := Some "Bob";
     reg_last_name := None; reg_role := "manager"; reg_phone := None;
     reg_department := Some "Engineering" |}.

Definition make_user (id : nat) (name : string) : User :=
  {| user_id := id; username := name; email := name ++ "@acme.example.com";
     password := "SecurePass123!"; first_name := ""; last_name := "";
     is_staff := false; is_superuser := false |}.

Definition alice : User := make_user 1 "alice".
Definition bob : User := make_user 2 "bob".
Definition carol : User := make_user 3 "carol".

(** Alice owns the project, Bob is a member, Carol is neither. *)
Definition launch : Project :=
  {| project_id := 1; project_name := "Launch"; project_status := "planning";
     owner := 1; members := {[ 2%nat ]}; project_created_at := 1000 |}.

Definition make_task (id : nat) (name st : string) (assignee : option nat)
    (completed : option timestamp) (created : timestamp) : Task :=
  {| task_id := id; project := 1; title := name; priority := "high";
     status := st; assigned_to := assignee; created_by := 1; due_date := None;
     completed_at := completed; created_at := created |}.

Definition tenant_schema (ts : list Task) : Schema :=
  {| users := [alice; bob; carol]; profiles := []; projects := [launch];
     tasks := ts |}.

Definition tenant_world (ts : list Task) : World :=
  {| db := {| companies := [{| company_id := 1; company_name := "Acme";
                               schema_name := "acme";
                               subscription_plan := "free";
                               company_is_active := true |}];
              domains := [{| domain_id := 1; domain := "acme.example.com";
                             tenant := 1; is_primary := true |}];
              schemas := {[ public := empty_schema;
                            "acme" := tenant_schema ts ]} |};
     connection_schema_name := "acme"; log := []; outbox := [] |}.

Definition review_world : World :=
  tenant_world [make_task 1 "Write spec" "review" (Some 1%nat) None 2000].

Definition carol_payload : TaskPayload :=
  {| payload_project := 1; payload_title := "Write spec";
     payload_priority := "high"; payload_status := "todo";
     payload_assigned_to_id := Some 3%nat; payload_due_date := None;
     payload_completed_at := None |}.

Definition two_tasks : list Task :=
  [make_task 1 "Write spec" "review" (Some 1%nat) None 2000;
   make_task 2 "Ship" "done" None (Some 2500) 2100].

(** The cleanup runs a hundred days after the epoch. *)
Definition cleanup_now : timestamp := timedelta_days 100.

Definition old_task : Task :=
  make_task 1 "Completed 91 days ago" "done" None (Some (timedelta_days 9)) 1000.
Definition recent_task : Task :=
  make_task 2 "Completed 89 days ago" "done" None (Some (timedelta_days 11)) 1100.
Definition uncompleted_task : Task :=
  make_task 3 "Done without a completion time" "done" None None 500.

Definition make_company (id : nat) (name : string) (active : bool) : Company :=
  {| company_id := id; company_name := name; schema_name := name;
     subscription_plan := "free"; company_is_active := active |}.

(** A registry with an active tenant, an active company whose schema is
    missing, and an inactive tenant. *)
Definition cleanup_world : World :=
  {| db := {| companies := [make_company 1 "acme" true;
                            make_company 2 "ghost" true;
                            make_company 3 "idle" false];
              domains := [];
              schemas := {[ public := empty_schema;
                            "acme" := (tenant_schema
                                         [old_task; recent_task; uncompleted_task]);
                            "idle" := (tenant_schema [old_task]) ]} |};
     connection_schema_name := public; log := []; outbox := [] |}.

(** * Vocabulary of the further properties *)

(** The task belongs to a project that the user owns or is a member of. *)
Definition in_accessible_project (s : Schema) (user : User) (t : Task) : Prop :=
  exists p, p ∈ projects s /\ project_id p = project t
            /\ (is_owner user p || is_member user p) = true.

(** The task passes the parameters of the query that are present. *)
Definition matches_query (user : User) (q : TaskQuery) (t : Task) : Prop :=
  (forall i, query_project q = Some i -> project t = i)
  /\ (forall st, query_status q = Some st -> st <> "" -> status t = st)
  /\ (query_assigned_to q = Some assignee_me ->
      assigned_to t = Some (user_id user))
  /\ (forall i, query_assigned_to q = Some (assignee_id i) ->
                assigned_to t = Some i).

(** The task is past its due date at [now] and not done. *)
Definition is_overdue (now : timestamp) (t : Task) : Prop :=
  (exists d, due_date t = Some d /\ d < now)
  /\ status t ∈ ["todo"; "in_progress"; "review"].

(** The overdue tasks of the namespace of a company, newest first, and the
    reminders for those that have an assignee. *)
Definition tenant_overdue (now : timestamp) (d : DB) (c : Company) : list Task :=
  match schemas d !! schema_name c with
  | Some s => order_by_desc created_at (List.filter (overdue now) (tasks s))
  | None => []
  end.

Definition reminders (name : string) (ts : list Task) : list ReminderJob :=
  map (fun t => (task_id t, name))
    (List.filter (fun t => bool_decide (is_Some (assigned_to t))) ts).

Definition overdue_error (name : string) : LogRecord :=
  log_error "Error checking overdue tasks for tenant" name ProgrammingError.

(** A world with one task overdue at time 5000 and assigned to Bob, one
    overdue without assignee, and one done. *)
Definition overdue_world : World :=
  tenant_world
    [{| task_id := 1; project := 1; title := "Late"; priority := "high";
        status := "todo"; assigned_to := Some 2%nat; created_by := 1;
        due_date := Some 4000; completed_at := None; created_at := 1000 |};
     {| task_id := 2; project := 1; title := "Late, nobody's"; priority := "low";
        status := "review"; assigned_to := None; created_by := 1;
        due_date := Some 4500; completed_at := None; created_at := 1100 |};
     {| task_id := 3; project := 1; title := "Finished"; priority := "low";
        status := "done"; assigned_to := Some 2%nat; created_by := 1;
        due_date := Some 3000; completed_at := Some 3500; created_at := 900 |}].

Definition roadmap_payload : ProjectPayload :=
  {| payload_name := "Roadmap"; payload_project_status := "planning";
     payload_member_ids := [2%nat] |}.

Definition roadmap_task : TaskPayload :=
  {| payload_project := 2; payload_title := "Draft"; payload_priority := "medium";
     payload_status := "todo"; payload_assigned_to_id := Some 3%nat;
     payload_due_date := None; payload_completed_at := None |}.

(** A store whose only user table is the one of [public]. *)
Definition staff_world : World :=
  {| db := {| companies := []; domains := [];
              schemas := {[ public := {| users := [alice]; profiles := [];
                                         projects := []; tasks := [] |} ]} |};
     connection_schema_name := public; log := []; outbox := [] |}.

(** Two backends: one that delivers every message, one that refuses all. *)
Definition delivers : Backend := fun _ => true.
Definition refuses : Backend := fun _ => false.

(** * Properties *)

(** ** Proof support *)

Ltac unfold_M :=
  unfold mbind, mret, M_bind, M_ret, raise, get_db, put_db, get_schema_name,
    set_tenant, set_schema, active_schema, put_active_schema, logger,
    send_mail in *.

Ltac split_cases := repeat (case_match; simplify_eq; simpl in * ).

Lemma transaction_atomic_raise {A} (body : M A) w e w' :
  transaction_atomic body w = (Raise e, w') -> db w' = db w.
Proof.
  unfold transaction_atomic.
  destruct (body w) as [[a|e0] w0]; intros H; inversion H; reflexivity.
Qed.

Lemma schema_context_restores {A} (name : string) (body : M A) w :
  connection_schema_name (schema_context name body w).2 = connection_schema_name w.
Proof.
  unfold schema_context. simpl.
  destruct (body _) as [r w']. reflexivity.
Qed.

Lemma CompanyRegistrationSerializer_is_valid_pure data w r w' :
  CompanyRegistrationSerializer_is_valid data w = (r, w') -> w' = w.
Proof.
  unfold CompanyRegistrationSerializer_is_valid, validate_schema_name,
    validate_domain_url.
  unfold_M. split_cases; intros; simplify_eq; reflexivity.
Qed.

Lemma CompanyRegistrationSerializer_create_raise data w e w' :
  CompanyRegistrationSerializer_create data w = (Raise e, w') -> db w' = db w.
Proof. apply transaction_atomic_raise. Qed.

Lemma register_company_inv data w :
  match register_company data w with
  | (Return (HTTP_201_CREATED r), w') => registered data w r w'
  | (_, w') => db w' = db w
  end.
Proof.
  unfold register_company.
  unfold mbind at 1, M_bind at 1.
  destruct (CompanyRegistrationSerializer_is_valid data w) as [[v|e] w0] eqn:Hv;
    pose proof (CompanyRegistrationSerializer_is_valid_pure _ _ _ _ Hv) as ->;
    [|reflexivity].
  destruct v as [errors|vd]; [reflexivity|].
  unfold mbind, M_bind.
  destruct (CompanyRegistrationSerializer_create vd w) as [[r|e] w'] eqn:Hc;
    [|exact (CompanyRegistrationSerializer_create_raise _ _ _ _ Hc)].
  simpl.
  unfold CompanyRegistrationSerializer_is_valid, validate_schema_name,
    validate_domain_url in Hv.
  unfold CompanyRegistrationSerializer_create, transaction_atomic,
    Company_objects_create, Domain_objects_create, User_objects_create_user,
    post_save_User, create_user_profile, save_user_profile,
    UserProfile_objects_get_or_create, UserProfile_objects_create,
    UserProfile_save in Hc.
  unfold_M.
  split_cases.
  all: constructor; simpl; try done.
  all: try (by apply String.eqb_eq, negb_false_iff).
  all: repeat match goal with
       | H : <[?k := _]> _ !! ?k = Some _ |- _ =>
           rewrite lookup_insert_eq in H; simplify_eq; simpl in *
       end.
  all: eexists; (split; [apply lookup_insert_eq|]); simpl.
  all: match goal with H : schemas _ !! _ = _ |- _ => by rewrite H end.
Qed.

Lemma register_company_created data w r w' :
  register_company data w = (Return (HTTP_201_CREATED r), w') ->
  registered data w r w'.
Proof.
  intros H. pose proof (register_company_inv data w) as Hinv.
  by rewrite H in Hinv.
Qed.

Lemma existsb_elem_of {A} (p : A -> bool) (l : list A) x :
  x ∈ l -> p x = true -> existsb p l = true.
Proof.
  intros Hin Hp. apply existsb_exists. exists x. split; [|done].
  by apply list_elem_of_In.
Qed.

(** ** Company registration *)


(** The success branch is inhabited. *)
Example registration_succeeds :
  exists r w', register_company acme_request fresh_world
               = (Return (HTTP_201_CREATED r), w')
    /\ schema_name (company r) = "acme"
    /\ username (admin_user r) = "admin".
Proof. eexists _, _. split; [vm_compute; reflexivity|]. by split. Qed.

(** A failure after the first insertions: the schema name is new, the domain
    differs from a registered one only by case, so validation passes, the
    company row is inserted, the domain row violates uniqueness, and the
    rollback leaves the store as it was. *)
Example registration_rolls_back :
  let data := {| reg_company_name := "Beta"; reg_schema_name := "beta";
                 domain_url := "ACME.example.com"; admin_username := "root";
                 admin_email := "root@beta.example.com";
                 admin_password := "SecurePass123!";
                 reg_subscription_plan := "free" |} in
  (register_company data (on_public acme_world)).1 = Raise (IntegrityError "domain")
  /\ db (register_company data (on_public acme_world)).2 = db acme_world.
Proof. split; vm_compute; reflexivity. Qed.

(** The same schema identifier in another case passes the field hook, which
    compares before lower-casing, and is stopped by the uniqueness of
    [schema_name] when the company row is inserted. *)
Example registration_case_variant_raises :
  (register_company acme_again (on_public acme_world)).1
  = Raise (IntegrityError "schema_name")
  /\ db (register_company acme_again (on_public acme_world)).2 = db acme_world.
Proof. split; vm_compute; reflexivity. Qed.

(** C2. The registration sequence does not restore the namespace: run on the
    public schema, it leaves the connection on the schema of the new tenant,
    so the next query of the process reads the tenant's tables. *)
Theorem registration_leaves_tenant_active :
  connection_schema_name fresh_world = public
  /\ connection_schema_name (register_company acme_request fresh_world).2 = "acme"
  /\ exists s, (active_schema (register_company acme_request fresh_world).2).1
               = Return s
               /\ map username (users s) = ["admin"].
Proof.
  split; [reflexivity|]. split; [vm_compute; reflexivity|].
  eexists. split; [vm_compute; reflexivity|]. reflexivity.
Qed.

(** The same holds for every successful registration. *)
Lemma registration_switches_schema data w r w' :
  register_company data w = (Return (HTTP_201_CREATED r), w') ->
  connection_schema_name w = public
  /\ connection_schema_name w' = Text.lower (reg_schema_name data).
Proof.
  intros H.
  destruct (register_company_created _ _ _ _ H) as [Hpub Hc _ _ _ _ _ Hconn _ _].
  split; [done|]. by rewrite Hconn, Hc.
Qed.

(** ** Validation of the schema identifier and the domain *)

Lemma all_chars_remove_underscores v :
  Text.all_chars Text.isalnum_char (Text.remove_underscores v) = true ->
  Text.all_chars Text.alnum_or_underscore v = true.
Proof.
  induction v as [|c v IH]; simpl; [done|].
  unfold Text.alnum_or_underscore at 1.
  destruct (Ascii.eqb c Text.underscore) eqn:Hc.
  - intros H. rewrite orb_true_r. simpl. auto.
  - simpl. intros [Hc' H]%andb_true_iff. rewrite Hc'. simpl. auto.
Qed.

Lemma isalnum_all_chars s :
  Text.isalnum s = true -> Text.all_chars Text.isalnum_char s = true.
Proof. by destruct s. Qed.

Lemma malformed_not_isalnum v :
  Text.all_chars Text.alnum_or_underscore v = false ->
  Text.isalnum (Text.remove_underscores v) = false.
Proof.
  intros H. apply not_true_is_false. intros Hal.
  apply isalnum_all_chars, all_chars_remove_underscores in Hal. congruence.
Qed.

Lemma hyphen_malformed v :
  Text.contains_char Text.hyphen v = true ->
  Text.all_chars Text.alnum_or_underscore v = false.
Proof.
  induction v as [|c v IH]; simpl; [done|].
  destruct (Ascii.eqb c Text.hyphen) eqn:Hc; simpl.
  - apply Ascii.eqb_eq in Hc as ->. reflexivity.
  - intros H. rewrite (IH H). apply andb_false_r.
Qed.

Lemma validate_schema_name_malformed v w :
  Text.all_chars Text.alnum_or_underscore v = false ->
  exists m, validate_schema_name v w = (Return (ValidationError m), w).
Proof.
  intros H%malformed_not_isalnum. unfold validate_schema_name. unfold_M.
  destruct (existsb _ _); [by eexists|]. rewrite H. simpl. by eexists.
Qed.

Lemma register_company_malformed data w :
  Text.all_chars Text.alnum_or_underscore (reg_schema_name data) = false ->
  exists errors m,
    register_company data w = (Return (HTTP_400_BAD_REQUEST errors), w)
    /\ ("schema_name", m) ∈ errors.
Proof.
  intros H. destruct (validate_schema_name_malformed _ w H) as [m Hm].
  unfold register_company, CompanyRegistrationSerializer_is_valid.
  unfold mbind, M_bind. cbv beta. rewrite Hm.
  unfold validate_domain_url. unfold_M.
  destruct (existsb _ _); simpl; eexists _, m; (split; [reflexivity|]);
    set_solver.
Qed.

(** What the validation of a registration does ensure.  A schema identifier
    with a character that is neither alphanumeric nor an underscore (a
    hyphen, say) is answered with a validation error on the field and
    nothing is written; a registration that is accepted stores the schema
    identifier and the domain in lower case; and a registration whose
    lower-cased schema identifier or domain is already in the registry is
    never answered 201 and leaves the store as it was.  The last part does
    not say that such a registration is answered at all: see
    [case_variant_duplicate_not_rejected]. *)
Theorem registration_validation (data : CompanyRegistration) (w : World) :
  (Text.all_chars Text.alnum_or_underscore (reg_schema_name data) = false ->
   exists errors m,
     register_company data w = (Return (HTTP_400_BAD_REQUEST errors), w)
     /\ ("schema_name", m) ∈ errors)
  /\ (Text.contains_char Text.hyphen (reg_schema_name data) = true ->
      exists errors m,
        register_company data w = (Return (HTTP_400_BAD_REQUEST errors), w)
        /\ ("schema_name", m) ∈ errors)
  /\ (forall r w',
        register_company data w = (Return (HTTP_201_CREATED r), w') ->
        schema_name (company r) = Text.lower (reg_schema_name data)
        /\ domain (result_domain r) = Text.lower (domain_url data)
        /\ company r ∈ companies (db w')
        /\ result_domain r ∈ domains (db w'))
  /\ (schema_or_domain_taken data (db w) ->
      (forall r w',
         register_company data w <> (Return (HTTP_201_CREATED r), w'))
      /\ db (register_company data w).2 = db w).
Proof.
  split; [apply register_company_malformed|].
  split; [intros H; by apply register_company_malformed, hyphen_malformed|].
  split.
  - intros r w' H. destruct (register_company_created _ _ _ _ H) as
      [_ Hc Hd _ Hcs Hds _ _ _ _].
    rewrite Hcs, Hds, Hd, Hc. simpl. repeat split; set_solver.
  - intros Htaken.
    assert (forall r w', register_company data w
                         <> (Return (HTTP_201_CREATED r), w')) as Hno.
    { intros r w' H. destruct (register_company_created _ _ _ _ H) as
        [_ _ _ _ _ _ _ _ Hfs Hfd].
      destruct Htaken as [(c & Hin & Hc)|(x & Hin & Hx)].
      - rewrite (existsb_elem_of _ _ c Hin) in Hfs; [done|].
        by apply String.eqb_eq.
      - rewrite (existsb_elem_of _ _ x Hin) in Hfd; [done|].
        by apply String.eqb_eq. }
    split; [exact Hno|].
    pose proof (register_company_inv data w) as Hinv.
    destruct (register_company data w) as [[[]|] w'] eqn:E; try exact Hinv.
    by destruct (Hno body w').
Qed.

Lemma registration_validation_witness :
  (exists errors m,
     register_company hyphen_request fresh_world
     = (Return (HTTP_400_BAD_REQUEST errors), fresh_world)
     /\ ("schema_name", m) ∈ errors)
  /\ (exists r w',
        register_company acme_request fresh_world
        = (Return (HTTP_201_CREATED r), w')
        /\ schema_name (company r) = "acme"
        /\ domain (result_domain r) = "acme.example.com")
  /\ ((forall r w',
         register_company acme_again (on_public acme_world)
         <> (Return (HTTP_201_CREATED r), w'))
      /\ db (register_company acme_again (on_public acme_world)).2
         = db acme_world).
Proof.
  split; [|split].
  - apply (proj1 (proj2 (registration_validation hyphen_request fresh_world))).
    reflexivity.
  - assert (exists r w', register_company acme_request fresh_world
                         = (Return (HTTP_201_CREATED r), w')) as (r & w' & E)
      by (eexists _, _; vm_compute; reflexivity).
    exists r, w'. split; [exact E|].
    destruct (proj1 (proj2 (proj2
                (registration_validation acme_request fresh_world))) r w' E)
      as (Hs & Hd & _).
    rewrite Hs, Hd. split; reflexivity.
  - apply (proj2 (proj2 (proj2
             (registration_validation acme_again (on_public acme_world))))).
    left. eexists. split; [vm_compute; apply list_elem_of_here|reflexivity].
Defined.

(** C3. The hooks of the two fields look the text up in the registry as it
    was sent and put it in lower case afterwards.  So a schema identifier
    that equals a registered one after case-normalization, but not before,
    is not rejected by the validation: the hook returns it, the serializer
    reports no error, the insertion of the company row breaks the
    uniqueness of [schema_name], and the request raises instead of
    answering 400; the domain behaves alike.  The same identifier and domain
    in the registered spelling are answered 400 with the messages of the
    hooks.  In all three cases only the records of the first company are
    in the store. *)
Theorem case_variant_duplicate_not_rejected :
  (exists c, c ∈ companies (db acme_world)
             /\ schema_name c = Text.lower (reg_schema_name acme_again))
  /\ validate_schema_name (reg_schema_name acme_again) (on_public acme_world)
     = (Return (Valid "acme"), on_public acme_world)
  /\ (exists validated_data,
        CompanyRegistrationSerializer_is_valid acme_again (on_public acme_world)
        = (Return (inr validated_data), on_public acme_world))
  /\ (register_company acme_again (on_public acme_world)).1
     = Raise (IntegrityError "schema_name")
  /\ db (register_company acme_again (on_public acme_world)).2 = db acme_world
  /\ (exists x, x ∈ domains (db acme_world)
                /\ domain x = Text.lower (domain_url beta_request))
  /\ validate_domain_url (domain_url beta_request) (on_public acme_world)
     = (Return (Valid "acme.example.com"), on_public acme_world)
  /\ (register_company beta_request (on_public acme_world)).1
     = Raise (IntegrityError "domain")
  /\ db (register_company beta_request (on_public acme_world)).2 = db acme_world
  /\ register_company acme_request (on_public acme_world)
     = (Return (HTTP_400_BAD_REQUEST
                  [("schema_name", "This schema name is already taken.");
                   ("domain_url", "This domain is already registered.")]),
        on_public acme_world).
Proof.
  split; [eexists; split; [apply list_elem_of_here|vm_compute; reflexivity]|].
  split; [vm_compute; reflexivity|].
  split; [eexists; vm_compute; reflexivity|].
  split; [vm_compute; reflexivity|].
  split; [vm_compute; reflexivity|].
  split; [eexists; split; [apply list_elem_of_here|vm_compute; reflexivity]|].
  repeat split; vm_compute; reflexivity.
Qed.

(** ** Tenant user registration *)

(** C4. In a tenant namespace a registration with a new username and a new
    email does not complete: the identity is inserted, the [post_save]
    receiver creates its profile with the default role, and the serializer's
    own insertion of a profile for the same identity violates the one-to-one
    constraint and raises.  No transaction encloses the steps, so the
    identity and the receiver's profile stay in the store. *)
Theorem tenant_registration_raises :
  (UserViewSet_register bob_request (on_schema "acme" acme_world)).1
  = Raise (IntegrityError "user_id")
  /\ exists s,
       schemas (db (UserViewSet_register bob_request (on_schema "acme" acme_world)).2)
         !! "acme" = Some s
       /\ identities s = [(1, "admin"); (2, "bob")]%nat
       /\ roles s = [(1, "member"); (2, "member")]%nat.
Proof.
  split; [vm_compute; reflexivity|].
  eexists. split; [vm_compute; reflexivity|]. split; reflexivity.
Qed.

(** The parts of the registration that the code does carry out. *)
Lemma tenant_registration_duplicate data w s :
  schemas (db w) !! connection_schema_name w = Some s ->
  existsb (fun u => String.eqb (username u) (reg_username data)) (users s) = true
  \/ existsb (fun u => String.eqb (email u) (reg_email data)) (users s) = true ->
  exists errors, UserViewSet_register data w = (Return (HTTP_400_BAD_REQUEST errors), w)
                 /\ errors <> [].
Proof.
  intros Hs Hdup.
  unfold UserViewSet_register, UserRegistrationSerializer_is_valid,
    validate_username, validate_email.
  unfold_M. rewrite Hs.
  destruct (existsb (fun u => String.eqb (username u) _) _) eqn:Hu; rewrite Hs;
    destruct (existsb (fun u => String.eqb (email u) _) _) eqn:He; simpl;
    try (by eexists).
  by destruct Hdup.
Qed.

Lemma create_user_public_no_profile uname mail pw fn ln staff super w u w' :
  connection_schema_name w = public ->
  User_objects_create_user uname mail pw fn ln staff super w = (Return u, w') ->
  exists s s', schemas (db w) !! public = Some s
               /\ schemas (db w') !! public = Some s'
               /\ users s' = (users s ++ [u])%list
               /\ profiles s' = profiles s.
Proof.
  intros Hpub H.
  unfold User_objects_create_user, post_save_User, create_user_profile,
    save_user_profile in H.
  unfold_M.
  destruct (schemas (db w) !! connection_schema_name w) as [s|] eqn:Hs; [|done].
  destruct (existsb _ _); [done|].
  simpl in H. rewrite !Hpub in H. simpl in H. simplify_eq. simpl.
  rewrite Hpub in *. exists s. eexists.
  split; [done|]. split; [apply lookup_insert_eq|]. done.
Qed.

Lemma find_profile_appended (l : list UserProfile) p uid :
  profile_user p = uid ->
  find (fun q => Nat.eqb (profile_user q) uid) (l ++ [p]) <> None.
Proof.
  intros Hp Hnone. pose proof (find_none _ _ Hnone p) as H. simpl in H.
  rewrite Hp, Nat.eqb_refl in H. apply Bool.diff_true_false, H.
  apply in_or_app. right. by left.
Qed.

Lemma find_profile_saved (l : list UserProfile) p uid :
  find (fun q => Nat.eqb (profile_user q) uid) l = Some p ->
  find (fun q => Nat.eqb (profile_user q) uid)
    (map (fun q => if Nat.eqb (profile_id q) (profile_id p) then p else q) l)
  <> None.
Proof.
  intros Hp Hnone. apply find_some in Hp as [Hin Hp].
  pose proof (find_none _ _ Hnone p) as H. simpl in H.
  rewrite Hp in H. apply Bool.diff_true_false, H.
  apply in_map_iff. exists p. by rewrite Nat.eqb_refl.
Qed.

(** In a tenant namespace the serializer's [create] never returns. *)
Lemma tenant_create_never_returns data w u w' :
  connection_schema_name w <> public ->
  UserRegistrationSerializer_create data w <> (Return u, w').
Proof.
  intros Hten H.
  assert (negb (String.eqb (connection_schema_name w) public) = true) as Hneg.
  { apply negb_true_iff, String.eqb_neq, Hten. }
  unfold UserRegistrationSerializer_create, User_objects_create_user,
    post_save_User, create_user_profile, save_user_profile,
    UserProfile_objects_get_or_create, UserProfile_objects_create,
    UserProfile_save in H.
  unfold_M.
  split_cases.
  all: repeat match goal with
       | H : <[?k := _]> _ !! ?k = Some _ |- _ =>
           rewrite lookup_insert_eq in H; simplify_eq; simpl in *
       end.
  all: unfold profile_of in *; simpl in *.
  all: try congruence.
  all: try (by eapply find_profile_saved; eauto).
  all: try (by eapply find_profile_appended; [|eauto]).
Qed.

(** ** Dashboard *)

(** The scenario of the specification: one project, one self-assigned task
    in status "todo". *)
Example dashboard_scenario :
  exists st w',
    dashboard_stats alice
      (tenant_world [make_task 1 "Write spec" "todo" (Some 1%nat) None 2000])
    = (Return (HTTP_200_OK st), w')
    /\ total_projects st = 1%nat /\ total_tasks st = 1%nat
    /\ dict_get "todo" (my_tasks st) = Some 1%nat.
Proof. eexists _, _. split; [vm_compute; reflexivity|]. by repeat split. Qed.

(** C5. With one task in status "review" assigned to the caller, the
    dashboard reports one assigned task in total, has no entry for "review"
    in the breakdown, and its per-status counts add up to zero. *)
Theorem dashboard_breakdown_omits_review :
  exists st w',
    dashboard_stats alice review_world = (Return (HTTP_200_OK st), w')
    /\ map fst (my_tasks st) = ["total"; "todo"; "in_progress"; "done"]
    /\ dict_get "review" (my_tasks st) = None
    /\ dict_get "total" (my_tasks st) = Some 1%nat
    /\ dict_get "todo" (my_tasks st) = Some 0%nat
    /\ dict_get "in_progress" (my_tasks st) = Some 0%nat
    /\ dict_get "done" (my_tasks st) = Some 0%nat.
Proof. eexists _, _. split; [vm_compute; reflexivity|]. by repeat split. Qed.

(** ** Query sets: ordering and lookup *)

Section QuerySets.
Context {A : Type}.
Implicit Types (l : list A) (x y : A).

Lemma elem_of_insert_desc (key : A -> Z) x y l :
  y ∈ insert_desc key x l <-> y = x \/ y ∈ l.
Proof.
  induction l as [|z l IH]; simpl.
  - set_solver.
  - destruct (key z <? key x); rewrite !elem_of_cons, ?IH; tauto.
Qed.

Lemma elem_of_order_by_desc (key : A -> Z) y l :
  y ∈ order_by_desc key l <-> y ∈ l.
Proof.
  unfold order_by_desc. induction l as [|z l IH]; simpl; [done|].
  by rewrite elem_of_insert_desc, IH, elem_of_cons.
Qed.

Lemma length_insert_desc (key : A -> Z) x l :
  length (insert_desc key x l) = S (length l).
Proof.
  induction l as [|z l IH]; simpl; [done|].
  destruct (key z <? key x); simpl; by rewrite ?IH.
Qed.

Lemma length_order_by_desc (key : A -> Z) l :
  length (order_by_desc key l) = length l.
Proof.
  unfold order_by_desc. induction l as [|z l IH]; simpl; [done|].
  by rewrite length_insert_desc, IH.
Qed.

Lemma find_elem_of (f : A -> bool) l x :
  find f l = Some x -> x ∈ l /\ f x = true.
Proof. intros [Hin Hf]%find_some. by rewrite list_elem_of_In. Qed.

(** The only candidate is found. *)
Lemma find_unique (f : A -> bool) l x :
  (forall y, y ∈ l -> f y = true -> y = x) ->
  x ∈ l -> f x = true -> find f l = Some x.
Proof.
  intros Huniq Hin Hf. destruct (find f l) as [y|] eqn:E.
  - apply find_elem_of in E as [Hy Hfy]. by rewrite (Huniq y Hy Hfy).
  - apply list_elem_of_In in Hin.
    pose proof (find_none _ _ E x Hin). congruence.
Qed.

Lemma find_no_candidate (f : A -> bool) l :
  (forall y, y ∈ l -> f y = false) -> find f l = None.
Proof.
  intros Hno. destruct (find f l) as [y|] eqn:E; [|done].
  apply find_elem_of in E as [Hy Hfy]. rewrite (Hno y Hy) in Hfy. done.
Qed.

Lemma NoDup_key_inj {K} (key : A -> K) l x y :
  NoDup (map key l) -> x ∈ l -> y ∈ l -> key x = key y -> x = y.
Proof.
  induction l as [|z l IH]; simpl; [set_solver|].
  rewrite NoDup_cons, !elem_of_cons. intros [Hz Hnd] [->|Hx] [->|Hy] Hk.
  - done.
  - destruct Hz. rewrite Hk. by apply list_elem_of_fmap_2.
  - destruct Hz. rewrite <-Hk. by apply list_elem_of_fmap_2.
  - by apply IH.
Qed.
End QuerySets.

Lemma elem_of_accessible_projects s user p :
  p ∈ accessible_projects s user
  <-> p ∈ projects s /\ (is_owner user p || is_member user p) = true.
Proof.
  unfold accessible_projects.
  rewrite elem_of_order_by_desc, list_elem_of_In, filter_In, <-list_elem_of_In.
  done.
Qed.

Lemma get_object_accessible s user p :
  NoDup (map project_id (projects s)) -> p ∈ projects s ->
  (is_owner user p || is_member user p) = true ->
  ProjectViewSet_get_object s user (project_id p) = Some p.
Proof.
  intros Hnd Hin Hacc. apply find_unique.
  - intros q [Hq _]%elem_of_accessible_projects Hid%Nat.eqb_eq.
    by apply (NoDup_key_inj project_id (projects s)).
  - by apply elem_of_accessible_projects.
  - apply Nat.eqb_refl.
Qed.

Lemma get_object_inaccessible s user p :
  NoDup (map project_id (projects s)) -> p ∈ projects s ->
  is_owner user p = false -> is_member user p = false ->
  ProjectViewSet_get_object s user (project_id p) = None.
Proof.
  intros Hnd Hin Ho Hm. apply find_no_candidate.
  intros q [Hq Hacc]%elem_of_accessible_projects.
  destruct (Nat.eqb (project_id q) (project_id p)) eqn:Hid; [|done].
  apply Nat.eqb_eq in Hid.
  rewrite (NoDup_key_inj project_id (projects s) q p Hnd Hq Hin Hid) in Hacc.
  by rewrite Ho, Hm in Hacc.
Qed.

(** ** Project membership *)

(** A caller other than the owner never gets past the two gates: the world
    is untouched and the answer is 403 or 404. *)
Lemma add_member_gate user pk target w :
  match ProjectViewSet_add_member user pk target w with
  | (Return (HTTP_200_OK body), w') =>
      exists s p, schemas (db w) !! connection_schema_name w = Some s
                  /\ ProjectViewSet_get_object s user pk = Some p
                  /\ is_owner user p = true
                  /\ is_Some (User_objects_get s target)
  | (_, w') => w' = w
  end.
Proof.
  unfold ProjectViewSet_add_member. unfold_M.
  destruct (schemas (db w) !! connection_schema_name w) as [s|] eqn:Hs; [|done].
  destruct (ProjectViewSet_get_object s user pk) as [p|] eqn:Hp; [|done].
  destruct (is_owner user p) eqn:Ho; simpl; [|done].
  destruct (User_objects_get s target) as [u|] eqn:Hu; [|done].
  exists s, p. by rewrite Hu.
Qed.

Lemma remove_member_gate user pk target w :
  match ProjectViewSet_remove_member user pk target w with
  | (Return (HTTP_200_OK body), w') =>
      exists s p, schemas (db w) !! connection_schema_name w = Some s
                  /\ ProjectViewSet_get_object s user pk = Some p
                  /\ is_owner user p = true
                  /\ is_Some (User_objects_get s target)
  | (_, w') => w' = w
  end.
Proof.
  unfold ProjectViewSet_remove_member. unfold_M.
  destruct (schemas (db w) !! connection_schema_name w) as [s|] eqn:Hs; [|done].
  destruct (ProjectViewSet_get_object s user pk) as [p|] eqn:Hp; [|done].
  destruct (is_owner user p) eqn:Ho; simpl; [|done].
  destruct (User_objects_get s target) as [u|] eqn:Hu; [|done].
  exists s, p. by rewrite Hu.
Qed.

(** The claim as written fails twice: Carol, who neither owns nor belongs to
    the project, is answered 404 and not 403; Bob, a member who is not the
    owner, is answered 403 and not 404 when he names an identity that does
    not exist. *)
Lemma member_management_counterexample :
  (is_owner carol launch = false
   /\ ProjectViewSet_add_member carol 1 (Some 2%nat) (tenant_world [])
      = (Return (HTTP_404_NOT_FOUND not_found_detail), tenant_world []))
  /\ (User_objects_get (tenant_schema []) (Some 99%nat) = None
      /\ ProjectViewSet_remove_member bob 1 (Some 99%nat) (tenant_world [])
         = (Return (HTTP_403_FORBIDDEN "Only project owner can remove members"),
            tenant_world [])).
Proof. repeat split; vm_compute; reflexivity. Qed.

(** C7 (amended). On a project of the active namespace: a member who is not
    the owner is answered 403 by both actions; a caller who neither owns nor
    belongs to the project is answered 404, the project being outside the
    caller's query set; the owner naming an identity that does not exist is
    answered 404; in the three cases nothing is written.  An answer 200
    comes only to the owner. *)
Theorem member_management_owner_only (user : User) (target : option nat)
    (w : World) (s : Schema) (p : Project) :
  schemas (db w) !! connection_schema_name w = Some s ->
  NoDup (map project_id (projects s)) ->
  p ∈ projects s ->
  (is_owner user p = false -> is_member user p = true ->
   ProjectViewSet_add_member user (project_id p) target w
   = (Return (HTTP_403_FORBIDDEN "Only project owner can add members"), w)
   /\ ProjectViewSet_remove_member user (project_id p) target w
      = (Return (HTTP_403_FORBIDDEN "Only project owner can remove members"), w))
  /\ (is_owner user p = false -> is_member user p = false ->
      ProjectViewSet_add_member user (project_id p) target w
      = (Return (HTTP_404_NOT_FOUND not_found_detail), w)
      /\ ProjectViewSet_remove_member user (project_id p) target w
         = (Return (HTTP_404_NOT_FOUND not_found_detail), w))
  /\ (is_owner user p = true -> User_objects_get s target = None ->
      ProjectViewSet_add_member user (project_id p) target w
      = (Return (HTTP_404_NOT_FOUND "User not found"), w)
      /\ ProjectViewSet_remove_member user (project_id p) target w
         = (Return (HTTP_404_NOT_FOUND "User not found"), w))
  /\ (forall body w',
        ProjectViewSet_add_member user (project_id p) target w
        = (Return (HTTP_200_OK body), w')
        \/ ProjectViewSet_remove_member user (project_id p) target w
           = (Return (HTTP_200_OK body), w') ->
        is_owner user p = true).
Proof.
  intros Hs Hnd Hin.
  unfold ProjectViewSet_add_member, ProjectViewSet_remove_member. unfold_M.
  rewrite Hs. split; [|split; [|split]].
  - intros Ho Hm.
    rewrite get_object_accessible by (done || by rewrite Hm, orb_true_r).
    by rewrite Ho.
  - intros Ho Hm. by rewrite get_object_inaccessible.
  - intros Ho Hu.
    rewrite get_object_accessible by (done || by rewrite Ho).
    by rewrite Ho, Hu.
  - intros body w'.
    destruct (is_owner user p) eqn:Ho; [done|].
    destruct (is_member user p) eqn:Hm.
    + rewrite get_object_accessible by (done || by rewrite Hm, orb_true_r).
      rewrite Ho. simpl. by intros [|].
    + rewrite get_object_inaccessible by done. by intros [|].
Qed.

Lemma member_management_witness :
  (ProjectViewSet_add_member bob 1 (Some 3%nat) (tenant_world [])
   = (Return (HTTP_403_FORBIDDEN "Only project owner can add members"),
      tenant_world [])
   /\ ProjectViewSet_remove_member bob 1 (Some 3%nat) (tenant_world [])
      = (Return (HTTP_403_FORBIDDEN "Only project owner can remove members"),
         tenant_world []))
  /\ (ProjectViewSet_add_member carol 1 (Some 3%nat) (tenant_world [])
      = (Return (HTTP_404_NOT_FOUND not_found_detail), tenant_world [])
      /\ ProjectViewSet_remove_member carol 1 (Some 3%nat) (tenant_world [])
         = (Return (HTTP_404_NOT_FOUND not_found_detail), tenant_world []))
  /\ (ProjectViewSet_add_member alice 1 (Some 99%nat) (tenant_world [])
      = (Return (HTTP_404_NOT_FOUND "User not found"), tenant_world [])
      /\ ProjectViewSet_remove_member alice 1 (Some 99%nat) (tenant_world [])
         = (Return (HTTP_404_NOT_FOUND "User not found"), tenant_world [])).
Proof.
  assert (schemas (db (tenant_world [])) !! connection_schema_name (tenant_world [])
          = Some (tenant_schema [])) as Hs by (vm_compute; reflexivity).
  assert (NoDup (map project_id (projects (tenant_schema [])))) as Hnd
    by apply NoDup_singleton.
  assert (launch ∈ projects (tenant_schema [])) as Hin by apply list_elem_of_here.
  split; [|split].
  - apply (member_management_owner_only bob (Some 3%nat) _ _ launch Hs Hnd Hin);
      vm_compute; reflexivity.
  - apply (member_management_owner_only carol (Some 3%nat) _ _ launch Hs Hnd Hin);
      vm_compute; reflexivity.
  - apply (member_management_owner_only alice (Some 99%nat) _ _ launch Hs Hnd Hin);
      vm_compute; reflexivity.
Defined.

(** ** Task creation *)

Lemma find_project_unique s p :
  NoDup (map project_id (projects s)) -> p ∈ projects s ->
  find (fun q => Nat.eqb (project_id q) (project_id p)) (projects s) = Some p.
Proof.
  intros Hnd Hin. apply find_unique; [|done|apply Nat.eqb_refl].
  intros q Hq Hid%Nat.eqb_eq. by apply (NoDup_key_inj project_id (projects s)).
Qed.

(** After [replace_project p'], the key of [p'] resolves to [p']. *)
Lemma find_replace_project s p p' :
  p ∈ projects s -> project_id p' = project_id p ->
  find (fun q => Nat.eqb (project_id q) (project_id p))
    (projects (replace_project p' s)) = Some p'.
Proof.
  intros Hin Hid. simpl. apply find_unique.
  - intros q (y & -> & Hy)%list_elem_of_fmap. rewrite Hid.
    destruct (Nat.eqb (project_id y) (project_id p)) eqn:E; [done|].
    by rewrite E.
  - apply list_elem_of_fmap. exists p. by rewrite Hid, Nat.eqb_refl.
  - rewrite Hid. apply Nat.eqb_refl.
Qed.

(** What [TaskSerializer_is_valid] answers, field by field. *)
Lemma TaskSerializer_is_valid_accepts s user data p ttl y st a :
  project_field s user (payload_project data) = Valid p ->
  char_field (payload_title data) = inr ttl ->
  choice_field PRIORITY_CHOICES (payload_priority data) = Valid y ->
  choice_field STATUS_CHOICES (payload_status data) = Valid st ->
  assigned_to_field s (payload_assigned_to_id data) = Valid a ->
  TaskSerializer_is_valid s user data = inr (p, ttl, a).
Proof.
  unfold TaskSerializer_is_valid. by intros -> -> -> -> ->.
Qed.

Lemma TaskSerializer_is_valid_inr s user data p ttl a :
  TaskSerializer_is_valid s user data = inr (p, ttl, a) ->
  project_field s user (payload_project data) = Valid p
  /\ char_field (payload_title data) = inr ttl
  /\ choice_field PRIORITY_CHOICES (payload_priority data)
     = Valid (payload_priority data)
  /\ choice_field STATUS_CHOICES (payload_status data) = Valid (payload_status data)
  /\ assigned_to_field s (payload_assigned_to_id data) = Valid a.
Proof.
  unfold TaskSerializer_is_valid, choice_field.
  destruct (project_field s user (payload_project data)),
    (char_field (payload_title data)),
    (existsb (String.eqb (payload_priority data)) PRIORITY_CHOICES),
    (existsb (String.eqb (payload_status data)) STATUS_CHOICES),
    (assigned_to_field s (payload_assigned_to_id data));
    intros H; inversion H; done.
Qed.

Lemma TaskSerializer_is_valid_inl s user data errors :
  TaskSerializer_is_valid s user data = inl errors ->
  errors = (field_errors "project" (project_field s user (payload_project data))
            ++ char_errors "title" (char_field (payload_title data))
            ++ field_errors "priority"
                 (choice_field PRIORITY_CHOICES (payload_priority data))
            ++ field_errors "status"
                 (choice_field STATUS_CHOICES (payload_status data))
            ++ field_errors "assigned_to_id"
                 (assigned_to_field s (payload_assigned_to_id data)))%list.
Proof.
  unfold TaskSerializer_is_valid.
  destruct (project_field s user (payload_project data)),
    (char_field (payload_title data)),
    (choice_field PRIORITY_CHOICES (payload_priority data)),
    (choice_field STATUS_CHOICES (payload_status data)),
    (assigned_to_field s (payload_assigned_to_id data));
    intros H; inversion H; done.
Qed.

Lemma field_errors_nil {A} field (v : Validated A) :
  field_errors field v = [] -> exists a, v = Valid a.
Proof. destruct v; [by eexists|done]. Qed.

Lemma char_field_errors_nil field value :
  char_errors field (char_field value) = [] -> exists ttl, char_field value = inr ttl.
Proof.
  unfold char_field. destruct (String.eqb _ ""); [done|].
  destruct (_ ++ _)%list as [|m ms]; [by eexists|done].
Qed.

Lemma choice_field_valid choices value y :
  choice_field choices value = Valid y -> y = value.
Proof. unfold choice_field. by case_match; intros [=]. Qed.

(** C6. A caller who neither owns nor belongs to the target project gets a
    validation error on [project] and no task is written; if that was the
    only objection to the payload, then once the owner has added the caller
    as a member the same payload is answered 201 and the task is stored. *)
Theorem task_creation_requires_access (now later : timestamp)
    (user project_owner : User) (data : TaskPayload) (w : World) (s : Schema)
    (p : Project) :
  schemas (db w) !! connection_schema_name w = Some s ->
  NoDup (map project_id (projects s)) ->
  p ∈ projects s ->
  project_id p = payload_project data ->
  is_owner user p = false ->
  is_member user p = false ->
  (exists errors,
     TaskViewSet_create now user data w = (Return (HTTP_400_BAD_REQUEST errors), w)
     /\ ("project", permission_message) ∈ errors)
  /\ (TaskViewSet_create now user data w
      = (Return (HTTP_400_BAD_REQUEST [("project", permission_message)]), w) ->
      is_owner project_owner p = true ->
      is_Some (User_objects_get s (Some (user_id user))) ->
      exists body w1 t w2 s2,
        ProjectViewSet_add_member project_owner (project_id p)
          (Some (user_id user)) w = (Return (HTTP_200_OK body), w1)
        /\ TaskViewSet_create later user data w1 = (Return (HTTP_201_CREATED t), w2)
        /\ project t = project_id p
        /\ created_by t = user_id user
        /\ schemas (db w2) !! connection_schema_name w2 = Some s2
        /\ tasks s2 = (tasks s ++ [t])%list).
Proof.
  intros Hs Hnd Hin Hpk Ho Hm.
  assert (project_field s user (payload_project data)
          = ValidationError permission_message) as Hfield.
  { unfold project_field. rewrite <-Hpk, find_project_unique by done.
    unfold validate_project. by rewrite Ho, Hm. }
  assert (exists rest, TaskSerializer_is_valid s user data
                       = inl (("project", permission_message) :: rest)) as [rest Hv].
  { destruct (TaskSerializer_is_valid s user data) as [errors|[[p0 ttl0] a0]] eqn:Hv.
    - apply TaskSerializer_is_valid_inl in Hv. rewrite Hfield in Hv.
      rewrite Hv. by eexists.
    - apply TaskSerializer_is_valid_inr in Hv as [Hp _]. congruence. }
  split.
  - unfold TaskViewSet_create. unfold_M.
    rewrite Hs, Hv. eexists. split; [reflexivity|]. apply list_elem_of_here.
  - unfold TaskViewSet_create at 1. unfold_M.
    rewrite Hs, Hv. intros Hrest Hown [u Hu].
    assert (rest = []) as -> by congruence. clear Hrest.
    apply TaskSerializer_is_valid_inl in Hv. rewrite Hfield in Hv.
    simpl in Hv. injection Hv as Hv. symmetry in Hv.
    apply app_eq_nil in Hv as [[ttl Ht]%char_field_errors_nil Hv].
    apply app_eq_nil in Hv as [[y Hy]%field_errors_nil Hv].
    apply app_eq_nil in Hv as [[st Hst]%field_errors_nil [a Ha]%field_errors_nil].
    unfold ProjectViewSet_add_member. unfold_M. rewrite Hs.
    rewrite get_object_accessible by (done || by rewrite Hown).
    rewrite Hown, Hu. simpl.
    assert (user_id u = user_id user) as Hid.
    { unfold User_objects_get in Hu. by apply find_elem_of in Hu as [_ ?%Nat.eqb_eq]. }
    set (p' := with_members p ({[user_id u]} ∪ members p)).
    assert (validate_project user p' = Valid p') as Hvalid.
    { unfold validate_project, is_member. simpl.
      rewrite bool_decide_eq_true_2 by set_solver. by rewrite andb_false_r. }
    eexists _, _, _, _, _. split; [reflexivity|].
    unfold TaskViewSet_create.
    unfold_M. cbn [db schemas connection_schema_name].
    rewrite lookup_insert_eq. cbv beta iota.
    rewrite (TaskSerializer_is_valid_accepts (replace_project p' s) user data
               p' ttl y st a); [| |done..].
    + cbn [db schemas connection_schema_name].
      split; [reflexivity|]. simpl. split; [done|]. split; [done|].
      split; [apply lookup_insert_eq|]. done.
    + unfold project_field.
      by rewrite <-Hpk, (find_replace_project s p p' Hin eq_refl).
Qed.

Lemma task_creation_witness :
  (exists errors,
     TaskViewSet_create 5000 carol carol_payload (tenant_world [])
     = (Return (HTTP_400_BAD_REQUEST errors), tenant_world [])
     /\ ("project", permission_message) ∈ errors)
  /\ (exists body w1 t w2 s2,
        ProjectViewSet_add_member alice (project_id launch)
          (Some (user_id carol)) (tenant_world []) = (Return (HTTP_200_OK body), w1)
        /\ TaskViewSet_create 6000 carol carol_payload w1
           = (Return (HTTP_201_CREATED t), w2)
        /\ project t = project_id launch
        /\ created_by t = user_id carol
        /\ schemas (db w2) !! connection_schema_name w2 = Some s2
        /\ tasks s2 = (tasks (tenant_schema []) ++ [t])%list).
Proof.
  assert (schemas (db (tenant_world [])) !! connection_schema_name (tenant_world [])
          = Some (tenant_schema [])) as Hs by (vm_compute; reflexivity).
  assert (NoDup (map project_id (projects (tenant_schema [])))) as Hnd
    by apply NoDup_singleton.
  assert (launch ∈ projects (tenant_schema [])) as Hin by apply list_elem_of_here.
  destruct (task_creation_requires_access 5000 6000 carol alice carol_payload
              (tenant_world []) (tenant_schema []) launch Hs Hnd Hin
              eq_refl eq_refl eq_refl) as [Hreject Haccept].
  split; [exact Hreject|].
  apply Haccept; [vm_compute; reflexivity|reflexivity|].
  exists carol. reflexivity.
Defined.

(** ** Project statistics *)

Lemma count_cons {A} (p : A -> bool) x l :
  count p (x :: l) = ((if p x then 1 else 0) + count p l)%nat.
Proof. unfold count. simpl. by destruct (p x). Qed.

Lemma statistics_of_status_sum ts :
  Forall valid_status ts ->
  status_sum (statistics_of ts) = stats_total_tasks (statistics_of ts).
Proof.
  unfold status_sum. simpl.
  induction 1 as [|t ts Ht _ IH]; [done|].
  rewrite !count_cons. simpl. rewrite <-IH. unfold has_status.
  unfold valid_status in Ht. rewrite !elem_of_cons, elem_of_nil in Ht.
  destruct Ht as [->|[->|[->|[->|[]]]]]; simpl; lia.
Qed.

Lemma statistics_of_priority_sum ts :
  Forall valid_priority ts ->
  priority_sum (statistics_of ts) = stats_total_tasks (statistics_of ts).
Proof.
  unfold priority_sum. simpl.
  induction 1 as [|t ts Ht _ IH]; [done|].
  rewrite !count_cons. simpl. rewrite <-IH. unfold has_priority.
  unfold valid_priority in Ht. rewrite !elem_of_cons, elem_of_nil in Ht.
  destruct Ht as [->|[->|[->|[->|[]]]]]; simpl; lia.
Qed.

Lemma elem_of_project_tasks s p t :
  t ∈ project_tasks s p <-> t ∈ tasks s /\ project t = project_id p.
Proof.
  unfold project_tasks.
  rewrite elem_of_order_by_desc, list_elem_of_In, filter_In, <-list_elem_of_In.
  by rewrite Nat.eqb_eq.
Qed.

(** C10. When every task of the project carries one of the four statuses and
    one of the four priorities, the counts by status in the answer of
    [statistics] add up to [total_tasks], and so do the counts by priority. *)
Theorem statistics_counts_sum (user : User) (pk : nat) (w w' : World)
    (st : ProjectStatistics) :
  (forall s t, schemas (db w) !! connection_schema_name w = Some s ->
               t ∈ tasks s -> project t = pk ->
               valid_status t /\ valid_priority t) ->
  ProjectViewSet_statistics user pk w = (Return (HTTP_200_OK st), w') ->
  status_sum st = stats_total_tasks st
  /\ priority_sum st = stats_total_tasks st.
Proof.
  intros Hvalid. unfold ProjectViewSet_statistics. unfold_M.
  destruct (schemas (db w) !! connection_schema_name w) as [s|] eqn:Hs; [|done].
  destruct (ProjectViewSet_get_object s user pk) as [p|] eqn:Hp; [|done].
  intros H. simplify_eq.
  apply find_elem_of in Hp as [_ Hid%Nat.eqb_eq].
  assert (Forall (fun t => valid_status t /\ valid_priority t) (project_tasks s p))
    as [Hst Hpr]%Forall_and.
  { apply Forall_forall. intros t [Ht Hproj]%elem_of_project_tasks.
    apply (Hvalid s t eq_refl Ht). congruence. }
  split; [by apply statistics_of_status_sum|by apply statistics_of_priority_sum].
Qed.

Lemma statistics_counts_sum_witness :
  exists st,
    ProjectViewSet_statistics bob 1 (tenant_world two_tasks)
    = (Return (HTTP_200_OK st), tenant_world two_tasks)
    /\ stats_total_tasks st = 2%nat
    /\ status_sum st = stats_total_tasks st
    /\ priority_sum st = stats_total_tasks st.
Proof.
  eexists. split; [vm_compute; reflexivity|]. split; [reflexivity|].
  apply (statistics_counts_sum bob 1 (tenant_world two_tasks)
           (tenant_world two_tasks)).
  - intros s t Hs Ht _. vm_compute in Hs. simplify_eq.
    unfold valid_status, valid_priority.
    apply list_elem_of_In in Ht. simpl in Ht.
    destruct Ht as [<-|[<-|[]]]; simpl; split;
      repeat first [apply list_elem_of_here | apply list_elem_of_further].
  - vm_compute. reflexivity.
Defined.

(** ** Cleanup of old completed tasks *)

Lemma clean_schema_idemp cutoff s :
  clean_schema cutoff (clean_schema cutoff s) = clean_schema cutoff s.
Proof.
  unfold clean_schema. simpl. f_equal.
  induction (tasks s) as [|t ts IH]; simpl; [done|].
  destruct (negb (old_done cutoff t)) eqn:E; simpl; rewrite ?E, IH; done.
Qed.

Lemma cleanup_turn cutoff (t : Company) total w :
  exists n w',
    try_except
      (schema_context (schema_name t)
         (cleanup_tenant cutoff (schema_name t) total))
      (fun e =>
         logger (log_error "Error cleaning up data for tenant" (schema_name t) e);;
         mret total) w = (Return n, w')
    /\ cleanup_frame w w'
    /\ schemas (db w')
       = match schemas (db w) !! schema_name t with
         | Some s => <[schema_name t := clean_schema cutoff s]> (schemas (db w))
         | None => schemas (db w)
         end
    /\ (schemas (db w) !! schema_name t = None ->
        cleanup_error (schema_name t) ∈ log w').
Proof.
  unfold try_except, schema_context, cleanup_tenant. unfold_M. simpl.
  destruct (schemas (db w) !! schema_name t) as [s|] eqn:Hs; simpl.
  - destruct (0 <? _)%nat; simpl; eexists _, _; (split; [reflexivity|]);
      (split; [constructor; simpl; set_solver|]); by split.
  - eexists _, _. split; [reflexivity|].
    split; [constructor; simpl; set_solver|]. split; [done|].
    intros _. simpl. set_solver.
Qed.

Lemma cleanup_frame_trans w1 w2 w3 :
  cleanup_frame w1 w2 -> cleanup_frame w2 w3 -> cleanup_frame w1 w3.
Proof.
  intros [] []. constructor; try congruence. auto.
Qed.

Lemma cleanup_loop_cons cutoff t ts total w :
  cleanup_loop cutoff (t :: ts) total w
  = match try_except
            (schema_context (schema_name t)
               (cleanup_tenant cutoff (schema_name t) total))
            (fun e =>
               logger (log_error "Error cleaning up data for tenant"
                         (schema_name t) e);;
               mret total) w with
    | (Return n, w') => cleanup_loop cutoff ts n w'
    | (Raise e, w') => (Raise e, w')
    end.
Proof. reflexivity. Qed.

(** The loop over a list of tenants: it returns, keeps the frame, cleans
    the schemas named in the list, and logs an error for the missing ones. *)
Lemma cleanup_loop_spec cutoff (ts : list Company) :
  forall total w,
  exists n w',
    cleanup_loop cutoff ts total w = (Return n, w')
    /\ cleanup_frame w w'
    /\ (forall name,
          schemas (db w') !! name
          = if bool_decide (name ∈ map schema_name ts)
            then clean_schema cutoff <$> schemas (db w) !! name
            else schemas (db w) !! name)
    /\ (forall t, t ∈ ts -> schemas (db w) !! schema_name t = None ->
                  cleanup_error (schema_name t) ∈ log w').
Proof.
  induction ts as [|t ts IH]; intros total w.
  - exists total, w. split; [done|]. split; [by constructor|].
    split; [done|]. intros t Ht. by apply elem_of_nil in Ht.
  - destruct (cleanup_turn cutoff t total w) as (n1 & w1 & Hturn & Hf1 & Hs1 & Hlog1).
    destruct (IH n1 w1) as (n & w' & Hloop & Hf & Hs & Hlog).
    exists n, w'. split.
    { by rewrite cleanup_loop_cons, Hturn. }
    split; [by eapply cleanup_frame_trans|].
    assert (forall name, schemas (db w1) !! name
                         = if bool_decide (name = schema_name t)
                           then clean_schema cutoff <$> schemas (db w) !! name
                           else schemas (db w) !! name) as Hmid.
    { intros name. rewrite Hs1. case_bool_decide as Hname.
      - subst name. destruct (schemas (db w) !! schema_name t) as [s|] eqn:E.
        + by rewrite lookup_insert_eq.
        + by rewrite E.
      - destruct (schemas (db w) !! schema_name t); [|done].
        by rewrite lookup_insert_ne. }
    split.
    + intros name. rewrite Hs, Hmid.
      change (map schema_name (t :: ts))
        with (schema_name t :: map schema_name ts).
      rewrite (bool_decide_ext _ _ (elem_of_cons _ name (schema_name t))).
      rewrite bool_decide_or.
      destruct (bool_decide (name = schema_name t)),
        (bool_decide (name ∈ map schema_name ts)); simpl; try done.
      destruct (schemas (db w) !! name) as [s|]; simpl; [|done].
      by rewrite clean_schema_idemp.
    + intros t' [->|Ht']%elem_of_cons Hnone.
      * destruct Hf. auto.
      * apply Hlog; [done|]. rewrite Hmid, Hnone. by case_bool_decide.
Qed.

Lemma old_done_expired cutoff t : old_done cutoff t = true <-> expired cutoff t.
Proof.
  unfold old_done, expired, has_status.
  rewrite andb_true_iff, String.eqb_eq.
  destruct (completed_at t) as [c|].
  - rewrite Z.ltb_lt. split; [intros []; eauto|].
    intros [? (c' & [= <-] & ?)]. done.
  - split; [by intros []|]. by intros [_ (c' & ? & _)].
Qed.

Lemma elem_of_clean_schema cutoff s t :
  t ∈ tasks (clean_schema cutoff s) <-> t ∈ tasks s /\ ~ expired cutoff t.
Proof.
  simpl. rewrite list_elem_of_In, filter_In, <-list_elem_of_In.
  rewrite negb_true_iff, <-not_true_iff_false, old_done_expired. done.
Qed.

Lemma elem_of_active_names d name :
  name ∈ map schema_name (List.filter company_is_active (companies d))
  <-> active_namespace d name.
Proof.
  unfold active_namespace. rewrite list_elem_of_fmap. split.
  - intros (c & -> & Hc). apply list_elem_of_In, filter_In in Hc as [Hc Ha].
    exists c. by rewrite list_elem_of_In.
  - intros (c & Hc & Ha & <-). exists c. split; [done|].
    apply list_elem_of_In, filter_In. by rewrite <-list_elem_of_In.
Qed.

Lemma cutoff_of_valid now days :
  valid_cutoff now days -> cutoff_of now days = Some (now - timedelta_days days).
Proof.
  intros [Hdays [Hmin Hmax]]. unfold cutoff_of, timedelta, datetime_sub.
  rewrite (proj2 (Z.leb_le _ _) Hdays).
  by rewrite (proj2 (Z.leb_le _ _) Hmin), (proj2 (Z.leb_le _ _) Hmax).
Qed.

Lemma cutoff_of_Some now days cutoff_date :
  cutoff_of now days = Some cutoff_date ->
  valid_cutoff now days /\ cutoff_date = now - timedelta_days days.
Proof.
  unfold cutoff_of, timedelta, datetime_sub, valid_cutoff.
  destruct (Z.leb_spec (Z.abs days) timedelta_max_days); [|done].
  destruct (Z.leb_spec datetime_min (now - timedelta_days days)); [|done].
  destruct (Z.leb_spec (now - timedelta_days days) datetime_max); [|done].
  simpl. by intros [= <-].
Qed.

Lemma cutoff_of_invalid now days :
  ~ valid_cutoff now days -> cutoff_of now days = None.
Proof.
  intros Hno. destruct (cutoff_of now days) eqn:E; [|done].
  by apply cutoff_of_Some in E as [? _].
Qed.

(** Without a cut-off date the job stops before it looks at any company:
    it raises, and nothing has been written or logged. *)
Lemma cleanup_old_data_overflow now days w :
  ~ valid_cutoff now days ->
  cleanup_old_data now days w = (Raise OverflowError, w).
Proof.
  intros Hno. unfold cleanup_old_data. by rewrite cutoff_of_invalid.
Qed.

Lemma cleanup_old_data_cases now days w :
  (valid_cutoff now days
   /\ cleanup_old_data now days w
      = cleanup_loop (now - timedelta_days days)
          (List.filter company_is_active (companies (db w))) 0%nat w)
  \/ cleanup_old_data now days w = (Raise OverflowError, w).
Proof.
  unfold cleanup_old_data. destruct (cutoff_of now days) eqn:E; [left|by right].
  by apply cutoff_of_Some in E as [? ->].
Qed.

Lemma cleanup_old_data_spec now days w :
  valid_cutoff now days ->
  exists n w',
    cleanup_old_data now days w = (Return n, w')
    /\ cleanup_frame w w'
    /\ (forall name, active_namespace (db w) name ->
          schemas (db w') !! name
          = clean_schema (now - timedelta_days days) <$> schemas (db w) !! name)
    /\ (forall name, ~ active_namespace (db w) name ->
          schemas (db w') !! name = schemas (db w) !! name)
    /\ (forall name, active_namespace (db w) name ->
                     schemas (db w) !! name = None ->
                     cleanup_error name ∈ log w').
Proof.
  intros Hvalid.
  destruct (cleanup_loop_spec (now - timedelta_days days)
              (List.filter company_is_active (companies (db w))) 0%nat w)
    as (n & w' & Hrun & Hframe & Hs & Hlog).
  exists n, w'. split.
  { unfold cleanup_old_data. by rewrite cutoff_of_valid. }
  split; [done|].
  split; [|split].
  - intros name Hact%elem_of_active_names.
    by rewrite Hs, bool_decide_eq_true_2.
  - intros name Hact. rewrite Hs, bool_decide_eq_false_2; [done|].
    by rewrite elem_of_active_names.
  - intros name (c & Hc & Ha & <-) Hnone. apply Hlog; [|done].
    apply list_elem_of_In, filter_In. by rewrite <-list_elem_of_In.
Qed.


(** C9. A task without a completion time is never deleted by the cleanup,
    whatever its status and age. *)
Theorem cleanup_keeps_uncompleted (now days : Z) (w : World) (name : string)
    (s : Schema) (t : Task) :
  schemas (db w) !! name = Some s ->
  t ∈ tasks s ->
  completed_at t = None ->
  exists s', schemas (db (cleanup_old_data now days w).2) !! name = Some s'
             /\ t ∈ tasks s'.
Proof.
  intros Hs Ht Hnull.
  destruct (cleanup_old_data_cases now days w) as [[_ ->]| ->];
    [|by exists s].
  destruct (cleanup_loop_spec (now - timedelta_days days)
              (List.filter company_is_active (companies (db w))) 0%nat w)
    as (n & w' & Hrun & _ & Hschemas & _).
  rewrite Hrun. simpl.
  rewrite Hschemas, Hs. case_bool_decide; simpl; [|by exists s].
  eexists. split; [done|]. apply elem_of_clean_schema. split; [done|].
  intros [_ (c & Hc & _)]. congruence.
Qed.


Lemma cleanup_keeps_uncompleted_witness :
  exists s', schemas (db (cleanup_old_data cleanup_now 90 cleanup_world).2) !! "acme"
             = Some s'
             /\ uncompleted_task ∈ tasks s'.
Proof.
  apply (cleanup_keeps_uncompleted cleanup_now 90 cleanup_world "acme"
           (tenant_schema [old_task; recent_task; uncompleted_task])).
  - vm_compute. reflexivity.
  - do 2 apply list_elem_of_further. apply list_elem_of_here.
  - reflexivity.
Defined.

(** A number of days that no date can hold: the cut-off would lie after
    the year 9999.  The job raises at once, and the task that was completed
    before every later date is still in the store. *)
Example cleanup_out_of_range :
  ~ valid_cutoff cleanup_now (-3000000)
  /\ cleanup_old_data cleanup_now (-3000000) cleanup_world
     = (Raise OverflowError, cleanup_world)
  /\ cleanup_old_data cleanup_now 1000000000 cleanup_world
     = (Raise OverflowError, cleanup_world).
Proof.
  split; [|split; vm_compute; reflexivity].
  intros [_ [_ Hmax]]. vm_compute in Hmax. by apply Hmax.
Qed.

(** ** Namespace scoping in the background jobs *)

Lemma send_task_reminder_email_restores backend id tenant_schema w :
  connection_schema_name (send_task_reminder_email backend id tenant_schema w).2
  = connection_schema_name w.
Proof.
  unfold send_task_reminder_email, try_except.
  pose proof (schema_context_restores tenant_schema
    (s ← active_schema;
     match Task_objects_get s id with
     | None => raise DoesNotExist
     | Some t =>
         match User_objects_get s (assigned_to t) with
         | Some u =>
             if negb (String.eqb (email u) "") then
               send_mail backend ("Task Reminder: " ++ title t) [email u];;
               logger (log_info "Reminder email sent for task" tenant_schema id);;
               mret (Some (email u))
             else mret None
         | None => mret None
         end
     end) w) as Hctx.
  destruct (schema_context _ _ w) as [[r|e] w']; simpl in *; done.
Qed.

Lemma cleanup_old_data_restores now days w :
  connection_schema_name (cleanup_old_data now days w).2
  = connection_schema_name w.
Proof.
  destruct (cleanup_old_data_cases now days w) as [[Hvalid _]| ->]; [|done].
  destruct (cleanup_old_data_spec now days w Hvalid) as (n & w' & -> & [] & _).
  done.
Qed.

(** * Further properties of the endpoints and jobs *)

(** ** Rows and keys *)

Lemma map_replace_same {A} (key : A -> nat) (l : list A) (x : A) :
  NoDup (map key l) -> x ∈ l ->
  map (fun y => if Nat.eqb (key y) (key x) then x else y) l = l.
Proof.
  intros Hnd Hin. rewrite <-(map_id l) at 2. apply map_ext_in.
  intros y Hy%list_elem_of_In.
  destruct (Nat.eqb (key y) (key x)) eqn:E; [|done].
  apply Nat.eqb_eq in E. by apply (NoDup_key_inj key l).
Qed.

Lemma map_replace_twice {A} (key : A -> nat) (l : list A) (x1 x2 : A) :
  key x1 = key x2 ->
  map (fun y => if Nat.eqb (key y) (key x2) then x2 else y)
    (map (fun y => if Nat.eqb (key y) (key x1) then x1 else y) l)
  = map (fun y => if Nat.eqb (key y) (key x2) then x2 else y) l.
Proof.
  intros Hk. rewrite map_map. apply map_ext. intros y. rewrite Hk.
  destruct (Nat.eqb (key y) (key x2)) eqn:E; [|by rewrite E].
  by rewrite <-Hk, Nat.eqb_refl.
Qed.

Lemma map_key_replace {A} (key : A -> nat) (l : list A) (x : A) (k : nat) :
  key x = k ->
  map key (map (fun y => if Nat.eqb (key y) k then x else y) l) = map key l.
Proof.
  intros Hk. rewrite map_map. apply map_ext. intros y.
  destruct (Nat.eqb (key y) k) eqn:E; [|done].
  apply Nat.eqb_eq in E. congruence.
Qed.

Lemma elem_of_map_replace {A} (key : A -> nat) (l : list A) (x y : A) :
  y ∈ l -> key y <> key x ->
  y ∈ map (fun z => if Nat.eqb (key z) (key x) then x else z) l.
Proof.
  intros Hy Hne. apply list_elem_of_fmap. exists y. split; [|done].
  by apply Nat.eqb_neq in Hne as ->.
Qed.

Lemma with_members_same p : with_members p (members p) = p.
Proof. by destruct p. Qed.

Lemma DB_eq (d d' : DB) :
  companies d = companies d' -> domains d = domains d' ->
  schemas d = schemas d' -> d = d'.
Proof. destruct d, d'. simpl. by intros -> -> ->. Qed.

Lemma next_id_above (ids : list nat) i : i ∈ ids -> (i < next_id ids)%nat.
Proof.
  unfold next_id. induction ids as [|j ids IH]; simpl.
  - by intros ?%elem_of_nil.
  - intros [->|Hin]%elem_of_cons; [lia|]. specialize (IH Hin). lia.
Qed.

Lemma add_remove_singleton (m : gset nat) (a : nat) :
  a ∉ m -> ({[a]} ∪ m) ∖ {[a]} = m.
Proof.
  intros Ha. apply set_eq. intros x.
  rewrite elem_of_difference, elem_of_union, elem_of_singleton.
  split; [tauto|]. intros Hx. split; [tauto|]. by intros ->.
Qed.

(** ** Adding and removing members *)

(** X1. When the owner adds an identity that exists, the answer is 200,
    the project's members are the old ones and the new one, every other
    project, the identities and the tasks are untouched, the keys of the
    projects stay unique, and the new member reaches the project through
    his own query set. *)
Theorem add_member_by_owner (user : User) (target : option nat) (w : World)
    (s : Schema) (p : Project) (u : User) :
  schemas (db w) !! connection_schema_name w = Some s ->
  NoDup (map project_id (projects s)) ->
  p ∈ projects s ->
  is_owner user p = true ->
  User_objects_get s target = Some u ->
  exists w' s',
    ProjectViewSet_add_member user (project_id p) target w
    = (Return (HTTP_200_OK (with_members p ({[user_id u]} ∪ members p))), w')
    /\ schemas (db w') !! connection_schema_name w' = Some s'
    /\ with_members p ({[user_id u]} ∪ members p) ∈ projects s'
    /\ (forall q, q ∈ projects s -> project_id q <> project_id p ->
                  q ∈ projects s')
    /\ users s' = users s /\ tasks s' = tasks s
    /\ NoDup (map project_id (projects s'))
    /\ ProjectViewSet_get_object s' u (project_id p)
       = Some (with_members p ({[user_id u]} ∪ members p)).
Proof.
  intros Hs Hnd Hin Ho Hu.
  set (p' := with_members p ({[user_id u]} ∪ members p)).
  unfold ProjectViewSet_add_member. unfold_M. rewrite Hs.
  rewrite get_object_accessible by (done || by rewrite Ho).
  rewrite Ho, Hu. simpl. fold p'.
  eexists _, (replace_project p' s). split; [reflexivity|]. simpl.
  split; [apply lookup_insert_eq|].
  assert (NoDup (map project_id (projects (replace_project p' s)))) as Hnd'.
  { simpl. by rewrite (map_key_replace project_id _ p'). }
  assert (p' ∈ projects (replace_project p' s)) as Hin'.
  { simpl. apply list_elem_of_fmap. exists p. by rewrite Nat.eqb_refl. }
  split; [exact Hin'|]. split.
  { intros q Hq Hne. by apply (elem_of_map_replace project_id _ p'). }
  do 2 (split; [done|]). split; [exact Hnd'|].
  apply (get_object_accessible (replace_project p' s) u p' Hnd' Hin').
  unfold is_member. simpl. rewrite bool_decide_eq_true_2; [apply orb_true_r|].
  apply elem_of_union. left. by apply elem_of_singleton.
Qed.

Lemma add_member_by_owner_witness :
  exists w' s',
    ProjectViewSet_add_member alice 1 (Some 3%nat) (tenant_world [])
    = (Return (HTTP_200_OK (with_members launch ({[3%nat]} ∪ members launch))), w')
    /\ schemas (db w') !! connection_schema_name w' = Some s'
    /\ ProjectViewSet_get_object s' carol 1
       = Some (with_members launch ({[3%nat]} ∪ members launch)).
Proof.
  destruct (add_member_by_owner alice (Some 3%nat) (tenant_world [])
              (tenant_schema []) launch carol) as (w' & s' & H1 & H2 & _ & _ & _ & _ & _ & H3).
  - vm_compute. reflexivity.
  - apply NoDup_singleton.
  - apply list_elem_of_here.
  - reflexivity.
  - reflexivity.
  - exists w', s'. by repeat split.
Defined.

(** X2. Adding an identity that was not a member and removing it again
    puts the store back exactly as it was. *)
Theorem add_then_remove_member (user : User) (target : option nat) (w : World)
    (s : Schema) (p : Project) (u : User) :
  schemas (db w) !! connection_schema_name w = Some s ->
  NoDup (map project_id (projects s)) ->
  p ∈ projects s ->
  is_owner user p = true ->
  User_objects_get s target = Some u ->
  user_id u ∉ members p ->
  exists body w1 w2,
    ProjectViewSet_add_member user (project_id p) target w
    = (Return (HTTP_200_OK body), w1)
    /\ ProjectViewSet_remove_member user (project_id p) target w1
       = (Return (HTTP_200_OK p), w2)
    /\ db w2 = db w
    /\ connection_schema_name w2 = connection_schema_name w.
Proof.
  intros Hs Hnd Hin Ho Hu Hnot.
  set (p' := with_members p ({[user_id u]} ∪ members p)).
  assert (with_members p' (members p' ∖ {[user_id u]}) = p) as Hback.
  { unfold p', with_members. simpl. rewrite add_remove_singleton by done.
    by destruct p. }
  unfold ProjectViewSet_add_member. unfold_M. rewrite Hs.
  rewrite get_object_accessible by (done || by rewrite Ho).
  rewrite Ho, Hu. simpl. fold p'. eexists _, _, _. split; [reflexivity|].
  unfold ProjectViewSet_remove_member. unfold_M.
  cbn [db schemas connection_schema_name]. rewrite lookup_insert_eq.
  assert (NoDup (map project_id (projects (replace_project p' s)))) as Hnd'.
  { simpl. by rewrite (map_key_replace project_id _ p'). }
  assert (p' ∈ projects (replace_project p' s)) as Hin'.
  { simpl. apply list_elem_of_fmap. exists p. by rewrite Nat.eqb_refl. }
  change (project_id p) with (project_id p').
  rewrite (get_object_accessible (replace_project p' s) user p' Hnd' Hin')
    by (by change (is_owner user p') with (is_owner user p); rewrite Ho).
  change (is_owner user p') with (is_owner user p). rewrite Ho.
  change (User_objects_get (replace_project p' s) target)
    with (User_objects_get s target). rewrite Hu.
  cbn [negb]. cbv beta iota. rewrite Hback.
  split; [reflexivity|]. cbn [db schemas connection_schema_name snd].
  split; [|done]. apply DB_eq; [done|done|]. cbn [schemas].
  rewrite insert_insert_eq. apply insert_id. rewrite Hs. f_equal.
  unfold replace_project. cbn [projects users profiles tasks].
  rewrite (map_replace_twice project_id (projects s) p' p eq_refl).
  rewrite (map_replace_same project_id (projects s) p Hnd Hin).
  by destruct s.
Qed.

Lemma add_then_remove_member_witness :
  exists body w1 w2,
    ProjectViewSet_add_member alice 1 (Some 3%nat) (tenant_world [])
    = (Return (HTTP_200_OK body), w1)
    /\ ProjectViewSet_remove_member alice 1 (Some 3%nat) w1
       = (Return (HTTP_200_OK launch), w2)
    /\ db w2 = db (tenant_world [])
    /\ connection_schema_name w2 = connection_schema_name (tenant_world []).
Proof.
  apply (add_then_remove_member alice (Some 3%nat) (tenant_world [])
           (tenant_schema []) launch carol).
  - vm_compute. reflexivity.
  - apply NoDup_singleton.
  - apply list_elem_of_here.
  - reflexivity.
  - reflexivity.
  - change (3%nat ∉ ({[2%nat]} : gset nat)).
    intros H%elem_of_singleton. discriminate.
Defined.

Lemma elem_of_List_filter {A} (f : A -> bool) (l : list A) x :
  x ∈ List.filter f l <-> x ∈ l /\ f x = true.
Proof. by rewrite list_elem_of_In, filter_In, <-list_elem_of_In. Qed.

(** X3. When the owner removes an identity other than himself, the answer
    is 200, the identity is no longer a member while all other members stay,
    the project leaves the identity's query set, and a task that the
    identity then tries to create in the project is refused. *)
Theorem remove_member_revokes_access (user : User) (target : option nat)
    (w : World) (s : Schema) (p : Project) (u : User) :
  schemas (db w) !! connection_schema_name w = Some s ->
  NoDup (map project_id (projects s)) ->
  p ∈ projects s ->
  is_owner user p = true ->
  User_objects_get s target = Some u ->
  is_owner u p = false ->
  exists w' s' p',
    ProjectViewSet_remove_member user (project_id p) target w
    = (Return (HTTP_200_OK p'), w')
    /\ schemas (db w') !! connection_schema_name w' = Some s'
    /\ (user_id u ∉ members p')
    /\ (forall v, v <> user_id u -> v ∈ members p' <-> v ∈ members p)
    /\ ProjectViewSet_get_object s' user (project_id p) = Some p'
    /\ ProjectViewSet_get_object s' u (project_id p) = None
    /\ (forall now data,
          payload_project data = project_id p ->
          exists errors,
            TaskViewSet_create now u data w'
            = (Return (HTTP_400_BAD_REQUEST errors), w')
            /\ ("project", permission_message) ∈ errors).
Proof.
  intros Hs Hnd Hin Ho Hu Hou.
  set (p' := with_members p (members p ∖ {[user_id u]})).
  unfold ProjectViewSet_remove_member. unfold_M. rewrite Hs.
  rewrite get_object_accessible by (done || by rewrite Ho).
  rewrite Ho, Hu. simpl. fold p'.
  assert (NoDup (map project_id (projects (replace_project p' s)))) as Hnd'.
  { simpl. by rewrite (map_key_replace project_id _ p'). }
  assert (p' ∈ projects (replace_project p' s)) as Hin'.
  { simpl. apply list_elem_of_fmap. exists p. by rewrite Nat.eqb_refl. }
  assert (is_member u p' = false) as Hm.
  { unfold is_member. apply bool_decide_eq_false_2. simpl.
    rewrite elem_of_difference, elem_of_singleton. tauto. }
  eexists _, (replace_project p' s), p'. split; [reflexivity|].
  cbn [db schemas connection_schema_name].
  split; [apply lookup_insert_eq|].
  split. { simpl. rewrite elem_of_difference, elem_of_singleton. tauto. }
  split. { intros v Hv. simpl. rewrite elem_of_difference, elem_of_singleton. tauto. }
  split. { by apply (get_object_accessible (replace_project p' s) user p');
             [..|change (is_owner user p') with (is_owner user p); rewrite Ho]. }
  split. { by apply (get_object_inaccessible (replace_project p' s) u p'). }
  intros now data Hpk.
  unfold TaskViewSet_create, TaskSerializer_is_valid, project_field. unfold_M.
  cbn [db schemas connection_schema_name]. rewrite lookup_insert_eq.
  rewrite Hpk, (find_replace_project s p p' Hin eq_refl).
  unfold validate_project.
  change (is_owner u p') with (is_owner u p). rewrite Hou, Hm.
  eexists. split; [reflexivity|]. simpl. apply list_elem_of_here.
Qed.

Lemma remove_member_revokes_access_witness :
  exists w' s' p',
    ProjectViewSet_remove_member alice 1 (Some 2%nat) (tenant_world [])
    = (Return (HTTP_200_OK p'), w')
    /\ schemas (db w') !! connection_schema_name w' = Some s'
    /\ ProjectViewSet_get_object s' bob 1 = None
    /\ exists errors,
         TaskViewSet_create 5000 bob carol_payload w'
         = (Return (HTTP_400_BAD_REQUEST errors), w')
         /\ ("project", permission_message) ∈ errors.
Proof.
  destruct (remove_member_revokes_access alice (Some 2%nat) (tenant_world [])
              (tenant_schema []) launch bob)
    as (w' & s' & p' & H1 & H2 & _ & _ & _ & H3 & H4).
  - vm_compute. reflexivity.
  - apply NoDup_singleton.
  - apply list_elem_of_here.
  - reflexivity.
  - reflexivity.
  - reflexivity.
  - exists w', s', p'. repeat split; try done. by apply H4.
Defined.

(** ** Deleting a project *)

(** X4. Deleting a project is for its owner alone: the owner is answered
    204, the project and exactly its tasks are gone and everything else
    stays; a member who is not the owner is answered 403 and an identity
    outside the project 404, and then nothing is written. *)
Theorem project_destroy_owner_only (user : User) (w : World) (s : Schema)
    (p : Project) :
  schemas (db w) !! connection_schema_name w = Some s ->
  NoDup (map project_id (projects s)) ->
  p ∈ projects s ->
  (is_owner user p = true ->
   exists w' s',
     ProjectViewSet_destroy user (project_id p) w = (Return HTTP_204_NO_CONTENT, w')
     /\ schemas (db w') !! connection_schema_name w' = Some s'
     /\ (forall q, q ∈ projects s' <-> q ∈ projects s /\ q <> p)
     /\ (forall t, t ∈ tasks s' <-> t ∈ tasks s /\ project t <> project_id p)
     /\ users s' = users s /\ profiles s' = profiles s)
  /\ (is_owner user p = false -> is_member user p = true ->
      ProjectViewSet_destroy user (project_id p) w
      = (Return destroy_403_FORBIDDEN, w))
  /\ (is_owner user p = false -> is_member user p = false ->
      ProjectViewSet_destroy user (project_id p) w
      = (Return destroy_404_NOT_FOUND, w)).
Proof.
  intros Hs Hnd Hin. unfold ProjectViewSet_destroy. unfold_M. rewrite Hs.
  split; [|split].
  - intros Ho. rewrite get_object_accessible by (done || by rewrite Ho).
    simpl. unfold IsProjectOwnerOrMember. simpl. rewrite Ho.
    eexists _, (delete_project p s). split; [reflexivity|].
    cbn [db schemas connection_schema_name].
    split; [apply lookup_insert_eq|]. split; [|split; [|done]].
    + intros q. simpl. rewrite elem_of_List_filter, negb_true_iff, Nat.eqb_neq.
      split; intros [Hq Hne]; (split; [done|]).
      * by intros ->.
      * intros Hid. apply Hne.
        by apply (NoDup_key_inj project_id (projects s)).
    + intros t. simpl.
      by rewrite elem_of_List_filter, negb_true_iff, Nat.eqb_neq.
  - intros Ho Hm.
    rewrite get_object_accessible by (done || by rewrite Hm, orb_true_r).
    simpl. unfold IsProjectOwnerOrMember. simpl. by rewrite Ho.
  - intros Ho Hm. by rewrite get_object_inaccessible.
Qed.

Lemma project_destroy_owner_only_witness :
  (exists w' s',
     ProjectViewSet_destroy alice 1 (tenant_world two_tasks)
     = (Return HTTP_204_NO_CONTENT, w')
     /\ schemas (db w') !! connection_schema_name w' = Some s'
     /\ projects s' = [] /\ tasks s' = [])
  /\ ProjectViewSet_destroy bob 1 (tenant_world two_tasks)
     = (Return destroy_403_FORBIDDEN, tenant_world two_tasks)
  /\ ProjectViewSet_destroy carol 1 (tenant_world two_tasks)
     = (Return destroy_404_NOT_FOUND, tenant_world two_tasks).
Proof.
  assert (schemas (db (tenant_world two_tasks))
            !! connection_schema_name (tenant_world two_tasks)
          = Some (tenant_schema two_tasks)) as Hs by (vm_compute; reflexivity).
  assert (NoDup (map project_id (projects (tenant_schema two_tasks)))) as Hnd
    by apply NoDup_singleton.
  assert (launch ∈ projects (tenant_schema two_tasks)) as Hin
    by apply list_elem_of_here.
  destruct (project_destroy_owner_only alice _ _ launch Hs Hnd Hin)
    as (Hown & _ & _).
  destruct (project_destroy_owner_only bob _ _ launch Hs Hnd Hin)
    as (_ & Hmem & _).
  destruct (project_destroy_owner_only carol _ _ launch Hs Hnd Hin)
    as (_ & _ & Hout).
  split; [|split; [by apply Hmem|by apply Hout]].
  destruct (Hown eq_refl) as (w' & s' & Hrun & Hs' & _).
  exists w', s'. split; [exact Hrun|]. split; [exact Hs'|].
  vm_compute in Hrun. injection Hrun as <-. vm_compute in Hs'.
  injection Hs' as <-. by split.
Defined.

(** ** The task list *)

Lemma elem_of_tasks_in s ps t :
  t ∈ tasks_in s ps
  <-> t ∈ tasks s /\ exists p, p ∈ ps /\ project_id p = project t.
Proof.
  unfold tasks_in. rewrite elem_of_order_by_desc, elem_of_List_filter.
  rewrite existsb_exists. split; intros [Ht (p & Hp & Hid)]; (split; [done|]);
    exists p.
  - by rewrite list_elem_of_In, <-Nat.eqb_eq.
  - by rewrite <-list_elem_of_In, Nat.eqb_eq.
Qed.

Lemma elem_of_accessible_tasks s user t :
  t ∈ tasks_in s (accessible_projects s user)
  <-> t ∈ tasks s /\ in_accessible_project s user t.
Proof.
  rewrite elem_of_tasks_in. unfold in_accessible_project.
  split; intros [Ht (p & Hp & Hid)]; (split; [done|]); exists p.
  - apply elem_of_accessible_projects in Hp as [Hp Hacc]. done.
  - destruct Hid as [Hid Hacc]. split; [|done].
    by apply elem_of_accessible_projects.
Qed.

Lemma elem_of_task_queryset (s : Schema) (user : User) (q : TaskQuery)
    (t : Task) :
  t ∈ TaskViewSet_get_queryset s user q
  <-> t ∈ tasks s /\ in_accessible_project s user t /\ matches_query user q t.
Proof.
  unfold TaskViewSet_get_queryset, matches_query.
  destruct q as [qp qs qa]. simpl.
  assert (forall l : list Task,
            t ∈ match qp with
                | Some id => List.filter (fun t => Nat.eqb (project t) id) l
                | None => l
                end
            <-> t ∈ l /\ forall i, qp = Some i -> project t = i) as Hp.
  { intros l. destruct qp as [i|].
    - rewrite elem_of_List_filter, Nat.eqb_eq. split.
      + intros [? ?]. split; [done|]. by intros ? [= <-].
      + intros [? H]. split; [done|]. by apply H.
    - split; [by intros ?; split|by intros []]. }
  assert (forall l : list Task,
            t ∈ match qs with
                | Some st => if String.eqb st "" then l
                             else List.filter (has_status st) l
                | None => l
                end
            <-> t ∈ l /\ forall st, qs = Some st -> st <> "" -> status t = st)
    as Hst.
  { intros l. destruct qs as [st|].
    - destruct (String.eqb st "") eqn:E.
      + apply String.eqb_eq in E as ->. split; [|by intros []].
        intros ?. split; [done|]. by intros ? [= <-] ?.
      + apply String.eqb_neq in E. unfold has_status.
        rewrite elem_of_List_filter, String.eqb_eq. split.
        * intros [? ?]. split; [done|]. by intros ? [= <-] _.
        * intros [? H]. split; [done|]. by apply H.
    - split; [by intros ?; split|by intros []]. }
  assert (forall l : list Task,
            t ∈ match qa with
                | Some assignee_me => List.filter (assigned_to_user user) l
                | Some (assignee_id i) =>
                    List.filter (fun t => bool_decide (assigned_to t = Some i)) l
                | None => l
                end
            <-> t ∈ l
                /\ (qa = Some assignee_me -> assigned_to t = Some (user_id user))
                /\ (forall i, qa = Some (assignee_id i) -> assigned_to t = Some i))
    as Ha.
  { intros l. destruct qa as [[|i]|].
    - rewrite elem_of_List_filter. unfold assigned_to_user.
      destruct (assigned_to t) as [a|].
      + rewrite Nat.eqb_eq. split.
        * intros [? ->]. by repeat split.
        * intros (? & H & _). split; [done|]. specialize (H eq_refl). congruence.
      + split; [by intros []|]. intros (_ & H & _). by specialize (H eq_refl).
    - rewrite elem_of_List_filter, bool_decide_eq_true. split.
      + intros [? ?]. repeat split; [done..|]. by intros ? [= <-].
      + intros (? & _ & H). split; [done|]. by apply H.
    - split; [by intros ?; repeat split|by intros []]. }
  rewrite Ha, Hst, Hp, elem_of_accessible_tasks. tauto.
Qed.

(** X5. The task list holds exactly the tasks of the namespace that belong
    to a project the caller owns or is a member of and that pass the
    parameters given: the project key, a status that is not empty, and
    [assigned_to], where [me] stands for the caller. *)
Theorem task_list_exactly_accessible (s : Schema) (user : User) (q : TaskQuery)
    (t : Task) :
  t ∈ TaskViewSet_get_queryset s user q
  <-> t ∈ tasks s /\ in_accessible_project s user t /\ matches_query user q t.
Proof. apply elem_of_task_queryset. Qed.

(** X6. [my_tasks] lists the tasks of the caller's list that are assigned to
    the caller, so under a parameter [assigned_to] that names another
    identity it lists nothing. *)
Theorem my_tasks_of_the_caller (user : User) (q : TaskQuery) (w : World)
    (s : Schema) :
  schemas (db w) !! connection_schema_name w = Some s ->
  exists body,
    TaskViewSet_my_tasks user q w = (Return (HTTP_200_OK body), w)
    /\ (forall t, t ∈ body
                  <-> t ∈ TaskViewSet_get_queryset s user q
                      /\ assigned_to t = Some (user_id user))
    /\ (forall i, query_assigned_to q = Some (assignee_id i) ->
                  i <> user_id user -> body = []).
Proof.
  intros Hs. unfold TaskViewSet_my_tasks. unfold_M. rewrite Hs.
  eexists. split; [reflexivity|].
  assert (forall t, assigned_to_user user t = true
                    <-> assigned_to t = Some (user_id user)) as Hme.
  { intros t. unfold assigned_to_user. destruct (assigned_to t) as [a|].
    - rewrite Nat.eqb_eq. split; congruence.
    - split; discriminate. }
  split.
  - intros t. by rewrite elem_of_List_filter, Hme.
  - intros i Hq Hne.
    destruct (List.filter _ _) as [|t l] eqn:E; [done|].
    assert (t ∈ List.filter (assigned_to_user user)
                  (TaskViewSet_get_queryset s user q)) as Ht
      by (rewrite E; apply list_elem_of_here).
    apply elem_of_List_filter in Ht as [Ht Hmine%Hme].
    apply elem_of_task_queryset in Ht as (_ & _ & _ & _ & _ & Hother).
    specialize (Hother i Hq). congruence.
Qed.

Lemma my_tasks_of_the_caller_witness :
  TaskViewSet_my_tasks alice
    {| query_project := None; query_status := Some "";
       query_assigned_to := Some (assignee_id 2) |} (tenant_world two_tasks)
  = (Return (HTTP_200_OK []), tenant_world two_tasks).
Proof.
  destruct (my_tasks_of_the_caller alice
              {| query_project := None; query_status := Some "";
                 query_assigned_to := Some (assignee_id 2) |}
              (tenant_world two_tasks) (tenant_schema two_tasks))
    as (body & Hrun & _ & Hother).
  - vm_compute. reflexivity.
  - rewrite Hrun. by rewrite (Hother 2%nat eq_refl).
Defined.

(** ** Changing and deleting a task *)

Lemma task_queryset_member s user q t :
  NoDup (map project_id (projects s)) ->
  t ∈ TaskViewSet_get_queryset s user q ->
  IsTaskProjectMember s user t = Some true.
Proof.
  intros Hnd (_ & (p & Hp & Hid & Hacc) & _)%elem_of_task_queryset.
  unfold IsTaskProjectMember. rewrite <-Hid, find_project_unique by done.
  by rewrite Hacc.
Qed.

(** X7. The object permission of the task view set never refuses a task
    that [get_object] has found: deleting a task is answered 404, with
    nothing written, when the task is not in the caller's list, and 204
    otherwise, with exactly the rows of that key removed; it is never
    answered 403 and never raises. *)
Theorem task_destroy_never_forbidden (user : User) (q : TaskQuery) (pk : nat)
    (w : World) (s : Schema) :
  schemas (db w) !! connection_schema_name w = Some s ->
  NoDup (map project_id (projects s)) ->
  (TaskViewSet_get_object s user q pk = None
   /\ TaskViewSet_destroy user q pk w = (Return destroy_404_NOT_FOUND, w))
  \/ (exists t w' s',
        TaskViewSet_get_object s user q pk = Some t
        /\ TaskViewSet_destroy user q pk w = (Return HTTP_204_NO_CONTENT, w')
        /\ schemas (db w') !! connection_schema_name w' = Some s'
        /\ (forall x, x ∈ tasks s' <-> x ∈ tasks s /\ task_id x <> pk)
        /\ projects s' = projects s).
Proof.
  intros Hs Hnd. unfold TaskViewSet_destroy. unfold_M. rewrite Hs.
  destruct (TaskViewSet_get_object s user q pk) as [t|] eqn:Ht; [right|by left].
  apply find_elem_of in Ht as [Hin Hid%Nat.eqb_eq].
  simpl. rewrite (task_queryset_member s user q t Hnd Hin).
  eexists t, _, (delete_task t s). split; [done|]. split; [reflexivity|].
  cbn [db schemas connection_schema_name].
  split; [apply lookup_insert_eq|]. split; [|done].
  intros x. simpl. by rewrite elem_of_List_filter, negb_true_iff, Nat.eqb_neq, Hid.
Qed.

Lemma task_destroy_never_forbidden_witness :
  (TaskViewSet_get_object (tenant_schema two_tasks) carol no_query 1 = None
   /\ TaskViewSet_destroy carol no_query 1 (tenant_world two_tasks)
      = (Return destroy_404_NOT_FOUND, tenant_world two_tasks))
  /\ exists w' s',
       TaskViewSet_destroy bob no_query 1 (tenant_world two_tasks)
       = (Return HTTP_204_NO_CONTENT, w')
       /\ schemas (db w') !! connection_schema_name w' = Some s'
       /\ map task_id (tasks s') = [2%nat].
Proof.
  assert (schemas (db (tenant_world two_tasks))
            !! connection_schema_name (tenant_world two_tasks)
          = Some (tenant_schema two_tasks)) as Hs by (vm_compute; reflexivity).
  assert (NoDup (map project_id (projects (tenant_schema two_tasks)))) as Hnd
    by apply NoDup_singleton.
  split.
  - destruct (task_destroy_never_forbidden carol no_query 1 _ _ Hs Hnd)
      as [H|(t & w' & s' & Ht & _)]; [exact H|].
    vm_compute in Ht. discriminate.
  - destruct (task_destroy_never_forbidden bob no_query 1 _ _ Hs Hnd)
      as [[Ht _]|(t & w' & s' & _ & Hrun & Hs' & _)].
    + vm_compute in Ht. discriminate.
    + exists w', s'. split; [exact Hrun|]. split; [exact Hs'|].
      vm_compute in Hrun. injection Hrun as <-. vm_compute in Hs'.
      by injection Hs' as <-.
Defined.

(** X8. [mark_complete] on a task of the caller's list answers 200 with the
    task in status "done" and completed at the time of the call, stores that
    row in place of the old one and leaves every other task as it was; on a
    task outside the caller's list it answers 404 and writes nothing. *)
Theorem mark_complete_sets_done (now : timestamp) (user : User) (q : TaskQuery)
    (pk : nat) (w : World) (s : Schema) :
  schemas (db w) !! connection_schema_name w = Some s ->
  NoDup (map task_id (tasks s)) ->
  (TaskViewSet_get_object s user q pk = None
   /\ TaskViewSet_mark_complete now user q pk w
      = (Return (HTTP_404_NOT_FOUND not_found_detail), w))
  \/ (exists t t' w' s',
        TaskViewSet_get_object s user q pk = Some t
        /\ TaskViewSet_mark_complete now user q pk w = (Return (HTTP_200_OK t'), w')
        /\ status t' = "done" /\ completed_at t' = Some now
        /\ task_id t' = pk /\ project t' = project t
        /\ assigned_to t' = assigned_to t /\ created_at t' = created_at t
        /\ schemas (db w') !! connection_schema_name w' = Some s'
        /\ t' ∈ tasks s'
        /\ (forall x, x <> t -> x ∈ tasks s -> x ∈ tasks s')
        /\ map task_id (tasks s') = map task_id (tasks s)
        /\ projects s' = projects s).
Proof.
  intros Hs Hnd. unfold TaskViewSet_mark_complete. unfold_M. rewrite Hs.
  destruct (TaskViewSet_get_object s user q pk) as [t|] eqn:Ht; [right|by left].
  apply find_elem_of in Ht as [Hin Hid%Nat.eqb_eq].
  apply elem_of_task_queryset in Hin as (Hin & _).
  eexists t, (completed t now), _, (replace_task (completed t now) s).
  split; [done|]. split; [reflexivity|]. do 6 (split; [done|]).
  cbn [db schemas connection_schema_name].
  split; [apply lookup_insert_eq|]. simpl. split; [|split; [|split; [|done]]].
  - apply list_elem_of_fmap. exists t. by rewrite Nat.eqb_refl.
  - intros x Hne Hx.
    apply (elem_of_map_replace task_id (tasks s) (completed t now) x Hx).
    simpl. intros Hk. apply Hne.
    by apply (NoDup_key_inj task_id (tasks s)).
  - by apply (map_key_replace task_id (tasks s) (completed t now)).
Qed.

Lemma mark_complete_sets_done_witness :
  exists t' w' s',
    TaskViewSet_mark_complete 9000 bob no_query 1 (tenant_world two_tasks)
    = (Return (HTTP_200_OK t'), w')
    /\ status t' = "done" /\ completed_at t' = Some 9000
    /\ schemas (db w') !! connection_schema_name w' = Some s'
    /\ t' ∈ tasks s'.
Proof.
  destruct (mark_complete_sets_done 9000 bob no_query 1 (tenant_world two_tasks)
              (tenant_schema two_tasks))
    as [[Ht _]|(t & t' & w' & s' & _ & Hrun & Hst & Hc & _ & _ & _ & _ & Hs' & Hin & _)].
  - vm_compute. reflexivity.
  - apply NoDup_cons. split; [|apply NoDup_singleton].
    intros H%list_elem_of_singleton. discriminate.
  - vm_compute in Ht. discriminate.
  - by exists t', w', s'.
Defined.

(** ** The mail jobs *)

(** X9. [send_task_reminder_email] never writes to the store and always
    puts the connection back.  It returns a recipient exactly when the task
    exists, its assignee has an e-mail address and the backend delivers, and
    then one message to that address has been sent and the sending logged;
    it returns nothing, sends nothing and logs nothing when the task has no
    assignee or the assignee has no address; it raises, after logging the
    error and sending nothing, when the namespace cannot be queried, when
    the task does not exist, or when the backend refuses the message. *)
Theorem reminder_email_outcomes (backend : Backend) (id : nat) (name : string)
    (w : World) :
  match send_task_reminder_email backend id name w with
  | (r, w') =>
      db w' = db w
      /\ connection_schema_name w' = connection_schema_name w
      /\ match r with
         | Return (Some e) =>
             exists s t u,
               schemas (db w) !! name = Some s
               /\ Task_objects_get s id = Some t
               /\ User_objects_get s (assigned_to t) = Some u
               /\ email u = e /\ e <> ""
               /\ backend (reminder_mail t e) = true
               /\ outbox w' = (outbox w ++ [reminder_mail t e])%list
               /\ log w'
                  = (log w ++ [log_info "Reminder email sent for task" name id])%list
         | Return None =>
             outbox w' = outbox w /\ log w' = log w
             /\ exists s t,
                  schemas (db w) !! name = Some s
                  /\ Task_objects_get s id = Some t
                  /\ (User_objects_get s (assigned_to t) = None
                      \/ exists u, User_objects_get s (assigned_to t) = Some u
                                   /\ email u = "")
         | Raise e =>
             outbox w' = outbox w
             /\ log w'
                = (log w ++ [log_error "Error sending reminder for task" name e])%list
             /\ ((schemas (db w) !! name = None /\ e = ProgrammingError)
                 \/ (exists s, schemas (db w) !! name = Some s
                               /\ Task_objects_get s id = None
                               /\ e = DoesNotExist)
                 \/ (exists s t u,
                       schemas (db w) !! name = Some s
                       /\ Task_objects_get s id = Some t
                       /\ User_objects_get s (assigned_to t) = Some u
                       /\ email u <> ""
                       /\ backend (reminder_mail t (email u)) = false
                       /\ e = SMTPException))
         end
  end.
Proof.
  unfold send_task_reminder_email, try_except, schema_context. unfold_M. simpl.
  destruct (schemas (db w) !! name) as [s|] eqn:Hs; simpl; [|by auto 10].
  destruct (Task_objects_get s id) as [t|] eqn:Ht; simpl; [|by eauto 10].
  destruct (User_objects_get s (assigned_to t)) as [u|] eqn:Hu; simpl;
    [|by eauto 10].
  destruct (String.eqb (email u) "") eqn:He; simpl.
  - apply String.eqb_eq in He. eauto 12.
  - apply String.eqb_neq in He.
    change {| mail_subject := "Task Reminder: " ++ title t; mail_to := [email u] |}
      with (reminder_mail t (email u)).
    destruct (backend (reminder_mail t (email u))) eqn:Hb; simpl.
    + do 2 (split; [done|]). exists s, t, u. by repeat split.
    + do 4 (split; [done|]). right. right. exists s, t, u. by repeat split.
Qed.

(** The backend decides: the same reminder is delivered by one and raises
    with the other, and the refusal is logged. *)
Example reminder_email_refused :
  send_task_reminder_email delivers 1 "acme" overdue_world
  = (Return (Some "bob@acme.example.com"),
     {| db := db overdue_world; connection_schema_name := "acme";
        log := [log_info "Reminder email sent for task" "acme" 1];
        outbox := [{| mail_subject := "Task Reminder: Late";
                      mail_to := ["bob@acme.example.com"] |}] |})
  /\ send_task_reminder_email refuses 1 "acme" overdue_world
     = (Raise SMTPException,
        {| db := db overdue_world; connection_schema_name := "acme";
           log := [log_error "Error sending reminder for task" "acme" SMTPException];
           outbox := [] |}).
Proof. split; vm_compute; reflexivity. Qed.

(** X10. [send_welcome_email] never writes to the store and always puts
    the connection back.  The identity is looked up in the user table that
    the namespace shows, which is the one of [public] when the namespace
    does not exist.  The job sends one message exactly when the identity is
    there, has an e-mail address and the backend delivers; it sends nothing
    for an identity without address; it raises, after logging, when no user
    table can be reached, when the identity is not in it, or when the
    backend refuses the message. *)
Theorem welcome_email_outcomes (backend : Backend) (id : nat) (name : string)
    (w : World) :
  match send_welcome_email backend id name w with
  | (r, w') =>
      db w' = db w
      /\ connection_schema_name w' = connection_schema_name w
      /\ match r with
         | Return (Some e) =>
             exists table u,
               users_seen_from (db w) name table
               /\ find (fun u => Nat.eqb (user_id u) id) table = Some u
               /\ email u = e /\ e <> ""
               /\ backend (welcome_mail e) = true
               /\ outbox w' = (outbox w ++ [welcome_mail e])%list
               /\ log w'
                  = (log w ++ [log_info "Welcome email sent to user" name id])%list
         | Return None =>
             outbox w' = outbox w /\ log w' = log w
             /\ exists table u,
                  users_seen_from (db w) name table
                  /\ find (fun u => Nat.eqb (user_id u) id) table = Some u
                  /\ email u = ""
         | Raise e =>
             outbox w' = outbox w
             /\ log w'
                = (log w ++ [log_error "Error sending welcome email to user" name e])%list
             /\ ((schemas (db w) !! name = None /\ schemas (db w) !! public = None
                  /\ e = ProgrammingError)
                 \/ (exists table,
                       users_seen_from (db w) name table
                       /\ find (fun u => Nat.eqb (user_id u) id) table = None
                       /\ e = DoesNotExist)
                 \/ (exists table u,
                       users_seen_from (db w) name table
                       /\ find (fun u => Nat.eqb (user_id u) id) table = Some u
                       /\ email u <> ""
                       /\ backend (welcome_mail (email u)) = false
                       /\ e = SMTPException))
         end
  end.
Proof.
  unfold send_welcome_email, try_except, schema_context, auth_user.
  unfold_M. simpl.
  assert (forall table,
            (schemas (db w) !! name = Some table
             \/ (schemas (db w) !! name = None
                 /\ schemas (db w) !! public = Some table)) ->
            users_seen_from (db w) name (users table)) as Hseen.
  { intros table [H|[H1 H2]]; [left|right]; eauto. }
  destruct (schemas (db w) !! name) as [s|] eqn:Hs; simpl;
    [specialize (Hseen s (or_introl eq_refl))
    |destruct (schemas (db w) !! public) as [s|] eqn:Hp; simpl;
       [specialize (Hseen s (or_intror (conj eq_refl eq_refl)))|by auto 10]].
  all: destruct (find _ (users s)) as [u|] eqn:Hu; simpl; [|by eauto 10].
  all: destruct (String.eqb (email u) "") eqn:He; simpl;
    [apply String.eqb_eq in He; by eauto 12|apply String.eqb_neq in He].
  all: change {| mail_subject := "Welcome to Our SaaS Platform!";
                 mail_to := [email u] |} with (welcome_mail (email u)).
  all: destruct (backend (welcome_mail (email u))) eqn:Hb; simpl.
  all: try (do 2 (split; [done|]); exists (users s), u; by repeat split).
  all: do 4 (split; [done|]); right; right; exists (users s), u; by repeat split.
Qed.

(** A welcome message for a namespace that does not exist goes to the
    identity of that key in [public]. *)
Example welcome_email_missing_namespace :
  schemas (db staff_world) !! "ghost" = None
  /\ send_welcome_email delivers 1 "ghost" staff_world
     = (Return (Some "alice@acme.example.com"),
        {| db := db staff_world; connection_schema_name := public;
           log := [log_info "Welcome email sent to user" "ghost" 1];
           outbox := [welcome_mail "alice@acme.example.com"] |}).
Proof. split; vm_compute; reflexivity. Qed.

(** ** The project report *)

Lemma count_le_of_imp {A} (f g : A -> bool) (l : list A) :
  (forall x, f x = true -> g x = true) -> (count f l <= count g l)%nat.
Proof.
  intros Himp. induction l as [|x l IH]; [done|].
  rewrite !count_cons. specialize (Himp x).
  destruct (f x); [rewrite Himp by done|destruct (g x)]; lia.
Qed.

Lemma count_disjoint {A} (f g : A -> bool) (l : list A) :
  (forall x, f x = true -> g x = false) ->
  (count f l + count g l <= length l)%nat.
Proof.
  intros Hdis. induction l as [|x l IH]; [done|].
  rewrite !count_cons. simpl. specialize (Hdis x).
  destruct (f x); [rewrite Hdis by done|destruct (g x)]; lia.
Qed.

Lemma done_not_pending t : has_status "done" t = true -> is_pending t = false.
Proof.
  intros H%String.eqb_eq. unfold is_pending. simpl. unfold has_status.
  by rewrite H.
Qed.

(** X11. [generate_project_report] never writes to the store and always
    puts the connection back.  A report that is returned is about the
    project of that key: its overdue count is at most its pending count, and
    completed and pending tasks together are at most the total (tasks in
    review are in neither).  The job raises, after logging the error, when
    the namespace cannot be queried or the project does not exist. *)
Theorem project_report_outcomes (now stamp : timestamp) (id : nat)
    (name : string) (w : World) :
  match generate_project_report now stamp id name w with
  | (r, w') =>
      db w' = db w
      /\ connection_schema_name w' = connection_schema_name w
      /\ outbox w' = outbox w
      /\ match r with
         | Return rep =>
             (exists s p,
                schemas (db w) !! name = Some s
                /\ find (fun p => Nat.eqb (project_id p) id) (projects s) = Some p
                /\ report_project_name rep = project_name p
                /\ total_members rep = size (members p)
                /\ report_total_tasks rep = length (project_tasks s p))
             /\ (overdue_tasks rep <= pending_tasks rep)%nat
             /\ (completed_tasks rep + pending_tasks rep
                 <= report_total_tasks rep)%nat
             /\ generated_at rep = stamp
         | Raise e =>
             log w'
             = (log w ++ [log_error "Error generating report for project" name e])%list
             /\ (schemas (db w) !! name = None -> e = ProgrammingError)
             /\ (forall s, schemas (db w) !! name = Some s -> e = DoesNotExist)
         end
  end.
Proof.
  unfold generate_project_report, try_except, schema_context. unfold_M. simpl.
  destruct (schemas (db w) !! name) as [s|] eqn:Hs; simpl; [|by auto 10].
  destruct (find _ (projects s)) as [p|] eqn:Hp; simpl;
    [|by repeat split].
  destruct (find _ (users s)) as [o|] eqn:Ho; simpl; [|by repeat split].
  do 3 (split; [done|]). split; [by exists s, p|].
  split; [|split; [|done]].
  - apply count_le_of_imp. intros t. unfold is_overdue_pending.
    by intros [_ ?]%andb_true_iff.
  - apply count_disjoint, done_not_pending.
Qed.

(** ** The overdue scan *)

Lemma overdue_is_overdue now t : overdue now t = true <-> is_overdue now t.
Proof.
  unfold overdue, is_overdue. rewrite andb_true_iff.
  assert (match due_date t with Some d => d <? now | None => false end = true
          <-> exists d, due_date t = Some d /\ d < now) as ->.
  { destruct (due_date t) as [d|].
    - rewrite Z.ltb_lt. split; [by eauto|]. by intros (d' & [= <-] & ?).
    - split; [done|]. by intros (d' & ? & _). }
  assert (existsb (fun st => has_status st t) ["todo"; "in_progress"; "review"]
          = true <-> status t ∈ ["todo"; "in_progress"; "review"]) as ->; [|done].
  simpl. unfold has_status. rewrite !orb_true_iff, !String.eqb_eq.
  rewrite !elem_of_cons, elem_of_nil. intuition congruence.
Qed.

Lemma overdue_loop_spec name ts acc :
  overdue_loop name ts acc
  = ((acc.1 + length ts)%nat, (acc.2 ++ reminders name ts)%list).
Proof.
  revert acc. induction ts as [|t ts IH]; intros [n jobs]; simpl.
  - unfold reminders. simpl. by rewrite Nat.add_0_r, app_nil_r.
  - rewrite IH. simpl. f_equal; [lia|]. unfold reminders. simpl.
    destruct (assigned_to t) as [a|]; simpl; by rewrite <-?app_assoc.
Qed.

Lemma overdue_tenants_cons now c cs acc w :
  overdue_tenants now (c :: cs) acc w
  = match try_except
            (schema_context (schema_name c)
               (overdue_tenant now (schema_name c) acc))
            (fun e =>
               logger (log_error "Error checking overdue tasks for tenant"
                         (schema_name c) e);;
               mret acc) w with
    | (Return acc', w') => overdue_tenants now cs acc' w'
    | (Raise e, w') => (Raise e, w')
    end.
Proof. reflexivity. Qed.

Lemma overdue_turn now c acc w :
  exists w',
    try_except
      (schema_context (schema_name c) (overdue_tenant now (schema_name c) acc))
      (fun e =>
         logger (log_error "Error checking overdue tasks for tenant"
                   (schema_name c) e);;
         mret acc) w
    = (Return ((acc.1 + length (tenant_overdue now (db w) c))%nat,
               (acc.2 ++ reminders (schema_name c) (tenant_overdue now (db w) c))%list),
       w')
    /\ db w' = db w
    /\ connection_schema_name w' = connection_schema_name w
    /\ outbox w' = outbox w
    /\ (forall r, r ∈ log w -> r ∈ log w')
    /\ (schemas (db w) !! schema_name c = None ->
        overdue_error (schema_name c) ∈ log w').
Proof.
  unfold try_except, schema_context, overdue_tenant, tenant_overdue. unfold_M.
  simpl. destruct (schemas (db w) !! schema_name c) as [s|] eqn:Hs; simpl.
  - rewrite overdue_loop_spec. eexists. split; [reflexivity|]. simpl.
    repeat split; try done. intros r Hr. apply elem_of_app. by left.
  - destruct acc as [n jobs]. simpl. rewrite Nat.add_0_r, app_nil_r.
    eexists. split; [reflexivity|]. simpl. repeat split; try done.
    + intros r Hr. apply elem_of_app. by left.
    + intros _. apply elem_of_app. right. apply list_elem_of_here.
Qed.

Lemma overdue_tenants_spec now (cs : list Company) :
  forall acc w,
  exists w',
    overdue_tenants now cs acc w
    = (Return ((acc.1 + length (cs ≫= tenant_overdue now (db w)))%nat,
               (acc.2 ++ (cs ≫= fun c => reminders (schema_name c)
                                          (tenant_overdue now (db w) c)))%list),
       w')
    /\ db w' = db w
    /\ connection_schema_name w' = connection_schema_name w
    /\ outbox w' = outbox w
    /\ (forall r, r ∈ log w -> r ∈ log w')
    /\ (forall c, c ∈ cs -> schemas (db w) !! schema_name c = None ->
                  overdue_error (schema_name c) ∈ log w').
Proof.
  induction cs as [|c cs IH]; intros acc w.
  - exists w. simpl. rewrite Nat.add_0_r, app_nil_r. destruct acc.
    repeat split; try done. by intros c ?%elem_of_nil.
  - destruct (overdue_turn now c acc w)
      as (w1 & Hturn & Hdb1 & Hc1 & Ho1 & Hlog1 & Herr1).
    destruct (IH ((acc.1 + length (tenant_overdue now (db w) c))%nat,
                  (acc.2 ++ reminders (schema_name c)
                              (tenant_overdue now (db w) c))%list) w1)
      as (w' & Hrest & Hdb & Hc & Ho & Hlog & Herr).
    exists w'. rewrite overdue_tenants_cons, Hturn, Hrest, Hdb1. simpl.
    split. { rewrite length_app, <-app_assoc, Nat.add_assoc. reflexivity. }
    split; [congruence|]. split; [congruence|]. split; [congruence|].
    split; [auto|].
    intros c' [->|Hc']%elem_of_cons Hnone; [auto|].
    apply Herr; [done|]. by rewrite Hdb1.
Qed.

Lemma reminders_at_most (f : Company -> list Task) (cs : list Company) :
  (length (cs ≫= fun c => reminders (schema_name c) (f c)) <= length (cs ≫= f))%nat.
Proof.
  induction cs as [|c cs IH]; csimpl; [done|].
  rewrite !length_app. unfold reminders at 1. rewrite length_map.
  pose proof (filter_length_le
                (fun t => bool_decide (is_Some (assigned_to t))) (f c)).
  lia.
Qed.

Lemma elem_of_scan_jobs now (d : DB) id name :
  (id, name) ∈ (List.filter company_is_active (companies d)
                ≫= fun c => reminders (schema_name c) (tenant_overdue now d c))
  <-> active_namespace d name
      /\ exists s t, schemas d !! name = Some s /\ t ∈ tasks s
                     /\ task_id t = id /\ is_overdue now t
                     /\ is_Some (assigned_to t).
Proof.
  rewrite list_elem_of_bind. unfold reminders, tenant_overdue.
  split.
  + intros (c & Hjob & Hc'). apply elem_of_List_filter in Hc' as [Hc' Hact].
    apply list_elem_of_fmap in Hjob as (t & [= -> ->] & Ht).
    apply elem_of_List_filter in Ht as [Ht Has%bool_decide_eq_true].
    destruct (schemas d !! schema_name c) as [s|] eqn:Hs;
      [|by apply elem_of_nil in Ht].
    apply elem_of_order_by_desc, elem_of_List_filter in Ht as [Ht Hov].
    split; [by exists c|]. exists s, t. by rewrite <-overdue_is_overdue.
  + intros ((c & Hc' & Hact & <-) & s & t & Hs & Ht & <- & Hov & Has).
    exists c. split; [|by apply elem_of_List_filter].
    apply list_elem_of_fmap. exists t. split; [done|].
    apply elem_of_List_filter. split; [|by apply bool_decide_eq_true].
    rewrite Hs. apply elem_of_order_by_desc, elem_of_List_filter.
    by rewrite overdue_is_overdue.
Qed.

(** X12. [check_overdue_tasks] always returns, reads only: the store, the
    connection and the sent mail are as before.  It hands the queue a
    reminder for a task of a namespace exactly when the namespace belongs to
    an active company and the task is past its due date, not done, and has
    an assignee; the total it reports counts the tasks without assignee too;
    an active company whose namespace cannot be queried gets an error in the
    log and the scan goes on. *)
Theorem overdue_scan_reminds_assigned (now : timestamp) (w : World) :
  exists total jobs w',
    check_overdue_tasks now w = (Return (total, jobs), w')
    /\ db w' = db w
    /\ connection_schema_name w' = connection_schema_name w
    /\ outbox w' = outbox w
    /\ (forall id name,
          (id, name) ∈ jobs
          <-> active_namespace (db w) name
              /\ exists s t, schemas (db w) !! name = Some s /\ t ∈ tasks s
                             /\ task_id t = id /\ is_overdue now t
                             /\ is_Some (assigned_to t))
    /\ (length jobs <= total)%nat
    /\ (forall name, active_namespace (db w) name ->
                     schemas (db w) !! name = None ->
                     overdue_error name ∈ log w').
Proof.
  destruct (overdue_tenants_spec now
              (List.filter company_is_active (companies (db w))) (0%nat, []) w)
    as (w' & Hrun & Hdb & Hc & Ho & _ & Herr).
  eexists _, _, w'. split; [exact Hrun|]. do 3 (split; [done|]). simpl.
  split; [|split].
  - intros id name. apply elem_of_scan_jobs.
  - apply reminders_at_most.
  - intros name (c & Hc' & Hact & <-) Hnone. apply Herr; [|done].
    by apply elem_of_List_filter.
Qed.

Lemma overdue_scan_reminds_assigned_witness :
  exists w',
    check_overdue_tasks 5000 overdue_world
    = (Return (2%nat, [(1%nat, "acme")]), w')
    /\ db w' = db overdue_world.
Proof.
  destruct (overdue_scan_reminds_assigned 5000 overdue_world)
    as (total & jobs & w' & Hrun & Hdb & _).
  exists w'. split; [|exact Hdb]. rewrite Hrun.
  vm_compute in Hrun. by injection Hrun as <- <- _.
Defined.

(** ** The caller's profile *)

Lemma find_app_last {A} (f : A -> bool) (l : list A) (x : A) :
  find f l = None -> f x = true -> find f (l ++ [x]) = Some x.
Proof.
  intros Hnone Hx. induction l as [|y l IH]; simpl in *; [by rewrite Hx|].
  destruct (f y); [done|]. by apply IH.
Qed.

(** X13. [me] returns the caller's profile, creating it with the default
    role when there is none; asking again returns the same profile and
    writes nothing. *)
Theorem me_is_idempotent (user : User) (w w1 : World) (p : UserProfile) :
  UserViewSet_me user w = (Return (HTTP_200_OK p), w1) ->
  profile_user p = user_id user
  /\ UserViewSet_me user w1 = (Return (HTTP_200_OK p), w1)
  /\ (forall s, schemas (db w) !! connection_schema_name w = Some s ->
                profile_of s (user_id user) = None ->
                role p = "member" /\ profile_is_active p = true)
  /\ (forall s, schemas (db w) !! connection_schema_name w = Some s ->
                profile_of s (user_id user) = Some p \/
                profile_of s (user_id user) = None).
Proof.
  unfold UserViewSet_me, UserProfile_objects_get_or_create,
    UserProfile_objects_create. unfold_M.
  destruct (schemas (db w) !! connection_schema_name w) as [s|] eqn:Hs; [|done].
  destruct (profile_of s (user_id user)) as [p0|] eqn:Hp.
  - intros H. simplify_eq. rewrite Hs, Hp.
    split; [by apply find_elem_of in Hp as [_ Hid%Nat.eqb_eq]|].
    split; [done|]. split.
    + intros s' ? ?. congruence.
    + intros s' ?. left. congruence.
  - rewrite Hs, Hp. simpl. intros H. simplify_eq. simpl.
    rewrite lookup_insert_eq. unfold profile_of at 1. simpl.
    rewrite find_app_last; [|exact Hp|apply Nat.eqb_refl].
    split; [done|]. split; [done|]. split; [done|].
    intros s' ?. right. congruence.
Qed.

Lemma me_is_idempotent_witness :
  exists p w1,
    UserViewSet_me carol (tenant_world []) = (Return (HTTP_200_OK p), w1)
    /\ role p = "member"
    /\ UserViewSet_me carol w1 = (Return (HTTP_200_OK p), w1).
Proof.
  assert (exists p w1, UserViewSet_me carol (tenant_world [])
                       = (Return (HTTP_200_OK p), w1)) as (p & w1 & Hrun)
    by (eexists _, _; vm_compute; reflexivity).
  exists p, w1. split; [exact Hrun|].
  destruct (me_is_idempotent carol (tenant_world []) w1 p Hrun)
    as (_ & Hagain & Hnew & _).
  split; [|exact Hagain].
  apply (Hnew (tenant_schema [])); vm_compute; reflexivity.
Defined.

(** ** A new project *)

Lemma char_field_inr value v :
  char_field value = inr v ->
  v = Text.strip value /\ v <> "" /\ (String.length v <= 255)%nat
  /\ Text.contains_char Text.null_char v = false.
Proof.
  unfold char_field. cbv zeta.
  destruct (String.eqb_spec (Text.strip value) ""); [done|].
  destruct (Nat.ltb_spec 255 (String.length (Text.strip value))); simpl; [done|].
  destruct (Text.contains_char _ _) eqn:Hnull; simpl; [done|]. by intros [= <-].
Qed.

Lemma choice_field_elem_of choices value :
  value ∈ choices -> choice_field choices value = Valid value.
Proof.
  intros Hin. unfold choice_field.
  replace (existsb (String.eqb value) choices) with true; [done|].
  symmetry. apply existsb_exists. exists value.
  split; [by apply list_elem_of_In|apply String.eqb_refl].
Qed.

Lemma choice_field_Valid choices value y :
  choice_field choices value = Valid y -> y = value /\ value ∈ choices.
Proof.
  unfold choice_field.
  destruct (existsb (String.eqb value) choices) eqn:E; [|done].
  intros [= <-]. split; [done|].
  apply existsb_exists in E as (c & Hc & ->%String.eqb_eq).
  by apply list_elem_of_In.
Qed.

Lemma ProjectSerializer_is_valid_inr s data name ms :
  ProjectSerializer_is_valid s data = inr (name, ms) ->
  char_field (payload_name data) = inr name
  /\ payload_project_status data ∈ PROJECT_STATUS_CHOICES
  /\ ms = list_to_set (payload_member_ids data).
Proof.
  unfold ProjectSerializer_is_valid, member_ids_field.
  destruct (char_field (payload_name data)),
    (choice_field PROJECT_STATUS_CHOICES (payload_project_status data)) eqn:Hst,
    (forallb _ (payload_member_ids data));
    intros H; inversion H; subst.
  by apply choice_field_Valid in Hst as [_ Hst].
Qed.

(** X14. A project that has just been created is owned by its creator,
    carries the stripped name of the payload, and has a key that no project
    of the store has; the creator reaches it through his query set, and a
    task that he then creates in it, with a title, a priority, a status and
    an assignee that their fields accept, is answered 201 and carries
    them. *)
Theorem created_project_accepts_tasks (now later : timestamp) (user : User)
    (data : ProjectPayload) (tdata : TaskPayload) (w w1 : World) (s : Schema)
    (p : Project) (ttl : string) (a : option nat) :
  schemas (db w) !! connection_schema_name w = Some s ->
  ProjectViewSet_create now user data w = (Return (HTTP_201_CREATED p), w1) ->
  payload_project tdata = project_id p ->
  char_field (payload_title tdata) = inr ttl ->
  payload_priority tdata ∈ PRIORITY_CHOICES ->
  payload_status tdata ∈ STATUS_CHOICES ->
  assigned_to_field s (payload_assigned_to_id tdata) = Valid a ->
  owner p = user_id user
  /\ project_name p = Text.strip (payload_name data)
  /\ (forall q, q ∈ projects s -> project_id q <> project_id p)
  /\ (forall i, i ∈ members p <-> i ∈ payload_member_ids data)
  /\ exists s1 t w2,
       schemas (db w1) !! connection_schema_name w1 = Some s1
       /\ projects s1 = (projects s ++ [p])%list
       /\ ProjectViewSet_get_object s1 user (project_id p) = Some p
       /\ TaskViewSet_create later user tdata w1 = (Return (HTTP_201_CREATED t), w2)
       /\ project t = project_id p /\ created_by t = user_id user
       /\ title t = ttl /\ priority t = payload_priority tdata
       /\ status t = payload_status tdata /\ assigned_to t = a.
Proof.
  intros Hs. unfold ProjectViewSet_create. unfold_M. rewrite Hs.
  destruct (ProjectSerializer_is_valid s data) as [errors|[name ms]] eqn:Hv;
    [done|].
  apply ProjectSerializer_is_valid_inr in Hv as (Hname & _ & ->).
  apply char_field_inr in Hname as [-> _].
  simpl. intros H Hpk Httl Hprio Hstat Ha. simplify_eq. simpl in *.
  set (p := {| project_id := next_id (map project_id (projects s));
               project_name := Text.strip (payload_name data);
               project_status := payload_project_status data;
               owner := user_id user;
               members := list_to_set (payload_member_ids data);
               project_created_at := now |}) in *.
  assert (forall q, q ∈ projects s -> project_id q <> project_id p) as Hfresh.
  { intros q Hq. simpl.
    pose proof (next_id_above (map project_id (projects s)) (project_id q)
                  (list_elem_of_fmap_2 _ _ _ Hq)). lia. }
  assert (forall l : list Project,
            (forall q, q ∈ l -> q = p \/ q ∈ projects s) -> p ∈ l ->
            find (fun q => Nat.eqb (project_id q) (project_id p)) l = Some p)
    as Hfind.
  { intros l Hl Hin. apply find_unique; [|done|apply Nat.eqb_refl].
    intros q Hq Hid%Nat.eqb_eq. destruct (Hl q Hq) as [->|Hq']; [done|].
    by destruct (Hfresh q Hq'). }
  split; [done|]. split; [done|]. split; [exact Hfresh|].
  split; [intros i; apply elem_of_list_to_set|].
  eexists _, _, _. split; [apply lookup_insert_eq|]. split; [reflexivity|].
  split.
  { apply Hfind.
    - intros q [Hq _]%elem_of_accessible_projects. simpl in Hq.
      apply elem_of_app in Hq as [Hq|Hq%list_elem_of_singleton]; auto.
    - apply elem_of_accessible_projects. simpl. split.
      + apply elem_of_app. right. apply list_elem_of_here.
      + unfold is_owner. simpl. by rewrite Nat.eqb_refl. }
  unfold TaskViewSet_create. unfold_M.
  cbn [db schemas connection_schema_name]. rewrite lookup_insert_eq.
  cbv beta iota.
  erewrite (TaskSerializer_is_valid_accepts _ user tdata p ttl _ _ a);
    [by repeat split| |done|by apply choice_field_elem_of
    |by apply choice_field_elem_of|exact Ha].
  unfold project_field. cbn [projects]. rewrite Hpk, Hfind.
  - unfold validate_project, is_owner. cbn [owner]. by rewrite Nat.eqb_refl.
  - intros q [Hq|Hq%list_elem_of_singleton]%elem_of_app; auto.
  - apply elem_of_app. right. apply list_elem_of_here.
Qed.

Lemma created_project_accepts_tasks_witness :
  exists p w1 t w2,
    ProjectViewSet_create 7000 carol roadmap_payload (tenant_world [])
    = (Return (HTTP_201_CREATED p), w1)
    /\ owner p = 3%nat /\ project_id p = 2%nat
    /\ TaskViewSet_create 7100 carol roadmap_task w1
       = (Return (HTTP_201_CREATED t), w2)
    /\ project t = 2%nat /\ title t = "Draft".
Proof.
  assert (exists p w1, ProjectViewSet_create 7000 carol roadmap_payload
                         (tenant_world []) = (Return (HTTP_201_CREATED p), w1)
                       /\ project_id p = 2%nat) as (p & w1 & Hrun & Hid)
    by (eexists _, _; split; [vm_compute; reflexivity|reflexivity]).
  destruct (created_project_accepts_tasks 7000 7100 carol roadmap_payload
              roadmap_task (tenant_world []) w1 (tenant_schema []) p "Draft"
              (Some 3%nat))
    as (Ho & _ & _ & _ & s1 & t & w2 & _ & _ & _ & Htask & Hproj & _ & Httl & _).
  - vm_compute. reflexivity.
  - exact Hrun.
  - by rewrite Hid.
  - vm_compute. reflexivity.
  - apply list_elem_of_further, list_elem_of_here.
  - apply list_elem_of_here.
  - vm_compute. reflexivity.
  - exists p, w1, t, w2. rewrite Hproj, Hid. by repeat split.
Defined.

(** ** The namespace of a new company *)

(** X15. When a company is registered under a schema name that is new and
    not the public one, its namespace holds the admin identity and nothing
    else but the profile that the [post_save] receiver made for it: one
    profile, of role "member". *)
Theorem new_tenant_admin_profile (data : CompanyRegistration) (w w' : World)
    (r : RegistrationResult) :
  register_company data w = (Return (HTTP_201_CREATED r), w') ->
  Text.lower (reg_schema_name data) <> public ->
  schemas (db w) !! Text.lower (reg_schema_name data) = None ->
  exists s' p,
    schemas (db w') !! Text.lower (reg_schema_name data) = Some s'
    /\ users s' = [admin_user r]
    /\ is_staff (admin_user r) = true /\ is_superuser (admin_user r) = true
    /\ profiles s' = [p]
    /\ profile_user p = user_id (admin_user r)
    /\ role p = "member"
    /\ projects s' = [] /\ tasks s' = [].
Proof.
  intros H Hpub Hnew.
  assert (negb (String.eqb (Text.lower (reg_schema_name data)) public) = true)
    as Hneg by (by apply negb_true_iff, String.eqb_neq).
  unfold register_company, CompanyRegistrationSerializer_is_valid,
    validate_schema_name, validate_domain_url,
    CompanyRegistrationSerializer_create, transaction_atomic,
    Company_objects_create, Domain_objects_create, User_objects_create_user,
    post_save_User, create_user_profile, save_user_profile,
    UserProfile_objects_get_or_create, UserProfile_objects_create,
    UserProfile_save in H.
  unfold_M. split_cases.
  all: repeat match goal with
       | H : <[?k := _]> _ !! ?k = Some _ |- _ =>
           rewrite lookup_insert_eq in H; simplify_eq; simpl in *
       end.
  all: unfold profile_of in *; simpl in *; simplify_eq.
  all: try congruence.
  all: eexists _, _; (split; [apply lookup_insert_eq|]); simpl; by repeat split.
Qed.

Lemma new_tenant_admin_profile_witness :
  exists s' p,
    schemas (db acme_world) !! "acme" = Some s'
    /\ map username (users s') = ["admin"]
    /\ profiles s' = [p] /\ role p = "member".
Proof.
  assert (exists r, register_company acme_request fresh_world
                    = (Return (HTTP_201_CREATED r), acme_world)) as (r & Hrun)
    by (eexists; vm_compute; reflexivity).
  destruct (new_tenant_admin_profile acme_request fresh_world acme_world r Hrun)
    as (s' & p & Hs & Hu & _ & _ & Hp & _ & Hrole & _).
  - vm_compute. discriminate.
  - vm_compute. reflexivity.
  - exists s', p. split; [exact Hs|]. split; [|by split].
    rewrite Hu. vm_compute in Hrun. by injection Hrun as <-.
Defined.

(** ** Running the cleanup again *)

(** X16. Running [cleanup_old_data] a second time with the same clock and
    the same number of days changes nothing in the store. *)
Theorem cleanup_is_idempotent (now days : Z) (w : World) :
  db (cleanup_old_data now days (cleanup_old_data now days w).2).2
  = db (cleanup_old_data now days w).2.
Proof.
  destruct (cleanup_old_data_cases now days w) as [[Hvalid _]|Hraise].
  2: { rewrite Hraise. simpl. by rewrite Hraise. }
  destruct (cleanup_old_data_spec now days w Hvalid)
    as (n1 & w1 & -> & [Hc1 Hd1 _ _ _] & Hact1 & Hin1 & _). simpl.
  destruct (cleanup_old_data_spec now days w1 Hvalid)
    as (n2 & w2 & -> & [Hc2 Hd2 _ _ _] & Hact2 & Hin2 & _). simpl.
  apply DB_eq; [done|done|]. apply map_eq. intros name.
  assert (active_namespace (db w1) name <-> active_namespace (db w) name) as Hsame.
  { unfold active_namespace. by rewrite Hc1. }
  destruct (decide (name ∈ map schema_name
                      (List.filter company_is_active (companies (db w)))))
    as [Hact%elem_of_active_names|Hact].
  - rewrite Hact2, Hact1 by by rewrite ?Hsame.
    destruct (schemas (db w) !! name) as [s|]; simpl; [|done].
    by rewrite clean_schema_idemp.
  - rewrite elem_of_active_names in Hact. by rewrite Hin2 by by rewrite Hsame.
Qed.

(** ** What the dashboard shows *)

Lemma elem_of_take_list {A} (n : nat) (l : list A) x : x ∈ take n l -> x ∈ l.
Proof.
  revert n. induction l as [|y l IH]; intros [|n]; simpl;
    try by intros ?%elem_of_nil.
  intros [->|Hx]%elem_of_cons; [apply list_elem_of_here|].
  apply list_elem_of_further. by apply (IH n).
Qed.

(** X17. The dashboard only reads.  It shows at most five projects, all of
    them owned by the caller or with the caller among the members, and at
    most five tasks, all of them assigned to the caller and of such a
    project; the caller's own total is at most the total of tasks. *)
Theorem dashboard_shows_only_own (user : User) (w w' : World) (s : Schema)
    (st : DashboardStats) :
  schemas (db w) !! connection_schema_name w = Some s ->
  dashboard_stats user w = (Return (HTTP_200_OK st), w') ->
  w' = w
  /\ (length (dashboard_projects st) <= 5)%nat
  /\ (forall p, p ∈ dashboard_projects st ->
                p ∈ projects s /\ (is_owner user p || is_member user p) = true)
  /\ (length (recent_tasks st) <= 5)%nat
  /\ (forall t, t ∈ recent_tasks st ->
                t ∈ tasks s /\ assigned_to t = Some (user_id user)
                /\ in_accessible_project s user t)
  /\ (exists mine, dict_get "total" (my_tasks st) = Some mine
                   /\ (mine <= total_tasks st)%nat).
Proof.
  intros Hs. unfold dashboard_stats. unfold_M. rewrite Hs.
  intros H. simplify_eq. simpl. split; [done|].
  split; [rewrite length_take; lia|]. split.
  { intros p Hp%elem_of_take_list. by apply elem_of_accessible_projects. }
  split; [rewrite length_take; lia|]. split.
  { intros t Ht%elem_of_take_list%elem_of_order_by_desc.
    apply elem_of_List_filter in Ht as [Ht Hme].
    apply elem_of_accessible_tasks in Ht as [Ht Hacc].
    split; [done|]. split; [|done].
    unfold assigned_to_user in Hme. destruct (assigned_to t) as [i|]; [|done].
    by apply Nat.eqb_eq in Hme as ->. }
  eexists. split; [reflexivity|]. apply filter_length_le.
Qed.

Lemma dashboard_shows_only_own_witness :
  exists st,
    dashboard_stats bob (tenant_world two_tasks)
    = (Return (HTTP_200_OK st), tenant_world two_tasks)
    /\ (length (dashboard_projects st) <= 5)%nat
    /\ (length (recent_tasks st) <= 5)%nat.
Proof.
  assert (exists st, dashboard_stats bob (tenant_world two_tasks)
                     = (Return (HTTP_200_OK st), tenant_world two_tasks))
    as (st & Hrun) by (eexists; vm_compute; reflexivity).
  exists st. split; [exact Hrun|].
  destruct (dashboard_shows_only_own bob (tenant_world two_tasks)
              (tenant_world two_tasks) (tenant_schema two_tasks) st)
    as (_ & Hp & _ & Ht & _).
  - vm_compute. reflexivity.
  - exact Hrun.
  - by split.
Defined.

(** ** Membership changes that change nothing *)

Lemma replace_project_same s p :
  NoDup (map project_id (projects s)) -> p ∈ projects s ->
  replace_project p s = s.
Proof.
  intros Hnd Hin. unfold replace_project.
  rewrite (map_replace_same project_id (projects s) p Hnd Hin). by destruct s.
Qed.

(** X18. Adding an identity that is already a member, and removing one that
    is not a member, are answered 200 with the project as it is, and the
    store does not change. *)
Theorem membership_noop (user : User) (target : option nat) (w : World)
    (s : Schema) (p : Project) (u : User) :
  schemas (db w) !! connection_schema_name w = Some s ->
  NoDup (map project_id (projects s)) ->
  p ∈ projects s ->
  is_owner user p = true ->
  User_objects_get s target = Some u ->
  (user_id u ∈ members p ->
   exists w', ProjectViewSet_add_member user (project_id p) target w
              = (Return (HTTP_200_OK p), w')
              /\ db w' = db w)
  /\ (user_id u ∉ members p ->
      exists w', ProjectViewSet_remove_member user (project_id p) target w
                 = (Return (HTTP_200_OK p), w')
                 /\ db w' = db w).
Proof.
  intros Hs Hnd Hin Ho Hu.
  unfold ProjectViewSet_add_member, ProjectViewSet_remove_member. unfold_M.
  rewrite Hs. rewrite get_object_accessible by (done || by rewrite Ho).
  rewrite Ho, Hu. simpl.
  assert (<[connection_schema_name w:=replace_project p s]> (schemas (db w))
          = schemas (db w)) as Hsame.
  { rewrite replace_project_same by done. by apply insert_id. }
  split; intros Hm.
  - assert ({[user_id u]} ∪ members p = members p) as Heq.
    { apply set_eq. intros x. rewrite elem_of_union, elem_of_singleton.
      split; [intros [->|]|]; auto. }
    rewrite Heq, with_members_same. eexists. split; [reflexivity|].
    by apply DB_eq.
  - assert (members p ∖ {[user_id u]} = members p) as Heq.
    { apply set_eq. intros x. rewrite elem_of_difference, elem_of_singleton.
      split; [tauto|]. intros Hx. split; [done|]. by intros ->. }
    rewrite Heq, with_members_same. eexists. split; [reflexivity|].
    by apply DB_eq.
Qed.

Lemma membership_noop_witness :
  (exists w', ProjectViewSet_add_member alice 1 (Some 2%nat) (tenant_world [])
              = (Return (HTTP_200_OK launch), w')
              /\ db w' = db (tenant_world []))
  /\ (exists w', ProjectViewSet_remove_member alice 1 (Some 3%nat) (tenant_world [])
                 = (Return (HTTP_200_OK launch), w')
                 /\ db w' = db (tenant_world [])).
Proof.
  assert (schemas (db (tenant_world [])) !! connection_schema_name (tenant_world [])
          = Some (tenant_schema [])) as Hs by (vm_compute; reflexivity).
  assert (NoDup (map project_id (projects (tenant_schema [])))) as Hnd
    by apply NoDup_singleton.
  assert (launch ∈ projects (tenant_schema [])) as Hin by apply list_elem_of_here.
  split.
  - apply (membership_noop alice (Some 2%nat) _ _ launch bob Hs Hnd Hin);
      [reflexivity..|].
    change (2%nat ∈ ({[2%nat]} : gset nat)). by apply elem_of_singleton.
  - apply (membership_noop alice (Some 3%nat) _ _ launch carol Hs Hnd Hin);
      [reflexivity..|].
    change (3%nat ∉ ({[2%nat]} : gset nat)).
    intros H%elem_of_singleton. discriminate.
Defined.

(** ** A new task *)

(** X19. A task that has just been created is in its creator's task list,
    and it is there under the creator's name as [created_by]. *)
Theorem created_task_is_listed (now : timestamp) (user : User)
    (data : TaskPayload) (w w' : World) (t : Task) :
  TaskViewSet_create now user data w = (Return (HTTP_201_CREATED t), w') ->
  exists s s',
    schemas (db w) !! connection_schema_name w = Some s
    /\ schemas (db w') !! connection_schema_name w' = Some s'
    /\ tasks s' = (tasks s ++ [t])%list
    /\ created_by t = user_id user
    /\ project t = payload_project data
    /\ t ∈ TaskViewSet_get_queryset s' user no_query
    /\ (forall x, x ∈ TaskViewSet_get_queryset s user no_query ->
                  x ∈ TaskViewSet_get_queryset s' user no_query).
Proof.
  unfold TaskViewSet_create. unfold_M.
  destruct (schemas (db w) !! connection_schema_name w) as [s|] eqn:Hs; [|done].
  destruct (TaskSerializer_is_valid s user data) as [errors|[[p ttl] a]] eqn:Hv;
    [done|].
  apply TaskSerializer_is_valid_inr in Hv as [Hv _].
  unfold project_field, validate_project in Hv.
  destruct (find _ (projects s)) as [p0|] eqn:Hp; [|done].
  destruct (negb (is_owner user p0) && negb (is_member user p0)) eqn:Hacc; [done|].
  intros H. simplify_eq. simpl.
  apply find_elem_of in Hp as [Hin Hid%Nat.eqb_eq].
  assert ((is_owner user p || is_member user p) = true) as Hacc'.
  { destruct (is_owner user p), (is_member user p); done. }
  eexists s, _. split; [done|]. split; [apply lookup_insert_eq|].
  simpl. do 3 (split; [done|]). split.
  - apply elem_of_task_queryset. simpl.
    split; [apply elem_of_app; right; apply list_elem_of_here|].
    split; [by exists p|]. by repeat split.
  - intros x (Hx & Hp' & Hq)%elem_of_task_queryset.
    apply elem_of_task_queryset. simpl.
    split; [apply elem_of_app; by left|]. by split.
Qed.

Lemma created_task_is_listed_witness :
  exists t w' s',
    TaskViewSet_create 5000 bob carol_payload (tenant_world [])
    = (Return (HTTP_201_CREATED t), w')
    /\ schemas (db w') !! connection_schema_name w' = Some s'
    /\ t ∈ TaskViewSet_get_queryset s' bob no_query.
Proof.
  assert (exists t w', TaskViewSet_create 5000 bob carol_payload (tenant_world [])
                       = (Return (HTTP_201_CREATED t), w')) as (t & w' & Hrun)
    by (eexists _, _; vm_compute; reflexivity).
  destruct (created_task_is_listed 5000 bob carol_payload (tenant_world []) w' t
              Hrun) as (s & s' & _ & Hs' & _ & _ & _ & Hin & _).
  by exists t, w', s'.
Defined.

(** ** Jobs after requests *)

(** X20. A task marked complete at time [stamp] in the namespace of an
    active company survives a later cleanup exactly when [stamp] is not
    before the cut-off [now - days], or when there is no such date and the
    cleanup raises before it deletes anything. *)
Theorem completed_task_purged_after_days (stamp now days : Z) (user : User)
    (q : TaskQuery) (pk : nat) (w w1 : World) (t' : Task) :
  TaskViewSet_mark_complete stamp user q pk w = (Return (HTTP_200_OK t'), w1) ->
  active_namespace (db w1) (connection_schema_name w1) ->
  exists s2,
    schemas (db (cleanup_old_data now days w1).2) !! connection_schema_name w1
    = Some s2
    /\ (t' ∈ tasks s2
        <-> ~ valid_cutoff now days \/ now - timedelta_days days <= stamp).
Proof.
  unfold TaskViewSet_mark_complete. unfold_M.
  destruct (schemas (db w) !! connection_schema_name w) as [s|] eqn:Hs; [|done].
  destruct (TaskViewSet_get_object s user q pk) as [t|] eqn:Ht; [|done].
  intros H Hact. simplify_eq. simpl in *.
  apply find_elem_of in Ht as [(Hin & _)%elem_of_task_queryset _].
  assert (completed t stamp ∈ tasks (replace_task (completed t stamp) s)) as Hthere.
  { apply list_elem_of_fmap. exists t. by rewrite Nat.eqb_refl. }
  set (w1 := {| db := {| companies := companies (db w); domains := domains (db w);
                         schemas := <[connection_schema_name w :=
                                        replace_task (completed t stamp) s]>
                                      (schemas (db w)) |};
                connection_schema_name := connection_schema_name w;
                log := log w; outbox := outbox w |}) in *.
  destruct (cleanup_old_data_cases now days w1) as [[Hvalid _]|Hraise].
  2: { rewrite Hraise. simpl. rewrite lookup_insert_eq. eexists. split; [done|].
       split; [|done]. intros _. left. intros Hvalid.
       unfold cleanup_old_data in Hraise.
       by rewrite (cutoff_of_valid _ _ Hvalid) in Hraise;
         destruct (cleanup_loop_spec (now - timedelta_days days)
                     (List.filter company_is_active (companies (db w1))) 0%nat w1)
           as (? & ? & Hrun & _); unfold_M; simpl in *; rewrite Hrun in Hraise. }
  destruct (cleanup_old_data_spec now days w1 Hvalid)
    as (n & w2 & -> & _ & Hclean & _). simpl in *.
  rewrite (Hclean _ Hact), lookup_insert_eq. simpl. eexists. split; [done|].
  rewrite elem_of_clean_schema. unfold expired. simpl. split.
  - intros [_ Hkeep]. right. apply Z.nlt_ge. intros Hlt. apply Hkeep. eauto.
  - intros [Hno|Hle]; [done|]. split; [done|].
    intros [_ (c & [= <-] & Hlt)]. lia.
Qed.

Lemma completed_task_purged_after_days_witness :
  exists t' w1 s2 s3 s4,
    TaskViewSet_mark_complete (timedelta_days 9) bob no_query 1
      (tenant_world two_tasks) = (Return (HTTP_200_OK t'), w1)
    /\ schemas (db (cleanup_old_data (timedelta_days 100) 90 w1).2) !! "acme"
       = Some s2
    /\ (t' ∉ tasks s2)
    /\ schemas (db (cleanup_old_data (timedelta_days 50) 90 w1).2) !! "acme"
       = Some s3
    /\ t' ∈ tasks s3
    /\ schemas (db (cleanup_old_data (timedelta_days 100) (-3000000) w1).2) !! "acme"
       = Some s4
    /\ t' ∈ tasks s4.
Proof.
  assert (exists t' w1, TaskViewSet_mark_complete (timedelta_days 9) bob no_query 1
                          (tenant_world two_tasks) = (Return (HTTP_200_OK t'), w1)
                        /\ connection_schema_name w1 = "acme"
                        /\ companies (db w1) = companies (db (tenant_world two_tasks)))
    as (t' & w1 & Hrun & Hconn & Hcs)
    by (eexists _, _; split; [vm_compute; reflexivity|by split]).
  assert (active_namespace (db w1) (connection_schema_name w1)) as Hact.
  { rewrite Hconn. unfold active_namespace. rewrite Hcs. eexists.
    split; [apply list_elem_of_here|]. by split. }
  destruct (completed_task_purged_after_days (timedelta_days 9)
              (timedelta_days 100) 90 bob no_query 1 _ w1 t' Hrun Hact)
    as (s2 & Hs2 & Hiff2).
  destruct (completed_task_purged_after_days (timedelta_days 9)
              (timedelta_days 50) 90 bob no_query 1 _ w1 t' Hrun Hact)
    as (s3 & Hs3 & Hiff3).
  destruct (completed_task_purged_after_days (timedelta_days 9)
              (timedelta_days 100) (-3000000) bob no_query 1 _ w1 t' Hrun Hact)
    as (s4 & Hs4 & Hiff4).
  rewrite Hconn in Hs2, Hs3, Hs4. exists t', w1, s2, s3, s4.
  split; [exact Hrun|]. split; [exact Hs2|].
  split; [|split; [exact Hs3|split; [|split; [exact Hs4|]]]].
  - rewrite Hiff2. intros [Hno|Hle].
    + apply Hno. vm_compute. intuition discriminate.
    + vm_compute in Hle. by apply Hle.
  - apply Hiff3. right. vm_compute. discriminate.
  - apply Hiff4. left. intros [_ [_ Hmax]]. vm_compute in Hmax. by apply Hmax.
Defined.

(** X21. A reminder that the overdue scan has handed to the queue finds
    its namespace and a task of its key when it runs on the store the scan
    has seen: it returns, unless the assignee has an address and the backend
    refuses the message, which is then the exception raised. *)
Theorem scanned_reminder_runs (backend : Backend) (now : timestamp)
    (w w' : World) (total : nat) (jobs : list ReminderJob) (id : nat)
    (name : string) :
  check_overdue_tasks now w = (Return (total, jobs), w') ->
  (id, name) ∈ jobs ->
  exists s t,
    schemas (db w') !! name = Some s
    /\ Task_objects_get s id = Some t
    /\ ((exists r w2, send_task_reminder_email backend id name w' = (Return r, w2))
        \/ (exists u w2,
              User_objects_get s (assigned_to t) = Some u
              /\ email u <> ""
              /\ backend (reminder_mail t (email u)) = false
              /\ send_task_reminder_email backend id name w'
                 = (Raise SMTPException, w2))).
Proof.
  destruct (overdue_tenants_spec now
              (List.filter company_is_active (companies (db w))) (0%nat, []) w)
    as (w1 & Hrun & Hdb & _).
  unfold check_overdue_tasks. unfold_M. rewrite Hrun. simpl.
  intros H Hjob. simplify_eq.
  apply elem_of_scan_jobs in Hjob as (_ & s & t & Hs & Ht & Hid & _).
  exists s. rewrite Hdb.
  destruct (Task_objects_get s id) as [t0|] eqn:Hget.
  2: { unfold Task_objects_get in Hget. apply list_elem_of_In in Ht.
       pose proof (find_none _ _ Hget t Ht) as Hno. simpl in Hno.
       rewrite Hid, Nat.eqb_refl in Hno. discriminate. }
  exists t0. split; [done|]. split; [done|].
  unfold send_task_reminder_email, try_except, schema_context. unfold_M.
  simpl. rewrite Hdb, Hs. simpl. rewrite Hget. simpl.
  destruct (User_objects_get s (assigned_to t0)) as [u|]; simpl; [|by eauto].
  destruct (String.eqb (email u) "") eqn:He; simpl; [by eauto|].
  apply String.eqb_neq in He.
  change {| mail_subject := "Task Reminder: " ++ title t0; mail_to := [email u] |}
    with (reminder_mail t0 (email u)).
  destruct (backend (reminder_mail t0 (email u))) eqn:Hb; simpl; [by eauto|].
  right. exists u. eexists. by repeat split.
Qed.

Lemma scanned_reminder_runs_witness :
  exists s t,
    schemas (db (check_overdue_tasks 5000 overdue_world).2) !! "acme" = Some s
    /\ Task_objects_get s 1 = Some t
    /\ ((exists r w2,
           send_task_reminder_email refuses 1 "acme"
             (check_overdue_tasks 5000 overdue_world).2 = (Return r, w2))
        \/ (exists u w2,
              User_objects_get s (assigned_to t) = Some u
              /\ email u <> ""
              /\ refuses (reminder_mail t (email u)) = false
              /\ send_task_reminder_email refuses 1 "acme"
                   (check_overdue_tasks 5000 overdue_world).2
                 = (Raise SMTPException, w2))).
Proof.
  apply (scanned_reminder_runs refuses 5000 overdue_world _ 2%nat [(1%nat, "acme")]).
  - vm_compute. reflexivity.
  - apply list_elem_of_here.
Defined.
